(** * pdftool: the task orchestrator of the PDF translation service

    A shallow embedding of the Go packages [model], [translator] and
    [service] (task and page records, the page-translation worker pool, the
    chunked formatting pipeline, the meta.json store), followed by the
    properties proved about them.

    Conventions.
    - A Go [string] and a Go [[]byte] are a Rocq [string]: a sequence of
      8-bit bytes, not of characters.
    - A Go [int] is a [Z]; the quantities below (page numbers, chunk counts,
      byte sizes, token budgets) stay far inside 64 bits.
    - A [time.Time] is a [Z] (an instant); every [time.Now()] of one
      operation reads the clock of the world the operation runs in.
    - The filesystem is the part of it the service owns: one JSON document
      per task (meta.json) and the text artifacts, see [World]. *)

From Stdlib Require Import ZArith Lia Bool String Ascii List.
From stdpp Require Import base option list gmap strings pretty.

Open Scope string_scope.
Open Scope Z_scope.

(** ** Standard-library functions the service calls

    The Unicode tables behind [strings.TrimSpace] and [strings.ToLower], and
    the path algebra of [path] and [path/filepath], are not part of the
    program. They are an interface here, and every theorem holds for every
    implementation of it. [ascii_lib] below is the implementation used to
    run the model on concrete inputs. *)

Class GoLib := {
  strings_TrimSpace : string -> string;
  strings_ToLower : string -> string;
  strings_TrimSuffix : string -> string -> string;
  filepath_Join : list string -> string;
  filepath_Base : string -> string;
  filepath_Ext : string -> string;
  filepath_ToSlash : string -> string;
  path_Join : list string -> string;
}.

(** [len(s)] of a Go string: its number of bytes. *)
Definition len (s : string) : Z := Z.of_nat (String.length s).

(** [strings.Join]. *)
Fixpoint strings_Join (elems : list string) (sep : string) : string :=
  match elems with
  | [] => ""
  | [e] => e
  | e :: rest => e ++ sep ++ strings_Join rest sep
  end.

(** [strings.HasPrefix] and [strings.Contains], on bytes. *)
Fixpoint strings_HasPrefix (s prefix : string) : bool :=
  match prefix, s with
  | EmptyString, _ => true
  | String p prefix', String c s' =>
      if Ascii.eqb p c then strings_HasPrefix s' prefix' else false
  | String _ _, EmptyString => false
  end.

Fixpoint strings_Contains (s substr : string) : bool :=
  strings_HasPrefix s substr ||
  match s with
  | EmptyString => false
  | String _ s' => strings_Contains s' substr
  end.

(** ** Package unicode/utf8 *)

Module utf8.

Definition RuneError : Z := 65533.
Definition MaxRune : Z := 1114111.

Definition byteval (a : ascii) : Z := Z.of_N (N_of_ascii a).
Definition bytechr (z : Z) : ascii := ascii_of_N (Z.to_N z).

Definition inrange (lo hi b : Z) : bool := (lo <=? b) && (b <=? hi).

(** Continuation byte, 0x80..0xBF. *)
Definition cont (b : Z) : bool := inrange 128 191 b.

(** [utf8.DecodeRuneInString]: the first rune of [s] and its width in
    bytes. An invalid or short sequence yields [(RuneError, 1)]. The masks
    and shifts of the library are written as the subtractions and
    multiplications they amount to on the accepted byte ranges. *)
Definition DecodeRuneInString (s : string) : Z * nat :=
  match s with
  | EmptyString => (RuneError, 0%nat)
  | String a0 t0 =>
      let b0 := byteval a0 in
      if b0 <? 128 then (b0, 1%nat)
      else if inrange 194 223 b0 then
        match t0 with
        | String a1 _ =>
            let b1 := byteval a1 in
            if cont b1 then ((b0 - 192) * 64 + (b1 - 128), 2%nat)
            else (RuneError, 1%nat)
        | _ => (RuneError, 1%nat)
        end
      else if inrange 224 239 b0 then
        match t0 with
        | String a1 (String a2 _) =>
            let b1 := byteval a1 in
            let b2 := byteval a2 in
            let lo := if b0 =? 224 then 160 else 128 in
            let hi := if b0 =? 237 then 159 else 191 in
            if inrange lo hi b1 && cont b2
            then ((b0 - 224) * 4096 + (b1 - 128) * 64 + (b2 - 128), 3%nat)
            else (RuneError, 1%nat)
        | _ => (RuneError, 1%nat)
        end
      else if inrange 240 244 b0 then
        match t0 with
        | String a1 (String a2 (String a3 _)) =>
            let b1 := byteval a1 in
            let b2 := byteval a2 in
            let b3 := byteval a3 in
            let lo := if b0 =? 240 then 144 else 128 in
            let hi := if b0 =? 244 then 143 else 191 in
            if inrange lo hi b1 && cont b2 && cont b3
            then ((b0 - 240) * 262144 + (b1 - 128) * 4096
                  + (b2 - 128) * 64 + (b3 - 128), 4%nat)
            else (RuneError, 1%nat)
        | _ => (RuneError, 1%nat)
        end
      else (RuneError, 1%nat)
  end.

(** [s[n:]]. *)
Fixpoint skip (n : nat) (s : string) : string :=
  match n, s with
  | O, _ => s
  | S n', String _ s' => skip n' s'
  | S _, EmptyString => EmptyString
  end.

(** The runes a [for _, r := range s] loop visits, in order. The loop
    consumes at least one byte per rune, so [String.length s] iterations
    are enough ([runes_unfold] below). *)
Fixpoint runes_upto (fuel : nat) (s : string) : list Z :=
  match fuel with
  | O => []
  | S fuel' =>
      match s with
      | EmptyString => []
      | String _ _ =>
          let '(r, w) := DecodeRuneInString s in
          r :: runes_upto fuel' (skip w s)
      end
  end.

Definition runes (s : string) : list Z := runes_upto (String.length s) s.

(** [len([]rune(s))]. *)
Definition RuneCount (s : string) : Z := Z.of_nat (List.length (runes s)).

(** [utf8.ValidString]: no position of [s] decodes to an encoding error.
    (A well-formed U+FFFD has width 3.) *)
Fixpoint valid_upto (fuel : nat) (s : string) : bool :=
  match fuel with
  | O => true
  | S fuel' =>
      match s with
      | EmptyString => true
      | String _ _ =>
          let '(r, w) := DecodeRuneInString s in
          negb ((r =? RuneError) && (Nat.eqb w 1)) && valid_upto fuel' (skip w s)
      end
  end.

Definition ValidString (s : string) : bool := valid_upto (String.length s) s.

Definition surrogate (r : Z) : bool := inrange 55296 57343 r.

(** [utf8.RuneLen]: -1 for a value that is not a valid rune. *)
Definition RuneLen (r : Z) : Z :=
  if r <? 0 then -1
  else if r <=? 127 then 1
  else if r <=? 2047 then 2
  else if surrogate r then -1
  else if r <=? 65535 then 3
  else if r <=? MaxRune then 4
  else -1.

Definition encode3 (r : Z) : string :=
  String (bytechr (224 + r / 4096))
    (String (bytechr (128 + (r / 64) mod 64))
       (String (bytechr (128 + r mod 64)) EmptyString)).

(** [utf8.EncodeRune]: the bytes written for [r]; an invalid rune is
    written as U+FFFD. *)
Definition EncodeRune (r : Z) : string :=
  if (r <? 0) || (MaxRune <? r) || surrogate r then encode3 RuneError
  else if r <=? 127 then String (bytechr r) EmptyString
  else if r <=? 2047 then
    String (bytechr (192 + r / 64)) (String (bytechr (128 + r mod 64)) EmptyString)
  else if r <=? 65535 then encode3 r
  else
    String (bytechr (240 + r / 262144))
      (String (bytechr (128 + (r / 4096) mod 64))
         (String (bytechr (128 + (r / 64) mod 64))
            (String (bytechr (128 + r mod 64)) EmptyString))).

End utf8.

(** ** JSON documents

    meta.json is kept as the JSON value it holds. [encoding/json] renders a
    value to bytes ([MarshalIndent]) and reads the bytes back to the same
    value; what the program decides is which members a task has, under which
    keys, and that is what [toJSON] and [ofJSON] below record from the struct
    tags. A timestamp is a JSON string in RFC 3339 form; it is kept apart
    from other strings ([JTime]). *)

Unset Elimination Schemes.
Inductive json :=
| JNull
| JBool (b : bool)
| JNumber (n : Z)
| JString (s : string)
| JTime (t : Z)
| JArray (elems : list json)
| JObject (members : list (string * json)).
Set Elimination Schemes.

(** The value of member [key] of an object; of two members with one key the
    later one wins, as in [json.Unmarshal]. *)
Fixpoint member (key : string) (members : list (string * json)) : option json :=
  match members with
  | [] => None
  | (k, v) :: rest =>
      match member key rest with
      | Some v' => Some v'
      | None => if String.eqb k key then Some v else None
      end
  end.

(** Reading a member into a Go field: an absent member and [null] leave the
    zero value; a value of another JSON type is an [UnmarshalTypeError]
    ([None]). *)
Definition asString (field : option json) : option string :=
  match field with
  | None | Some JNull => Some ""
  | Some (JString s) => Some s
  | Some _ => None
  end.

Definition asInt (field : option json) : option Z :=
  match field with
  | None | Some JNull => Some 0
  | Some (JNumber n) => Some n
  | Some _ => None
  end.

Definition asBool (field : option json) : option bool :=
  match field with
  | None | Some JNull => Some false
  | Some (JBool b) => Some b
  | Some _ => None
  end.

Definition asTime (field : option json) : option Z :=
  match field with
  | None | Some JNull => Some 0
  | Some (JTime t) => Some t
  | Some _ => None
  end.

(** ** Package model *)

Module model.

(** [type PageStatus string]. *)
Definition PageStatus := string.

Definition PageStatusPending : PageStatus := "pending".
Definition PageStatusCompleted : PageStatus := "completed".
Definition PageStatusError : PageStatus := "error".

Module PageResult.

Record t := mk {
  ID : string;
  PageNumber : Z;
  ImagePath : string;
  ImageURL : string;
  TextPath : string;
  TextURL : string;
  HasText : bool;
  SourceText : string;
  Translation : string;
  Status : PageStatus;
  Error : string;
  UpdatedAt : Z;
}.

Definition set_TextURL (v : string) (p : t) : t :=
  mk (ID p) (PageNumber p) (ImagePath p) (ImageURL p) (TextPath p) v
     (HasText p) (SourceText p) (Translation p) (Status p) (Error p) (UpdatedAt p).

Definition set_HasText (v : bool) (p : t) : t :=
  mk (ID p) (PageNumber p) (ImagePath p) (ImageURL p) (TextPath p) (TextURL p)
     v (SourceText p) (Translation p) (Status p) (Error p) (UpdatedAt p).

Definition set_SourceText (v : string) (p : t) : t :=
  mk (ID p) (PageNumber p) (ImagePath p) (ImageURL p) (TextPath p) (TextURL p)
     (HasText p) v (Translation p) (Status p) (Error p) (UpdatedAt p).

Definition set_Translation (v : string) (p : t) : t :=
  mk (ID p) (PageNumber p) (ImagePath p) (ImageURL p) (TextPath p) (TextURL p)
     (HasText p) (SourceText p) v (Status p) (Error p) (UpdatedAt p).

Definition set_Status (v : PageStatus) (p : t) : t :=
  mk (ID p) (PageNumber p) (ImagePath p) (ImageURL p) (TextPath p) (TextURL p)
     (HasText p) (SourceText p) (Translation p) v (Error p) (UpdatedAt p).

Definition set_Error (v : string) (p : t) : t :=
  mk (ID p) (PageNumber p) (ImagePath p) (ImageURL p) (TextPath p) (TextURL p)
     (HasText p) (SourceText p) (Translation p) (Status p) v (UpdatedAt p).

Definition set_UpdatedAt (v : Z) (p : t) : t :=
  mk (ID p) (PageNumber p) (ImagePath p) (ImageURL p) (TextPath p) (TextURL p)
     (HasText p) (SourceText p) (Translation p) (Status p) (Error p) v.

(** The struct tags of [PageResult]. *)
Definition toJSON (p : t) : json :=
  JObject
    [ ("id", JString (ID p));
      ("page_number", JNumber (PageNumber p));
      ("image_path", JString (ImagePath p));
      ("image_url", JString (ImageURL p));
      ("text_path", JString (TextPath p));
      ("text_url", JString (TextURL p));
      ("has_text", JBool (HasText p));
      ("source_text", JString (SourceText p));
      ("translation", JString (Translation p));
      ("status", JString (Status p));
      ("error", JString (Error p));
      ("updated_at", JTime (UpdatedAt p)) ].

Definition ofJSON (j : json) : option t :=
  match j with
  | JObject m =>
      id ← asString (member "id" m);
      pageNumber ← asInt (member "page_number" m);
      imagePath ← asString (member "image_path" m);
      imageURL ← asString (member "image_url" m);
      textPath ← asString (member "text_path" m);
      textURL ← asString (member "text_url" m);
      hasText ← asBool (member "has_text" m);
      sourceText ← asString (member "source_text" m);
      translation ← asString (member "translation" m);
      status ← asString (member "status" m);
      error ← asString (member "error" m);
      updatedAt ← asTime (member "updated_at" m);
      Some (mk id pageNumber imagePath imageURL textPath textURL hasText
              sourceText translation status error updatedAt)
  | _ => None
  end.

End PageResult.

Module ProviderInfo.

Record t := mk {
  Type_ : string;
  BaseURL : string;
  Model : string;
  MaxTokens : Z;
}.

Definition zero : t := mk "" "" "" 0.

Definition toJSON (p : t) : json :=
  JObject
    [ ("type", JString (Type_ p));
      ("baseUrl", JString (BaseURL p));
      ("model", JString (Model p));
      ("maxTokens", JNumber (MaxTokens p)) ].

Definition ofJSON (field : option json) : option t :=
  match field with
  | None | Some JNull => Some zero
  | Some (JObject m) =>
      type ← asString (member "type" m);
      baseURL ← asString (member "baseUrl" m);
      model ← asString (member "model" m);
      maxTokens ← asInt (member "maxTokens" m);
      Some (mk type baseURL model maxTokens)
  | Some _ => None
  end.

End ProviderInfo.

Module Task.

Record t := mk {
  ID : string;
  FileName : string;
  OriginalPath : string;
  TotalPages : Z;
  Pages : list PageResult.t;
  CombinedTxtPath : string;
  CombinedTxtURL : string;
  CombinedPDFPath : string;
  CombinedPDFURL : string;
  CreatedAt : Z;
  UpdatedAt : Z;
  Provider : ProviderInfo.t;
  FormattingOptimized : bool;
  FormattedByAI : bool;
  FormattedTxtPath : string;
  FormattedTxtURL : string;
  FormattedPDFPath : string;
  FormattedPDFURL : string;
  FormattingInProgress : bool;
  FormattingTotalChunks : Z;
  FormattingCompletedChunks : Z;
}.

Definition set_Pages (v : list PageResult.t) (k : t) : t :=
  mk (ID k) (FileName k) (OriginalPath k) (TotalPages k) v
     (CombinedTxtPath k) (CombinedTxtURL k) (CombinedPDFPath k) (CombinedPDFURL k)
     (CreatedAt k) (UpdatedAt k) (Provider k) (FormattingOptimized k)
     (FormattedByAI k) (FormattedTxtPath k) (FormattedTxtURL k)
     (FormattedPDFPath k) (FormattedPDFURL k)
     (FormattingInProgress k) (FormattingTotalChunks k) (FormattingCompletedChunks k).

Definition set_UpdatedAt (v : Z) (k : t) : t :=
  mk (ID k) (FileName k) (OriginalPath k) (TotalPages k) (Pages k)
     (CombinedTxtPath k) (CombinedTxtURL k) (CombinedPDFPath k) (CombinedPDFURL k)
     (CreatedAt k) v (Provider k) (FormattingOptimized k)
     (FormattedByAI k) (FormattedTxtPath k) (FormattedTxtURL k)
     (FormattedPDFPath k) (FormattedPDFURL k)
     (FormattingInProgress k) (FormattingTotalChunks k) (FormattingCompletedChunks k).

Definition set_Provider (v : ProviderInfo.t) (k : t) : t :=
  mk (ID k) (FileName k) (OriginalPath k) (TotalPages k) (Pages k)
     (CombinedTxtPath k) (CombinedTxtURL k) (CombinedPDFPath k) (CombinedPDFURL k)
     (CreatedAt k) (UpdatedAt k) v (FormattingOptimized k)
     (FormattedByAI k) (FormattedTxtPath k) (FormattedTxtURL k)
     (FormattedPDFPath k) (FormattedPDFURL k)
     (FormattingInProgress k) (FormattingTotalChunks k) (FormattingCompletedChunks k).

(** The fields one formatting run writes: [formattedByAI], the formatted
    text's path and URL, and the three progress fields. *)
Definition set_Formatted (byAI : bool) (path url : string) (k : t) : t :=
  mk (ID k) (FileName k) (OriginalPath k) (TotalPages k) (Pages k)
     (CombinedTxtPath k) (CombinedTxtURL k) (CombinedPDFPath k) (CombinedPDFURL k)
     (CreatedAt k) (UpdatedAt k) (Provider k) (FormattingOptimized k)
     byAI path url
     (FormattedPDFPath k) (FormattedPDFURL k)
     (FormattingInProgress k) (FormattingTotalChunks k) (FormattingCompletedChunks k).

Definition set_FormattingInProgress (v : bool) (k : t) : t :=
  mk (ID k) (FileName k) (OriginalPath k) (TotalPages k) (Pages k)
     (CombinedTxtPath k) (CombinedTxtURL k) (CombinedPDFPath k) (CombinedPDFURL k)
     (CreatedAt k) (UpdatedAt k) (Provider k) (FormattingOptimized k)
     (FormattedByAI k) (FormattedTxtPath k) (FormattedTxtURL k)
     (FormattedPDFPath k) (FormattedPDFURL k)
     v (FormattingTotalChunks k) (FormattingCompletedChunks k).

Definition set_FormattingTotalChunks (v : Z) (k : t) : t :=
  mk (ID k) (FileName k) (OriginalPath k) (TotalPages k) (Pages k)
     (CombinedTxtPath k) (CombinedTxtURL k) (CombinedPDFPath k) (CombinedPDFURL k)
     (CreatedAt k) (UpdatedAt k) (Provider k) (FormattingOptimized k)
     (FormattedByAI k) (FormattedTxtPath k) (FormattedTxtURL k)
     (FormattedPDFPath k) (FormattedPDFURL k)
     (FormattingInProgress k) v (FormattingCompletedChunks k).

Definition set_FormattingCompletedChunks (v : Z) (k : t) : t :=
  mk (ID k) (FileName k) (OriginalPath k) (TotalPages k) (Pages k)
     (CombinedTxtPath k) (CombinedTxtURL k) (CombinedPDFPath k) (CombinedPDFURL k)
     (CreatedAt k) (UpdatedAt k) (Provider k) (FormattingOptimized k)
     (FormattedByAI k) (FormattedTxtPath k) (FormattedTxtURL k)
     (FormattedPDFPath k) (FormattedPDFURL k)
     (FormattingInProgress k) (FormattingTotalChunks k) v.

(** The struct tags of [Task]: every field is written, under its own key. *)
Definition toJSON (k : t) : json :=
  JObject
    [ ("id", JString (ID k));
      ("file_name", JString (FileName k));
      ("original_path", JString (OriginalPath k));
      ("total_pages", JNumber (TotalPages k));
      ("pages", JArray (map PageResult.toJSON (Pages k)));
      ("combined_txt_path", JString (CombinedTxtPath k));
      ("combined_txt_url", JString (CombinedTxtURL k));
      ("combined_pdf_path", JString (CombinedPDFPath k));
      ("combined_pdf_url", JString (CombinedPDFURL k));
      ("created_at", JTime (CreatedAt k));
      ("updated_at", JTime (UpdatedAt k));
      ("provider", ProviderInfo.toJSON (Provider k));
      ("formatting_optimized", JBool (FormattingOptimized k));
      ("formatted_by_ai", JBool (FormattedByAI k));
      ("formatted_txt_path", JString (FormattedTxtPath k));
      ("formatted_txt_url", JString (FormattedTxtURL k));
      ("formatted_pdf_path", JString (FormattedPDFPath k));
      ("formatted_pdf_url", JString (FormattedPDFURL k));
      ("formatting_in_progress", JBool (FormattingInProgress k));
      ("formatting_total_chunks", JNumber (FormattingTotalChunks k));
      ("formatting_completed_chunks", JNumber (FormattingCompletedChunks k)) ].

(** [pages] is a [[]*PageResult]: an array of page objects. A [null]
    element (a nil page, which no writer of this program produces) is not
    read. *)
Definition pagesOfJSON (field : option json) : option (list PageResult.t) :=
  match field with
  | None | Some JNull => Some []
  | Some (JArray elems) => mapM PageResult.ofJSON elems
  | Some _ => None
  end.

Definition ofJSON (j : json) : option t :=
  match j with
  | JObject m =>
      id ← asString (member "id" m);
      fileName ← asString (member "file_name" m);
      originalPath ← asString (member "original_path" m);
      totalPages ← asInt (member "total_pages" m);
      pages ← pagesOfJSON (member "pages" m);
      combinedTxtPath ← asString (member "combined_txt_path" m);
      combinedTxtURL ← asString (member "combined_txt_url" m);
      combinedPDFPath ← asString (member "combined_pdf_path" m);
      combinedPDFURL ← asString (member "combined_pdf_url" m);
      createdAt ← asTime (member "created_at" m);
      updatedAt ← asTime (member "updated_at" m);
      provider ← ProviderInfo.ofJSON (member "provider" m);
      formattingOptimized ← asBool (member "formatting_optimized" m);
      formattedByAI ← asBool (member "formatted_by_ai" m);
      formattedTxtPath ← asString (member "formatted_txt_path" m);
      formattedTxtURL ← asString (member "formatted_txt_url" m);
      formattedPDFPath ← asString (member "formatted_pdf_path" m);
      formattedPDFURL ← asString (member "formatted_pdf_url" m);
      inProgress ← asBool (member "formatting_in_progress" m);
      totalChunks ← asInt (member "formatting_total_chunks" m);
      completedChunks ← asInt (member "formatting_completed_chunks" m);
      Some (mk id fileName originalPath totalPages pages
              combinedTxtPath combinedTxtURL combinedPDFPath combinedPDFURL
              createdAt updatedAt provider formattingOptimized
              formattedByAI formattedTxtPath formattedTxtURL
              formattedPDFPath formattedPDFURL
              inProgress totalChunks completedChunks)
  | _ => None
  end.

End Task.

End model.

(** ** Package translator: provider configuration *)

Module translator.

(** [type ProviderType string]. *)
Definition ProviderType := string.

Definition ProviderTypeOpenAI : ProviderType := "openai".
Definition ProviderTypeGemini : ProviderType := "gemini".
Definition ProviderTypeAnthropic : ProviderType := "anthropic".

(** [time.Duration], in nanoseconds. *)
Definition Second : Z := 1000000000.

Record ProviderConfig := {
  Type_ : ProviderType;
  BaseURL : string;
  APIKey : string;
  Model : string;
  Timeout : Z;
  MaxTokens : Z;
  OptimizeLayout : bool;
}.

Definition NormalizeProviderType `{GoLib} (value : string) : ProviderType :=
  let v := strings_ToLower (strings_TrimSpace value) in
  if String.eqb v "gemini" then ProviderTypeGemini
  else if String.eqb v "anthropic" then ProviderTypeAnthropic
  else ProviderTypeOpenAI.

Definition SanitizeMaxTokens (val : Z) : Z :=
  if val <=? 0 then 8192 else val.

Record FormatterChunk := {
  FileName : string;
  MimeType : string;
  Data : string;
}.

(** [translator.Result], what [Translate] returns for one page image. *)
Record Result := {
  HasText : bool;
  SourceText : string;
  TranslatedText : string;
}.

End translator.

(** ** Package service *)

Module service.

Import model.

Definition formatterChunkSize : Z := 60 * 1024.
Definition minFormatterChunk : Z := 12 * 1024.

(** [int(float64(maxTokens) * 4 * 0.4)]. The product [4 * maxTokens] is
    exact in a float64 below 2^51; multiplying by the float64 nearest to
    0.4 and truncating then gives the integer part of [1.6 * maxTokens]
    (the rounding error is below 2^-52 of the value, the fractional part
    of [1.6 * n] is 0 or at least 0.2). Larger budgets are clamped to the
    cap by the caller in any case. *)
Definition scaledBytes (maxTokens : Z) : Z := Z.quot (maxTokens * 4 * 4) 10.

Definition estimateFormatterChunkSize
    (provider : translator.ProviderType) (maxTokens : Z) : Z :=
  let size := formatterChunkSize in
  let size :=
    if 0 <? maxTokens then
      let estimated := scaledBytes maxTokens in
      let estimated :=
        if estimated <? minFormatterChunk then minFormatterChunk else estimated in
      let estimated :=
        if formatterChunkSize <? estimated then formatterChunkSize else estimated in
      if estimated <? size then estimated else size
    else size in
  let size :=
    if String.eqb provider translator.ProviderTypeOpenAI then
      if minFormatterChunk * 2 <? size then Z.quot size 2 else minFormatterChunk
    else size in
  if size <? minFormatterChunk then minFormatterChunk else size.

(** State of the loop of [splitTextChunks]: the chunks cut so far, the
    [strings.Builder] and the byte count [current]. *)
Record splitState := {
  chunks : list string;
  builder : string;
  current : Z;
}.

(** One iteration of [for _, r := range text]. [utf8.RuneLen] of a rune
    produced by [range] is the number of bytes [utf8.EncodeRune] writes
    ([RuneLen_EncodeRune] below), so [buf] is those bytes. *)
Definition splitStep (maxBytes : Z) (st : splitState) (r : Z) : splitState :=
  let buf := utf8.EncodeRune r in
  let st :=
    if (maxBytes <? current st + len buf) && (0 <? len (builder st))
    then {| chunks := chunks st ++ [builder st]; builder := ""; current := 0 |}
    else st in
  let st :=
    {| chunks := chunks st;
       builder := builder st ++ buf;
       current := current st + len buf |} in
  if (r =? 10) && (maxBytes - 512 <? current st)
  then {| chunks := chunks st ++ [builder st]; builder := ""; current := 0 |}
  else st.

Definition splitTextChunks (text : string) (maxBytes : Z) : list string :=
  let maxBytes := if maxBytes <=? 0 then formatterChunkSize else maxBytes in
  let st :=
    fold_left (splitStep maxBytes) (utf8.runes text)
      {| chunks := []; builder := ""; current := 0 |} in
  if 0 <? len (builder st) then chunks st ++ [builder st] else chunks st.

(** *** Errors, the filesystem and the clock *)

(** The errors the service builds itself, and [ErrExternal] for the text of
    an error a collaborator (provider, renderer, operating system) returned.
    [ErrNilDereference] stands for the panic of a nil pointer dereference. *)
Inductive error :=
| ErrMissingReader
| ErrMissingAPIKey
| ErrMissingModel
| ErrReadTask
| ErrParseTask
| ErrPageNotFound (pageNumber : Z)
| ErrNoTranslatedText
| ErrNoChunks
| ErrTruncated (chunk : Z)
| ErrEmptyFormatted
| ErrNilDereference
| ErrExternal (msg : string).

Inductive result (A : Type) :=
| Ok (a : A)
| Err (e : error).

Arguments Ok {A} a.
Arguments Err {A} e.

(** What the service sees of the machine: the meta.json documents and the
    text artifacts by path, the clock, and whether writing to the disk
    fails (with which message). *)
Record World := mkWorld {
  metas : gmap string json;
  files : gmap string string;
  clock : Z;
  writeError : option string;
}.

Definition IO (A : Type) : Type := World -> A * World.

Definition ret {A : Type} (a : A) : IO A := fun w => (a, w).

Definition bind {A B : Type} (m : IO A) (k : A -> IO B) : IO B :=
  fun w => let '(a, w') := m w in k a w'.

Notation "x <- m ;; k" := (bind m (fun x => k))
  (at level 100, m at next level, right associativity).

Definition time_Now : IO Z := fun w => (clock w, w).

(** [os.ReadFile] of a meta.json. *)
Definition readMeta (path : string) : IO (option json) :=
  fun w => (metas w !! path, w).

(** [os.WriteFile] to a temporary file followed by [os.Rename]: the
    document is replaced whole, or not at all. *)
Definition writeMeta (path : string) (doc : json) : IO (option error) :=
  fun w =>
    match writeError w with
    | Some msg => (Some (ErrExternal msg), w)
    | None =>
        (None, mkWorld (<[path := doc]> (metas w)) (files w) (clock w) (writeError w))
    end.

(** [os.WriteFile], [os.MkdirAll] and [os.Remove]; a failure is reported
    by its message. *)
Definition writeFile (path data : string) : IO (option string) :=
  fun w =>
    match writeError w with
    | Some msg => (Some msg, w)
    | None =>
        (None, mkWorld (metas w) (<[path := data]> (files w)) (clock w) (writeError w))
    end.

Definition mkdirAll (path : string) : IO (option string) :=
  fun w => (writeError w, w).

Definition removeFile (path : string) : IO unit :=
  fun w => (tt, mkWorld (metas w) (delete path (files w)) (clock w) (writeError w)).

(** *** The service *)

Record TaskService := {
  storageDir : string;
  staticPrefix : string;
  fontPath : string;
  maxWorkers : Z;
  defaultProvider : translator.ProviderConfig;
}.

Record TranslationSettings := {
  RangeMode : string;
  RangeCustom : Z;
  RangeStart : Z;
  RangeEnd : Z;
  BatchLimit : Z;
}.

Definition LF : string := String "010"%char EmptyString.

Section Service.

Context `{lib : GoLib} (s : TaskService).

Definition taskDir (taskID : string) : string :=
  filepath_Join [storageDir s; taskID].

Definition metaPath (taskID : string) : string :=
  filepath_Join [taskDir taskID; "meta.json"].

Definition buildFileURL (taskID : string) (parts : list string) : string :=
  let segments := taskID :: map filepath_ToSlash parts in
  let rel := path_Join segments in
  path_Join [staticPrefix s; rel].

Definition replaceExt (name ext : string) : string :=
  strings_TrimSuffix name (filepath_Ext name) ++ ext.

Definition sanitizeName (name : string) : string :=
  let name := strings_TrimSpace name in
  if String.eqb name "" then "" else filepath_Base name.

Definition loadTask (taskID : string) : IO (result Task.t) :=
  data <- readMeta (metaPath taskID) ;;
  match data with
  | None => ret (Err ErrReadTask)
  | Some doc =>
      match Task.ofJSON doc with
      | None => ret (Err ErrParseTask)
      | Some task => ret (Ok task)
      end
  end.

(** [saveTaskLocked] stamps the task it is given (the caller's task, in
    place: the stamped task is returned) and replaces meta.json. *)
Definition saveTaskLocked (task : Task.t) : IO (Task.t * option error) :=
  now <- time_Now ;;
  let task := Task.set_UpdatedAt now task in
  err <- writeMeta (metaPath (Task.ID task)) (Task.toJSON task) ;;
  ret (task, err).

(** [saveTask] is [saveTaskLocked] under the service's mutex; an operation
    of this model runs alone, which is what the mutex gives the save. *)
Definition saveTask (task : Task.t) : IO (Task.t * option error) :=
  saveTaskLocked task.

Definition mergeProviderConfig
    (input : translator.ProviderConfig) (task : option Task.t)
    : result translator.ProviderConfig :=
  let cfg := defaultProvider s in
  let type := translator.Type_ cfg in
  let baseURL := translator.BaseURL cfg in
  let model := translator.Model cfg in
  let maxTokens := translator.MaxTokens cfg in
  let apiKey := translator.APIKey cfg in
  let timeout := translator.Timeout cfg in
  let '(type, baseURL, model, maxTokens) :=
    match task with
    | Some task =>
        let p := Task.Provider task in
        (if String.eqb (strings_TrimSpace (ProviderInfo.Type_ p)) "" then type
         else translator.NormalizeProviderType (ProviderInfo.Type_ p),
         if String.eqb (strings_TrimSpace (ProviderInfo.BaseURL p)) "" then baseURL
         else ProviderInfo.BaseURL p,
         if String.eqb (strings_TrimSpace (ProviderInfo.Model p)) "" then model
         else ProviderInfo.Model p,
         if 0 <? ProviderInfo.MaxTokens p then ProviderInfo.MaxTokens p else maxTokens)
    | None => (type, baseURL, model, maxTokens)
    end in
  let type :=
    if String.eqb (strings_TrimSpace (translator.Type_ input)) "" then type
    else translator.NormalizeProviderType (translator.Type_ input) in
  let baseURL :=
    if String.eqb (strings_TrimSpace (translator.BaseURL input)) "" then baseURL
    else strings_TrimSpace (translator.BaseURL input) in
  let model :=
    if String.eqb (strings_TrimSpace (translator.Model input)) "" then model
    else strings_TrimSpace (translator.Model input) in
  let apiKey :=
    if String.eqb (strings_TrimSpace (translator.APIKey input)) "" then apiKey
    else strings_TrimSpace (translator.APIKey input) in
  let maxTokens :=
    if 0 <? translator.MaxTokens input then translator.MaxTokens input else maxTokens in
  let timeout :=
    if 0 <? translator.Timeout input then translator.Timeout input else timeout in
  let timeout := if timeout =? 0 then 300 * translator.Second else timeout in
  let type := translator.NormalizeProviderType type in
  let maxTokens := translator.SanitizeMaxTokens maxTokens in
  if String.eqb (strings_TrimSpace apiKey) "" then Err ErrMissingAPIKey
  else if String.eqb (strings_TrimSpace model) "" then Err ErrMissingModel
  else Ok {| translator.Type_ := type;
             translator.BaseURL := baseURL;
             translator.APIKey := apiKey;
             translator.Model := model;
             translator.Timeout := timeout;
             translator.MaxTokens := maxTokens;
             translator.OptimizeLayout := true |}.

Definition providerInfo (cfg : translator.ProviderConfig) : ProviderInfo.t :=
  ProviderInfo.mk (translator.Type_ cfg) (translator.BaseURL cfg)
    (translator.Model cfg) (translator.MaxTokens cfg).

(** *** The initial page selection *)

(** [for i := lo; i <= hi; i++ { result[i] = true }]. *)
Definition markPages (lo hi : Z) (result : gmap Z bool) : gmap Z bool :=
  fold_left (fun m i => <[i := true]> m) (seqZ lo (hi - lo + 1)) result.

Definition determineInitialPageSet (total : Z) (settings : TranslationSettings)
    : gmap Z bool :=
  let result : gmap Z bool := ∅ in
  let mode := strings_ToLower (strings_TrimSpace (RangeMode settings)) in
  let result :=
    if String.eqb mode "custom" then
      let limit := RangeCustom settings in
      if limit <=? 0 then result
      else
        let limit := if total <? limit then total else limit in
        markPages 1 limit result
    else if String.eqb mode "range" then
      let start := RangeStart settings in
      let end_ := RangeEnd settings in
      if (start <=? 0) && (end_ <=? 0) then result
      else
        let start := if start <=? 0 then 1 else start in
        let end_ := if end_ <=? 0 then total else end_ in
        let '(start, end_) := if end_ <? start then (end_, start) else (start, end_) in
        let start := if total <? start then total else start in
        let end_ := if total <? end_ then total else end_ in
        markPages start end_ result
    else result in
  if bool_decide (size result = 0%nat) then markPages 1 total result else result.

(** [selectedMap[page.PageNumber]]: a missing key reads as [false]. *)
Definition selected (selectedMap : gmap Z bool) (pageNumber : Z) : bool :=
  default false (selectedMap !! pageNumber).

(** *** Translating pages

    A [*model.PageResult] that a caller holds points into the [Pages] of
    the task it holds (CreateTask's [selectedPages], RetranslatePage's
    [target]): it is the index of that page, and writing through it changes
    the task. The functions below return the task as they leave it.

    [Translate] is the provider's call; its outcome is an input: the result,
    or the text of the error ([err.Error()]). *)

Definition Translated : Type := string + translator.Result.

Definition withPage (task : Task.t) (page : nat) (p : PageResult.t) : Task.t :=
  Task.set_Pages (<[page := p]> (Task.Pages task)) task.

(** The index of the first page of [pages] whose id is [id]. *)
Definition indexByID (id : string) (pages : list PageResult.t) : option nat :=
  fst <$> list_find (fun existing => PageResult.ID existing = id) pages.

Definition persistPageUpdate (task : Task.t) (page : nat) (merge : bool)
    : IO (Task.t * option error) :=
  if negb merge then saveTask task
  else
    loaded <- loadTask (Task.ID task) ;;
    match loaded with
    | Err err => ret (task, Some err)
    | Ok current =>
        match Task.Pages task !! page with
        | None => ret (task, Some ErrNilDereference)
        | Some p =>
            let pages :=
              match indexByID (PageResult.ID p) (Task.Pages current) with
              | Some idx => <[idx := p]> (Task.Pages current)
              | None => (Task.Pages current ++ [p])%list
              end in
            saved <- saveTask (Task.set_Pages pages current) ;;
            ret (task, snd saved)
        end
    end.

Definition translateSinglePage (task : Task.t) (page : nat)
    (translated : Translated) (mergeOnSave : bool) : IO (Task.t * option error) :=
  match Task.Pages task !! page with
  | None => ret (task, Some ErrNilDereference)
  | Some p =>
      match translated with
      | inl msg =>
          now <- time_Now ;;
          let p := PageResult.set_Status PageStatusError p in
          let p := PageResult.set_Error msg p in
          let p := PageResult.set_UpdatedAt now p in
          saveTask (withPage task page p)
      | inr result =>
          let p := PageResult.set_HasText (translator.HasText result) p in
          let p := PageResult.set_SourceText
                     (strings_TrimSpace (translator.SourceText result)) p in
          let p := PageResult.set_Translation
                     (strings_TrimSpace (translator.TranslatedText result)) p in
          let p := PageResult.set_Error "" p in
          if PageResult.HasText p && negb (String.eqb (PageResult.Translation p) "") then
            written <- writeFile (PageResult.TextPath p) (PageResult.Translation p) ;;
            match written with
            | Some msg =>
                now <- time_Now ;;
                let p := PageResult.set_Status PageStatusError p in
                let p := PageResult.set_Error ("写入TXT失败: " ++ msg) p in
                let p := PageResult.set_UpdatedAt now p in
                saveTask (withPage task page p)
            | None =>
                let p := PageResult.set_TextURL
                           (buildFileURL (Task.ID task)
                              ["pages"; filepath_Base (PageResult.TextPath p)]) p in
                now <- time_Now ;;
                let p := PageResult.set_Status PageStatusCompleted p in
                let p := PageResult.set_UpdatedAt now p in
                persistPageUpdate (withPage task page p) page mergeOnSave
            end
          else
            _ <- removeFile (PageResult.TextPath p) ;;
            let p := PageResult.set_TextURL "" p in
            now <- time_Now ;;
            let p := PageResult.set_Status PageStatusCompleted p in
            let p := PageResult.set_UpdatedAt now p in
            persistPageUpdate (withPage task page p) page mergeOnSave
      end
  end.

(** *** The worker pool

    [translateTaskPages] starts [workerCount] workers on an unbuffered
    channel fed with [pages] in order. A page is in some worker's hands only
    if fewer than [workerCount] unfinished pages precede it. All workers
    write through the one task they were given. *)

Record Pool := {
  pool_task : Task.t;
  pool_jobs : list nat;
  pool_workers : Z;
}.

Definition workerCount (pages : list nat) (batchLimit : Z) : Z :=
  let workerCount := maxWorkers s in
  let workerCount :=
    if (0 <? batchLimit) && (batchLimit <? workerCount) then batchLimit
    else workerCount in
  if Z.of_nat (length pages) <? workerCount then Z.of_nat (length pages)
  else workerCount.

(** The pool [translateTaskPages] sets up; [None] when it returns at once. *)
Definition translateTaskPages (task : Task.t) (pages : list nat) (batchLimit : Z)
    : option Pool :=
  if Nat.eqb (length pages) 0 then None
  else
    let n := workerCount pages batchLimit in
    if n =? 0 then None
    else Some {| pool_task := task; pool_jobs := pages; pool_workers := n |}.

(** The worker holding the [k]-th unfinished page finishes it; the error
    [translateSinglePage] returns is only logged. *)
Definition poolPage (k : nat) (translated : Translated) (pool : Pool)
    : IO (option Pool) :=
  if negb (Z.of_nat k <? pool_workers pool) then ret None
  else
    match pool_jobs pool !! k with
    | None => ret None
    | Some page =>
        done <- translateSinglePage (pool_task pool) page translated false ;;
        ret (Some {| pool_task := fst done;
                     pool_jobs := delete k (pool_jobs pool);
                     pool_workers := pool_workers pool |})
    end.

(** *** CreateTask *)

(** What a call of [CreateTask] receives and draws from its collaborators:
    the upload ([None] for a nil reader), the provider and range settings,
    the fresh UUIDs, and the page images the renderer wrote (or its
    error). *)
Record Upload := {
  upload_reader : option string;
  upload_fileName : string;
  upload_provider : translator.ProviderConfig;
  upload_settings : TranslationSettings;
  upload_taskID : string;
  upload_pageIDs : nat -> string;
  upload_images : result (list string);
}.

(** [pdfutil.RenderPages]: the image paths, one per page; a document
    without pages is an error. *)
Definition RenderPages (images : result (list string)) : result (list string) :=
  match images with
  | Ok [] => Err (ErrExternal "pdf has no pages")
  | _ => images
  end.

(** The page records of a fresh task, one per rendered image, pending. *)
Definition newPages (taskID pagesDir : string) (pageID : nat -> string)
    (now : Z) (imagePaths : list string) : list PageResult.t :=
  imap (fun idx imgPath =>
          let base := filepath_Base imgPath in
          let textFile := replaceExt base ".txt" in
          PageResult.mk (pageID idx) (Z.of_nat idx + 1) imgPath
            (buildFileURL taskID ["pages"; base])
            (filepath_Join [pagesDir; textFile]) ""
            false "" "" PageStatusPending "" now)
       imagePaths.

(** The loop over [task.Pages] after [determineInitialPageSet]: a selected
    page is kept as it is, any other page is marked completed and empty. *)
Definition skipPage (now : Z) (p : PageResult.t) : PageResult.t :=
  let p := PageResult.set_Status PageStatusCompleted p in
  let p := PageResult.set_HasText false p in
  let p := PageResult.set_SourceText "" p in
  let p := PageResult.set_Translation "" p in
  let p := PageResult.set_Error "" p in
  PageResult.set_UpdatedAt now p.

Definition applySelection (selectedMap : gmap Z bool) (now : Z)
    (pages : list PageResult.t) : list PageResult.t :=
  map (fun p => if selected selectedMap (PageResult.PageNumber p) then p
                else skipPage now p) pages.

(** [selectedPages], as indices into [task.Pages]. *)
Definition selectedPages (selectedMap : gmap Z bool) (pages : list PageResult.t)
    : list nat :=
  omap (fun ip => if selected selectedMap (PageResult.PageNumber ip.2) then Some ip.1
                  else None)
       (imap (fun idx p => (idx, p)) pages).

Definition CreateTask (up : Upload) : IO (result (Task.t * option Pool)) :=
  match upload_reader up with
  | None => ret (Err ErrMissingReader)
  | Some content =>
      match mergeProviderConfig (upload_provider up) None with
      | Err err => ret (Err err)
      | Ok providerCfg =>
          let taskID := upload_taskID up in
          let safeName := sanitizeName (upload_fileName up) in
          let safeName := if String.eqb safeName "" then "document.pdf" else safeName in
          made <- mkdirAll (taskDir taskID) ;;
          match made with
          | Some msg => ret (Err (ErrExternal msg))
          | None =>
          let sourcePath := filepath_Join [taskDir taskID; "source.pdf"] in
          created <- writeFile sourcePath content ;;
          match created with
          | Some msg => ret (Err (ErrExternal msg))
          | None =>
              let pagesDir := filepath_Join [taskDir taskID; "pages"] in
              match RenderPages (upload_images up) with
              | Err err => ret (Err err)
              | Ok imagePaths =>
                  now <- time_Now ;;
                  let pages := newPages taskID pagesDir (upload_pageIDs up) now imagePaths in
                  let task :=
                    Task.mk taskID safeName sourcePath (Z.of_nat (length imagePaths)) pages
                      "" "" "" "" now now (providerInfo providerCfg) true
                      false "" "" "" "" false 0 0 in
                  let selectedMap :=
                    determineInitialPageSet (Z.of_nat (length (Task.Pages task)))
                      (upload_settings up) in
                  now <- time_Now ;;
                  let task :=
                    Task.set_Pages (applySelection selectedMap now (Task.Pages task)) task in
                  saved <- saveTask task ;;
                  match snd saved with
                  | Some err => ret (Err err)
                  | None =>
                      let task := fst saved in
                      ret (Ok (task,
                               translateTaskPages task
                                 (selectedPages selectedMap (Task.Pages task))
                                 (BatchLimit (upload_settings up))))
                  end
              end
          end
          end
      end
  end.

(** *** RetranslatePage *)

(** The index of the first page of [pages] numbered [pageNumber]. *)
Definition indexByNumber (pageNumber : Z) (pages : list PageResult.t) : option nat :=
  fst <$> list_find (fun page => PageResult.PageNumber page = pageNumber) pages.

(** [RetranslatePage] up to its call of [translateSinglePage]: the task it
    loaded, with the provider recorded and saved, and the target page. *)
Definition RetranslatePage_prepare (taskID : string) (pageNumber : Z)
    (provider : translator.ProviderConfig) : IO (result (Task.t * nat)) :=
  loaded <- loadTask taskID ;;
  match loaded with
  | Err err => ret (Err err)
  | Ok task =>
      match mergeProviderConfig provider (Some task) with
      | Err err => ret (Err err)
      | Ok providerCfg =>
          let task := Task.set_Provider (providerInfo providerCfg) task in
          saved <- saveTask task ;;
          match snd saved with
          | Some err => ret (Err err)
          | None =>
              let task := fst saved in
              match indexByNumber pageNumber (Task.Pages task) with
              | None => ret (Err (ErrPageNotFound pageNumber))
              | Some target => ret (Ok (task, target))
              end
          end
      end
  end.

(** [RetranslatePage] from that call on. *)
Definition RetranslatePage_finish (taskID : string) (pageNumber : Z)
    (task : Task.t) (target : nat) (translated : Translated)
    : IO (result (Task.t * option PageResult.t)) :=
  done <- translateSinglePage task target translated true ;;
  match snd done with
  | Some err => ret (Err err)
  | None =>
      reloaded <- loadTask taskID ;;
      match reloaded with
      | Err err => ret (Err err)
      | Ok updatedTask =>
          ret (Ok (updatedTask,
                   snd <$> list_find
                     (fun page => PageResult.PageNumber page = pageNumber)
                     (Task.Pages updatedTask)))
      end
  end.

Definition RetranslatePage (taskID : string) (pageNumber : Z)
    (provider : translator.ProviderConfig) (translated : Translated)
    : IO (result (Task.t * option PageResult.t)) :=
  prepared <- RetranslatePage_prepare taskID pageNumber provider ;;
  match prepared with
  | Err err => ret (Err err)
  | Ok (task, target) => RetranslatePage_finish taskID pageNumber task target translated
  end.

(** *** The chunked formatting pipeline *)

Definition buildCombinedText (task : Task.t) : result string :=
  let text :=
    fold_left
      (fun builder page =>
         if negb (PageResult.HasText page) then builder
         else
           let text := strings_TrimSpace (PageResult.Translation page) in
           if String.eqb text "" then builder
           else builder ++ ("第" ++ pretty (PageResult.PageNumber page) ++ "页" ++ LF)
                        ++ text ++ (LF ++ LF))
      (Task.Pages task) "" in
  if len text =? 0 then Err ErrNoTranslatedText else Ok text.

(** [fmt.Sprintf("chunk-%03d.txt", n)]. *)
Definition chunkFileName (n : Z) : string :=
  let digits := pretty n in
  let pad := if n <? 0 then "" else if n <? 10 then "00" else if n <? 100 then "0" else "" in
  "chunk-" ++ pad ++ digits ++ ".txt".

Fixpoint writeChunks (chunkDir : string) (idx : Z) (chunkStrings : list string)
    : IO (result (list translator.FormatterChunk)) :=
  match chunkStrings with
  | [] => ret (Ok [])
  | content :: rest =>
      let fileName := chunkFileName (idx + 1) in
      written <- writeFile (filepath_Join [chunkDir; fileName]) content ;;
      match written with
      | Some msg => ret (Err (ErrExternal msg))
      | None =>
          more <- writeChunks chunkDir (idx + 1) rest ;;
          match more with
          | Err err => ret (Err err)
          | Ok chunks =>
              ret (Ok ({| translator.FileName := fileName;
                          translator.MimeType := "text/plain";
                          translator.Data := content |} :: chunks))
          end
      end
  end.

Definition prepareFormatterChunks (task : Task.t) (text : string) (chunkSize : Z)
    : IO (result (list translator.FormatterChunk)) :=
  let chunkStrings := splitTextChunks text chunkSize in
  if Nat.eqb (length chunkStrings) 0 then ret (Err ErrNoChunks)
  else
    let chunkDir := filepath_Join [taskDir (Task.ID task); "formatter_chunks"] in
    made <- mkdirAll chunkDir ;;
    match made with
    | Some msg => ret (Err (ErrExternal msg))
    | None => writeChunks chunkDir 0 chunkStrings
    end.

(** [formatterIsRateLimit], on the text of the (non-nil) error. *)
Definition formatterIsRateLimit (msg : string) : bool :=
  let msg := strings_ToLower msg in
  strings_Contains msg "429" || strings_Contains msg "503" ||
  strings_Contains msg "rate limit" || strings_Contains msg "concurrency" ||
  strings_Contains msg "provider_error".

(** Load, mutate, save, under the mutex. *)
Definition updateFormattingState (taskID : string) (mutate : Task.t -> Task.t)
    : IO (option error) :=
  loaded <- loadTask taskID ;;
  match loaded with
  | Err err => ret (Some err)
  | Ok task =>
      saved <- saveTaskLocked (mutate task) ;;
      ret (snd saved)
  end.

(** The three closures [FormatTaskLayout] passes to
    [updateFormattingState]: at the start of a run, after a chunk, and in
    the deferred function of a run that did not succeed. *)
Definition markStarted (totalChunks : Z) (t : Task.t) : Task.t :=
  let t := Task.set_FormattingInProgress true t in
  let t := Task.set_FormattingTotalChunks totalChunks t in
  Task.set_FormattingCompletedChunks 0 t.

Definition markProgress (totalChunks completed : Z) (t : Task.t) : Task.t :=
  let t := Task.set_FormattingInProgress true t in
  let t := if Task.FormattingTotalChunks t =? 0
           then Task.set_FormattingTotalChunks totalChunks t else t in
  Task.set_FormattingCompletedChunks completed t.

Definition markStopped (totalChunks progress : Z) (t : Task.t) : Task.t :=
  let t := Task.set_FormattingInProgress false t in
  let t := if Task.FormattingTotalChunks t =? 0
           then Task.set_FormattingTotalChunks totalChunks t else t in
  Task.set_FormattingCompletedChunks progress t.

(** Where the goroutine of one chunk is in [processChunk]: before
    [acquireSlot] with [retries] so far, inside [formatter.Format] holding a
    slot, between the increment of [completedChunks] and the save of the
    progress, or returned. *)
Inductive Worker :=
| Waiting (retries : Z)
| Calling (retries : Z)
| Saving (completed : Z)
| Returned.

(** The variables the goroutines of one run of [FormatTaskLayout] share.
    [run_sleeps] logs each [time.Sleep] of the retry path: chunk index and
    seconds. *)
Record FormatRun := mkRun {
  run_taskID : string;
  run_chunks : list translator.FormatterChunk;
  run_results : list string;
  run_currentLimit : Z;
  run_activeSlots : Z;
  run_firstErr : option error;
  run_cancelled : bool;
  run_completedChunks : Z;
  run_workers : list Worker;
  run_sleeps : list (nat * Z);
}.

Definition totalChunks (run : FormatRun) : Z := Z.of_nat (length (run_chunks run)).

Definition setWorker (idx : nat) (wk : Worker) (run : FormatRun) : FormatRun :=
  mkRun (run_taskID run) (run_chunks run) (run_results run) (run_currentLimit run)
    (run_activeSlots run) (run_firstErr run) (run_cancelled run)
    (run_completedChunks run) (<[idx := wk]> (run_workers run)) (run_sleeps run).

Definition addSlots (d : Z) (run : FormatRun) : FormatRun :=
  mkRun (run_taskID run) (run_chunks run) (run_results run) (run_currentLimit run)
    (run_activeSlots run + d) (run_firstErr run) (run_cancelled run)
    (run_completedChunks run) (run_workers run) (run_sleeps run).

(** [setError]: the first error wins and cancels the context. *)
Definition setError (err : error) (run : FormatRun) : FormatRun :=
  match run_firstErr run with
  | Some _ => run
  | None =>
      mkRun (run_taskID run) (run_chunks run) (run_results run) (run_currentLimit run)
        (run_activeSlots run) (Some err) true
        (run_completedChunks run) (run_workers run) (run_sleeps run)
  end.

(** The retry path: the limit is lowered to 1 if it is above, [retries] is
    incremented and the goroutine sleeps that many seconds. *)
Definition backOff (idx : nat) (retries : Z) (run : FormatRun) : FormatRun :=
  let limit := if 1 <? run_currentLimit run then 1 else run_currentLimit run in
  let retries := retries + 1 in
  mkRun (run_taskID run) (run_chunks run) (run_results run) limit
    (run_activeSlots run) (run_firstErr run) (run_cancelled run)
    (run_completedChunks run) (<[idx := Waiting retries]> (run_workers run))
    (run_sleeps run ++ [(idx, retries)]).

(** [results[idx] = clean] and the atomic increment of [completedChunks]. *)
Definition storeResult (idx : nat) (clean : string) (run : FormatRun) : FormatRun :=
  let completed := run_completedChunks run + 1 in
  mkRun (run_taskID run) (run_chunks run) (<[idx := clean]> (run_results run))
    (run_currentLimit run) (run_activeSlots run) (run_firstErr run) (run_cancelled run)
    completed (<[idx := Saving completed]> (run_workers run)) (run_sleeps run).

Definition cancelRun (run : FormatRun) : FormatRun :=
  mkRun (run_taskID run) (run_chunks run) (run_results run) (run_currentLimit run)
    (run_activeSlots run) (run_firstErr run) true
    (run_completedChunks run) (run_workers run) (run_sleeps run).

(** [formatter.Format] is the provider's call; its outcome is an input: the
    text of the error, or the formatted text. *)
Definition Formatted : Type := string + string.

(** What [processChunk] does with the outcome of [formatter.Format] for
    chunk [idx], reached with [retries] retries: the slot is released, then
    the error is retried or set, or the result is checked and stored. *)
Definition handleFormatted (idx : nat) (chunk : translator.FormatterChunk)
    (retries : Z) (formatted : Formatted) (run : FormatRun) : FormatRun :=
  let run := addSlots (-1) run in
  match formatted with
  | inl msg =>
      if formatterIsRateLimit msg && (retries <? 3) then backOff idx retries run
      else setWorker idx Returned (setError (ErrExternal msg) run)
  | inr result =>
      let clean := strings_TrimSpace result in
      let srcLen := utf8.RuneCount (translator.Data chunk) in
      if (0 <? srcLen) && (utf8.RuneCount clean <? Z.quot srcLen 2)
      then setWorker idx Returned (setError (ErrTruncated (Z.of_nat idx + 1)) run)
      else storeResult idx clean run
  end.

(** The moves of the goroutines of a run, one at a time:
    - [Acquire idx]: chunk [idx] passes the top of its loop, returning if
      the context is done, taking a slot if [activeSlots < currentLimit]
      (it keeps polling otherwise: no move);
    - [Respond idx formatted]: its call of [formatter.Format] returns;
    - [Persist idx]: it saves the progress it counted and returns;
    - [Cancel]: the caller's context is cancelled. *)
Inductive Event :=
| Acquire (idx : nat)
| Respond (idx : nat) (formatted : Formatted)
| Persist (idx : nat)
| Cancel.

Definition formatStep (ev : Event) (run : FormatRun) : IO (option FormatRun) :=
  match ev with
  | Acquire idx =>
      match run_workers run !! idx with
      | Some (Waiting retries) =>
          if run_cancelled run then ret (Some (setWorker idx Returned run))
          else if run_activeSlots run <? run_currentLimit run
          then ret (Some (setWorker idx (Calling retries) (addSlots 1 run)))
          else ret None
      | _ => ret None
      end
  | Respond idx formatted =>
      match run_workers run !! idx, run_chunks run !! idx with
      | Some (Calling retries), Some chunk =>
          ret (Some (handleFormatted idx chunk retries formatted run))
      | _, _ => ret None
      end
  | Persist idx =>
      match run_workers run !! idx with
      | Some (Saving completed) =>
          _ <- updateFormattingState (run_taskID run)
                 (markProgress (totalChunks run) completed) ;;
          ret (Some (setWorker idx Returned run))
      | _ => ret None
      end
  | Cancel => ret (Some (cancelRun run))
  end.

Fixpoint formatSteps (evs : list Event) (run : FormatRun) : IO (option FormatRun) :=
  match evs with
  | [] => ret (Some run)
  | ev :: evs =>
      next <- formatStep ev run ;;
      match next with
      | None => ret None
      | Some run => formatSteps evs run
      end
  end.

(** [FormatTaskLayout] up to the start of the goroutines. *)
Definition FormatTaskLayout_start (taskID : string) (provider : translator.ProviderConfig)
    : IO (result FormatRun) :=
  loaded <- loadTask taskID ;;
  match loaded with
  | Err err => ret (Err err)
  | Ok task =>
      match mergeProviderConfig provider (Some task) with
      | Err err => ret (Err err)
      | Ok providerCfg =>
          match buildCombinedText task with
          | Err err => ret (Err err)
          | Ok baseText =>
              let chunkSize :=
                estimateFormatterChunkSize (translator.Type_ providerCfg)
                  (translator.MaxTokens providerCfg) in
              prepared <- prepareFormatterChunks task baseText chunkSize ;;
              match prepared with
              | Err err => ret (Err err)
              | Ok chunks =>
                  let totalChunks := Z.of_nat (length chunks) in
                  started <- updateFormattingState (Task.ID task) (markStarted totalChunks) ;;
                  match started with
                  | Some err => ret (Err err)
                  | None =>
                      let workerLimit := if totalChunks <? 3 then totalChunks else 3 in
                      ret (Ok (mkRun (Task.ID task) chunks
                                 (replicate (length chunks) "")
                                 workerLimit 0 None false 0
                                 (replicate (length chunks) (Waiting 0)) []))
                  end
              end
          end
      end
  end.

(** The deferred function: a run that did not succeed clears
    [formattingInProgress] and records the chunks counted so far. *)
Definition finalize (successful : bool) (run : FormatRun) : IO unit :=
  if successful || (totalChunks run =? 0) then ret tt
  else
    _ <- updateFormattingState (run_taskID run)
           (markStopped (totalChunks run) (run_completedChunks run)) ;;
    ret tt.

Definition allReturned (run : FormatRun) : bool :=
  forallb (fun wk => match wk with Returned => true | _ => false end) (run_workers run).

(** [FormatTaskLayout] from [wg.Wait()] on; [None] while a goroutine has
    not returned. When the reload before the final save fails, the source
    assigns nil to the variable [task] its deferred function reads, which
    then panics before it writes anything. *)
Definition FormatTaskLayout_finish (run : FormatRun)
    : IO (option (result (Task.t * string))) :=
  if negb (allReturned run) then ret None
  else
    match run_firstErr run with
    | Some err => _ <- finalize false run ;; ret (Some (Err err))
    | None =>
        let formatted := strings_TrimSpace (strings_Join (run_results run) (LF ++ LF)) in
        if String.eqb formatted "" then
          _ <- finalize false run ;; ret (Some (Err ErrEmptyFormatted))
        else
          let formattedPath := filepath_Join [taskDir (run_taskID run); "formatted.txt"] in
          written <- writeFile formattedPath formatted ;;
          match written with
          | Some msg => _ <- finalize false run ;; ret (Some (Err (ErrExternal msg)))
          | None =>
              loaded <- loadTask (run_taskID run) ;;
              match loaded with
              | Err _ => ret (Some (Err ErrNilDereference))
              | Ok task =>
                  let task :=
                    Task.set_Formatted true formattedPath
                      (buildFileURL (Task.ID task) ["formatted.txt"]) task in
                  let task := Task.set_FormattingInProgress false task in
                  let task := Task.set_FormattingTotalChunks (totalChunks run) task in
                  let task := Task.set_FormattingCompletedChunks (totalChunks run) task in
                  saved <- saveTask task ;;
                  match snd saved with
                  | Some err => _ <- finalize false run ;; ret (Some (Err err))
                  | None => ret (Some (Ok (fst saved, Task.FormattedTxtURL (fst saved))))
                  end
              end
          end
    end.

(** One whole call of [FormatTaskLayout] under the schedule [evs]. *)
Definition FormatTaskLayout (taskID : string) (provider : translator.ProviderConfig)
    (evs : list Event) : IO (option (result (Task.t * string))) :=
  started <- FormatTaskLayout_start taskID provider ;;
  match started with
  | Err err => ret (Some (Err err))
  | Ok run =>
      ran <- formatSteps evs run ;;
      match ran with
      | None => ret None
      | Some run => FormatTaskLayout_finish run
      end
  end.

End Service.

(** *** The service under concurrent page operations

    The operations that write pages, as the moves of one transition system:
    a call of [CreateTask] (which starts a pool), a worker of a pool
    finishing a page, and a call of [RetranslatePage], split at its call of
    the provider so that other moves can fall in between. Each move is one
    call of the functions above. *)

Record Request := {
  req_taskID : string;
  req_pageNumber : Z;
  req_task : Task.t;
  req_target : nat;
}.

Record System := {
  sys_world : World;
  sys_pools : list Pool;
  sys_requests : list Request;
}.

Inductive Op :=
| OpCreateTask (up : Upload)
| OpPoolPage (pool : nat) (k : nat) (translated : Translated)
| OpRetranslate (taskID : string) (pageNumber : Z) (provider : translator.ProviderConfig)
| OpRetranslated (req : nat) (translated : Translated)
| OpClock (now : Z)
| OpDisk (failure : option string).

Definition sysStep `{lib : GoLib} (s : TaskService) (op : Op) (sys : System)
    : option System :=
  let w := sys_world sys in
  match op with
  | OpCreateTask up =>
      let '(created, w) := CreateTask s up w in
      let pools :=
        match created with
        | Ok (_, Some pool) => (sys_pools sys ++ [pool])%list
        | _ => sys_pools sys
        end in
      Some {| sys_world := w; sys_pools := pools; sys_requests := sys_requests sys |}
  | OpPoolPage i k translated =>
      pool ← sys_pools sys !! i;
      let '(next, w) := poolPage s k translated pool w in
      pool ← next;
      Some {| sys_world := w;
              sys_pools := <[i := pool]> (sys_pools sys);
              sys_requests := sys_requests sys |}
  | OpRetranslate taskID pageNumber provider =>
      let '(prepared, w) := RetranslatePage_prepare s taskID pageNumber provider w in
      let requests :=
        match prepared with
        | Ok (task, target) =>
            (sys_requests sys ++ [{| req_taskID := taskID; req_pageNumber := pageNumber;
                                     req_task := task; req_target := target |}])%list
        | Err _ => sys_requests sys
        end in
      Some {| sys_world := w; sys_pools := sys_pools sys; sys_requests := requests |}
  | OpRetranslated i translated =>
      req ← sys_requests sys !! i;
      let '(_, w) :=
        RetranslatePage_finish s (req_taskID req) (req_pageNumber req)
          (req_task req) (req_target req) translated w in
      Some {| sys_world := w;
              sys_pools := sys_pools sys;
              sys_requests := delete i (sys_requests sys) |}
  | OpClock now =>
      Some {| sys_world := mkWorld (metas w) (files w) now (writeError w);
              sys_pools := sys_pools sys; sys_requests := sys_requests sys |}
  | OpDisk failure =>
      Some {| sys_world := mkWorld (metas w) (files w) (clock w) failure;
              sys_pools := sys_pools sys; sys_requests := sys_requests sys |}
  end.

Fixpoint sysRun `{lib : GoLib} (s : TaskService) (ops : list Op) (sys : System)
    : option System :=
  match ops with
  | [] => Some sys
  | op :: ops => sys ← sysStep s op sys; sysRun s ops sys
  end.

(** A machine on which the service has just been started: no task, no
    operation under way. *)
Definition boot (now : Z) : System :=
  {| sys_world := mkWorld ∅ ∅ now None; sys_pools := []; sys_requests := [] |}.

(** *** The service under formatting runs

    Calls of [FormatTaskLayout] that follow one another, each as its start,
    the moves of its goroutines and its end. [fs_formatted] records the ids
    of the tasks a run has formatted so far; it is a record kept for the
    statements, the program has no such variable. *)

Record Formatting := {
  fs_world : World;
  fs_run : option FormatRun;
  fs_formatted : list string;
}.

Inductive FormatOp :=
| FStart (taskID : string) (provider : translator.ProviderConfig)
| FMove (ev : Event)
| FFinish
| FClock (now : Z)
| FDisk (failure : option string).

Definition fmtStep `{lib : GoLib} (s : TaskService) (op : FormatOp) (st : Formatting)
    : option Formatting :=
  let w := fs_world st in
  match op with
  | FStart taskID provider =>
      match fs_run st with
      | Some _ => None
      | None =>
          let '(started, w) := FormatTaskLayout_start s taskID provider w in
          Some {| fs_world := w;
                  fs_run := match started with Ok run => Some run | Err _ => None end;
                  fs_formatted := fs_formatted st |}
      end
  | FMove ev =>
      run ← fs_run st;
      let '(next, w) := formatStep s ev run w in
      run ← next;
      Some {| fs_world := w; fs_run := Some run; fs_formatted := fs_formatted st |}
  | FFinish =>
      run ← fs_run st;
      let '(finished, w) := FormatTaskLayout_finish s run w in
      outcome ← finished;
      Some {| fs_world := w;
              fs_run := None;
              fs_formatted :=
                match outcome with
                | Ok (task, _) => (fs_formatted st ++ [Task.ID task])%list
                | Err _ => fs_formatted st
                end |}
  | FClock now =>
      Some {| fs_world := mkWorld (metas w) (files w) now (writeError w);
              fs_run := fs_run st; fs_formatted := fs_formatted st |}
  | FDisk failure =>
      Some {| fs_world := mkWorld (metas w) (files w) (clock w) failure;
              fs_run := fs_run st; fs_formatted := fs_formatted st |}
  end.

Fixpoint fmtRun `{lib : GoLib} (s : TaskService) (ops : list FormatOp) (st : Formatting)
    : option Formatting :=
  match ops with
  | [] => Some st
  | op :: ops => st ← fmtStep s op st; fmtRun s ops st
  end.

(** No run under way, none has succeeded yet. *)
Definition idle (w : World) : Formatting :=
  {| fs_world := w; fs_run := None; fs_formatted := [] |}.

(** *** Summaries, the text export and the constructor *)

(** [model.TaskSummary]. *)
Module TaskSummary.

Record t := mk {
  ID : string;
  FileName : string;
  TotalPages : Z;
  CompletedPages : Z;
  PendingPages : Z;
  ErrorPages : Z;
  CreatedAt : Z;
  UpdatedAt : Z;
}.

End TaskSummary.

(** One iteration of the loop of [summarizeTask] over the counters
    [completed], [pending] and [failed]. *)
Definition countPage (counts : Z * Z * Z) (page : PageResult.t) : Z * Z * Z :=
  let '(completed, pending, failed) := counts in
  if String.eqb (PageResult.Status page) PageStatusCompleted
  then (completed + 1, pending, failed)
  else if String.eqb (PageResult.Status page) PageStatusError
  then (completed, pending, failed + 1)
  else (completed, pending + 1, failed).

Definition summarizeTask (task : Task.t) : TaskSummary.t :=
  let '(completed, pending, failed) := fold_left countPage (Task.Pages task) (0, 0, 0) in
  TaskSummary.mk (Task.ID task) (Task.FileName task) (Task.TotalPages task)
    completed pending failed (Task.CreatedAt task) (Task.UpdatedAt task).

(** [task.CombinedTxtPath = path; task.CombinedTxtURL = url]. *)
Definition setCombinedTxt (path url : string) (k : Task.t) : Task.t :=
  Task.mk (Task.ID k) (Task.FileName k) (Task.OriginalPath k) (Task.TotalPages k)
    (Task.Pages k) path url (Task.CombinedPDFPath k) (Task.CombinedPDFURL k)
    (Task.CreatedAt k) (Task.UpdatedAt k) (Task.Provider k) (Task.FormattingOptimized k)
    (Task.FormattedByAI k) (Task.FormattedTxtPath k) (Task.FormattedTxtURL k)
    (Task.FormattedPDFPath k) (Task.FormattedPDFURL k)
    (Task.FormattingInProgress k) (Task.FormattingTotalChunks k)
    (Task.FormattingCompletedChunks k).

Section Exports.

Context `{lib : GoLib} (s : TaskService).

Definition GetTask (taskID : string) : IO (result Task.t) := loadTask s taskID.

Definition MergeText (taskID : string) : IO (result (Task.t * string)) :=
  loaded <- loadTask s taskID ;;
  match loaded with
  | Err err => ret (Err err)
  | Ok task =>
      match buildCombinedText task with
      | Err err => ret (Err err)
      | Ok combinedText =>
          let combinedPath := filepath_Join [taskDir s (Task.ID task); "combined.txt"] in
          written <- writeFile combinedPath combinedText ;;
          match written with
          | Some msg => ret (Err (ErrExternal ("写入TXT失败: " ++ msg)))
          | None =>
              let task :=
                setCombinedTxt combinedPath
                  (buildFileURL s (Task.ID task) ["combined.txt"]) task in
              saved <- saveTask s task ;;
              match snd saved with
              | Some err => ret (Err err)
              | None => ret (Ok (fst saved, Task.CombinedTxtURL (fst saved)))
              end
          end
      end
  end.

End Exports.

(** [NewTaskService]: the service, or the error of [os.MkdirAll]. *)
Definition NewTaskService (storageDir staticPrefix fontPath : string)
    (defaultProvider : translator.ProviderConfig) (maxWorkers : Z)
    : IO (result TaskService) :=
  let maxWorkers := if maxWorkers <=? 0 then 1 else maxWorkers in
  made <- mkdirAll storageDir ;;
  match made with
  | Some msg => ret (Err (ErrExternal msg))
  | None =>
      let timeout :=
        if translator.Timeout defaultProvider =? 0 then 90 * translator.Second
        else translator.Timeout defaultProvider in
      let defaultProvider :=
        {| translator.Type_ := translator.Type_ defaultProvider;
           translator.BaseURL := translator.BaseURL defaultProvider;
           translator.APIKey := translator.APIKey defaultProvider;
           translator.Model := translator.Model defaultProvider;
           translator.Timeout := timeout;
           translator.MaxTokens :=
             translator.SanitizeMaxTokens (translator.MaxTokens defaultProvider);
           translator.OptimizeLayout := translator.OptimizeLayout defaultProvider |} in
      ret (Ok {| storageDir := storageDir; staticPrefix := staticPrefix;
                 fontPath := fontPath; maxWorkers := maxWorkers;
                 defaultProvider := defaultProvider |})
  end.

End service.

(** ** An implementation of the library interface

    Spaces and letters are the ASCII ones, a path is joined with slashes.
    It serves to run the model on concrete inputs. *)

Module asciilib.

Definition isSpace (a : ascii) : bool :=
  let b := utf8.byteval a in (b =? 32) || ((9 <=? b) && (b <=? 13)).

Fixpoint trimLeft (s : string) : string :=
  match s with
  | EmptyString => EmptyString
  | String a t => if isSpace a then trimLeft t else s
  end.

Definition TrimSpace (s : string) : string :=
  String.rev (trimLeft (String.rev (trimLeft s))).

Definition lower (a : ascii) : ascii :=
  let b := utf8.byteval a in
  if (65 <=? b) && (b <=? 90) then utf8.bytechr (b + 32) else a.

Fixpoint ToLower (s : string) : string :=
  match s with
  | EmptyString => EmptyString
  | String a t => String (lower a) (ToLower t)
  end.

Definition TrimSuffix (s suffix : string) : string :=
  if strings_HasPrefix (String.rev s) (String.rev suffix)
  then String.rev (utf8.skip (String.length suffix) (String.rev s))
  else s.

Definition Join (elems : list string) : string :=
  strings_Join (filter (fun e => e <> "") elems) "/".

Fixpoint lastFrom (sep : ascii) (acc : string) (s : string) : string :=
  match s with
  | EmptyString => acc
  | String a t =>
      if Ascii.eqb a sep then lastFrom sep EmptyString t
      else lastFrom sep (acc ++ String a EmptyString) t
  end.

Definition Base (p : string) : string := lastFrom "/"%char EmptyString p.

Definition Ext (p : string) : string :=
  let base := Base p in
  if strings_Contains base "." then "." ++ lastFrom "."%char EmptyString base else "".

End asciilib.

#[export] Instance ascii_lib : GoLib := {|
  strings_TrimSpace := asciilib.TrimSpace;
  strings_ToLower := asciilib.ToLower;
  strings_TrimSuffix := asciilib.TrimSuffix;
  filepath_Join := asciilib.Join;
  filepath_Base := asciilib.Base;
  filepath_Ext := asciilib.Ext;
  filepath_ToSlash := fun p => p;
  path_Join := asciilib.Join;
|}.

(** ** Notions used in the statements *)

Import utf8 model service.

(** The chunks written one after the other. *)
Definition cat (l : list string) : string := fold_right String.append "" l.

(** The bytes a rune-by-rune copy of [s] produces. *)
Definition recode (s : string) : string :=
  fold_right (fun r acc => (EncodeRune r ++ acc)%string) "" (runes s).

(** What the loop of [splitTextChunks] keeps true, and the text it holds. *)
Definition splitInv (st : splitState) : Prop :=
  Forall (fun c => c <> "") (chunks st) /\ current st = len (builder st).

Definition content (st : splitState) : string := (cat (chunks st) ++ builder st)%string.

(** A rune that [range] yields is a valid one: [DecodeRuneInString] returns
    a scalar value or [RuneError]. *)
Definition validRune (r : Z) : Prop :=
  0 <= r <= MaxRune /\ (r < 55296 \/ 57343 < r).


(** The initial selection in the words of the specification: the first
    and the last selected page. *)
Definition initialRange `{lib : GoLib} (total : Z) (settings : TranslationSettings)
    : Z * Z :=
  let mode := strings_ToLower (strings_TrimSpace (RangeMode settings)) in
  if String.eqb mode "custom" && (0 <? RangeCustom settings)
  then (1, Z.min (RangeCustom settings) total)
  else if String.eqb mode "range"
          && ((0 <? RangeStart settings) || (0 <? RangeEnd settings))
  then
    let start := if RangeStart settings <=? 0 then 1 else RangeStart settings in
    let end_ := if RangeEnd settings <=? 0 then total else RangeEnd settings in
    (Z.min total (Z.min start end_), Z.min total (Z.max start end_))
  else (1, total).

(** A service, a machine and an upload to run the model on. *)
Definition demo_service : TaskService :=
  {| storageDir := "storage"; staticPrefix := "/pdf-data"; fontPath := "";
     maxWorkers := 4;
     defaultProvider :=
       {| translator.Type_ := "openai"; translator.BaseURL := "https://api.openai.com/v1";
          translator.APIKey := "sk-demo"; translator.Model := "gpt-4o";
          translator.Timeout := 300 * translator.Second;
          translator.MaxTokens := 8192; translator.OptimizeLayout := true |} |}.

Definition demo_world : World := mkWorld ∅ ∅ 1000 None.

Definition no_provider : translator.ProviderConfig :=
  {| translator.Type_ := ""; translator.BaseURL := ""; translator.APIKey := "";
     translator.Model := ""; translator.Timeout := 0; translator.MaxTokens := 0;
     translator.OptimizeLayout := false |}.

(** Five pages, "first 3". *)
Definition demo_upload : Upload :=
  {| upload_reader := Some "%PDF-1.7";
     upload_fileName := "book.pdf";
     upload_provider := no_provider;
     upload_settings :=
       {| RangeMode := "custom"; RangeCustom := 3; RangeStart := 0; RangeEnd := 0;
          BatchLimit := 2 |};
     upload_taskID := "t1";
     upload_pageIDs := fun idx => "p" ++ pretty (Z.of_nat idx);
     upload_images :=
       Ok ["storage/t1/pages/page-001.png"; "storage/t1/pages/page-002.png";
           "storage/t1/pages/page-003.png"; "storage/t1/pages/page-004.png";
           "storage/t1/pages/page-005.png"] |}.







(** Merge by id, in the words of the specification: the page of [current]
    with the id of [p] is replaced by [p]; [p] is appended when there is
    none. *)
Definition mergeByID (current : Task.t) (p : PageResult.t) : Task.t :=
  match indexByID (PageResult.ID p) (Task.Pages current) with
  | Some idx => Task.set_Pages (<[idx := p]> (Task.Pages current)) current
  | None => Task.set_Pages (Task.Pages current ++ [p])%list current
  end.

(** C1 as stated, for the worker of [pool] that finishes its [k]-th
    unfinished page in world [w]: meta.json afterwards holds the task that
    was stored before, with the page merged in by id. *)
Definition persistedByMerge `{lib : GoLib} (s : TaskService) (pool : Pool) (k : nat)
    (translated : Translated) (w : World) : Prop :=
  forall current pool' w' page p',
    loadTask s (Task.ID (pool_task pool)) w = (Ok current, w) ->
    poolPage s k translated pool w = (Some pool', w') ->
    pool_jobs pool !! k = Some page ->
    Task.Pages (pool_task pool') !! page = Some p' ->
    exists stored,
      loadTask s (Task.ID (pool_task pool)) w' = (Ok stored, w')
      /\ Task.Pages stored = Task.Pages (mergeByID current p').

Definition demo_translation : translator.Result :=
  {| translator.HasText := true; translator.SourceText := "Hello";
     translator.TranslatedText := " Bonjour " |}.

(** A task is created; while its pool is at work, page 1 is retranslated
    with success. *)
Definition demo_ops : list Op :=
  [OpCreateTask demo_upload; OpRetranslate "t1" 1 no_provider;
   OpRetranslated 0 (inr demo_translation)].

(** The bounds C2 asks of the progress counters of a task. *)
Definition fmt_bounds (task : Task.t) : Prop :=
  0 < Task.FormattingTotalChunks task ->
  0 <= Task.FormattingCompletedChunks task <= Task.FormattingTotalChunks task.

(** A goroutine that may still call the formatter. *)
Definition busy (wk : Worker) : bool :=
  match wk with Waiting _ | Calling _ => true | _ => false end.

Fixpoint busyCount (workers : list Worker) : Z :=
  match workers with
  | [] => 0
  | wk :: workers => (if busy wk then 1 else 0) + busyCount workers
  end.

(** The seconds slept for chunk [idx] so far, in order. *)
Definition sleepsOf (idx : nat) (run : FormatRun) : list Z :=
  map snd (filter (fun e => e.1 = idx) (run_sleeps run)).

(** What the goroutines of a run keep true of the counters they share. *)
Definition run_counts (run : FormatRun) : Prop :=
  0 < totalChunks run
  /\ length (run_workers run) = length (run_chunks run)
  /\ 0 <= run_completedChunks run
  /\ run_completedChunks run + busyCount (run_workers run) <= totalChunks run
  /\ forall idx c, run_workers run !! idx = Some (Saving c) ->
       1 <= c <= run_completedChunks run.

(** ... and of the retry path. *)
Definition run_retries (run : FormatRun) : Prop :=
  1 <= run_currentLimit run <= 3
  /\ (run_sleeps run <> [] -> run_currentLimit run = 1)
  /\ forall idx r,
       (run_workers run !! idx = Some (Waiting r) \/ run_workers run !! idx = Some (Calling r)) ->
       0 <= r <= 3 /\ sleepsOf idx run = seqZ 1 r.

(** While a run is under way, meta.json of its task holds its chunk count. *)
Definition during `{lib : GoLib} (s : TaskService) (run : FormatRun) (w : World) : Prop :=
  exists task,
    metas w !! metaPath s (run_taskID run) = Some (Task.toJSON task)
    /\ Task.ID task = run_taskID run
    /\ Task.FormattingTotalChunks task = totalChunks run
    /\ 0 <= Task.FormattingCompletedChunks task <= totalChunks run.

(** Every document of the store is a task kept under its own id, with its
    counters in bounds, and not marked formatted unless a run recorded in
    [formatted] has formatted it. *)
Definition fstore_ok `{lib : GoLib} (s : TaskService) (formatted : list string) (w : World) : Prop :=
  forall path doc, metas w !! path = Some doc ->
    exists task, doc = Task.toJSON task
      /\ path = metaPath s (Task.ID task)
      /\ fmt_bounds task
      /\ (Task.ID task ∉ formatted -> Task.FormattedByAI task = false).

(** What calls of [FormatTaskLayout] that follow one another keep true. *)
Definition fmt_ok `{lib : GoLib} (s : TaskService) (st : Formatting) : Prop :=
  fstore_ok s (fs_formatted st) (fs_world st)
  /\ match fs_run st with
     | None => True
     | Some run => run_counts run /\ run_retries run /\ during s run (fs_world st)
     end.

(** The retry path of [processChunk] for chunk [idx] after [retries]
    retries: back before [acquireSlot] with one more retry, the limit at 1,
    that many seconds slept, no error set. *)
Definition retried (idx : nat) (retries : Z) (run run' : FormatRun) : Prop :=
  run_workers run' !! idx = Some (Waiting (retries + 1))
  /\ run_currentLimit run' = 1
  /\ run_sleeps run' = (run_sleeps run ++ [(idx, retries + 1)])%list
  /\ run_firstErr run' = run_firstErr run
  /\ run_cancelled run' = run_cancelled run.

(** A store in which no task has been formatted yet. *)
Definition fresh_store `{lib : GoLib} (s : TaskService) (w : World) : Prop :=
  fstore_ok s [] w.

(** ** A task to format

    The demo task once its pool has translated page 1, read back from
    meta.json. *)
Definition demo_translated : option Task.t :=
  sys ← sysRun demo_service [OpCreateTask demo_upload; OpPoolPage 0 0 (inr demo_translation)]
         (boot 1000);
  match loadTask demo_service "t1" (sys_world sys) with
  | (Ok task, _) => Some task
  | _ => None
  end.

Definition demo_task : Task.t :=
  Eval vm_compute in
    default (Task.mk "" "" "" 0 [] "" "" "" "" 0 0 ProviderInfo.zero false false "" "" "" ""
               false 0 0) demo_translated.

(** A machine whose store holds that task only. *)
Definition demo_machine : World :=
  mkWorld (<[metaPath demo_service "t1" := Task.toJSON demo_task]> ∅) ∅ 2000 None.

(** A pool over [demo_task] whose only job is page 2. *)
Definition demo_pool : Pool :=
  {| pool_task := demo_task; pool_jobs := [1%nat]; pool_workers := 1 |}.


(** One formatting run in which the provider answers 429 three times and the
    request is sent a fourth time. *)
Definition demo_rate_limited : list FormatOp :=
  [FStart "t1" no_provider;
   FMove (Acquire 0); FMove (Respond 0 (inl "HTTP 429 Too Many Requests"));
   FMove (Acquire 0); FMove (Respond 0 (inl "HTTP 429 Too Many Requests"));
   FMove (Acquire 0); FMove (Respond 0 (inl "HTTP 429 Too Many Requests"));
   FMove (Acquire 0)].

(** A run of one ten-rune chunk whose request is in flight. *)
Definition demo_chunk : translator.FormatterChunk :=
  {| translator.FileName := "chunk-001.txt"; translator.MimeType := "text/plain";
     translator.Data := "0123456789" |}.

Definition demo_run : FormatRun :=
  {| run_taskID := "t1"; run_chunks := [demo_chunk]; run_results := [""];
     run_currentLimit := 1; run_activeSlots := 1; run_firstErr := None;
     run_cancelled := false; run_completedChunks := 0; run_workers := [Calling 0];
     run_sleeps := [] |}.

(** ** Notions of the further properties *)

(** The bytes written for the runes [l], one after the other. *)
Definition encodeAll (l : list Z) : string :=
  fold_right (fun r acc => (EncodeRune r ++ acc)%string) "" l.

(** What the loop keeps true of the runes it has written: the chunks and
    the builder hold whole runes, [done] in all. *)
Definition splitRunes (st : splitState) (done : list Z) : Prop :=
  exists ls l,
    chunks st = map encodeAll ls /\ builder st = encodeAll l
    /\ (concat ls ++ l)%list = done.

(** What the loop keeps true of the sizes, for the budget [m]. *)
Definition splitBound (m : Z) (st : splitState) : Prop :=
  Forall (fun c => m - 512 < len c <= m) (chunks st)
  /\ current st = len (builder st) /\ len (builder st) <= m.

(** The number of pages of [pages] in the given status. *)
Definition countStatus (status : PageStatus) (pages : list PageResult.t) : Z :=
  Z.of_nat (length (filter (fun p => PageResult.Status p = status) pages)).

(** A page that [buildCombinedText] prints, and what it prints for it. *)
Definition printable `{lib : GoLib} (p : PageResult.t) : bool :=
  PageResult.HasText p
  && negb (String.eqb (strings_TrimSpace (PageResult.Translation p)) "").

Definition pageSection `{lib : GoLib} (p : PageResult.t) : string :=
  ("第" ++ pretty (PageResult.PageNumber p) ++ "页" ++ LF)
  ++ strings_TrimSpace (PageResult.Translation p) ++ (LF ++ LF).

(** What a call of the provider makes of the page [p]: [p'] has the id,
    the number and the paths of [p]; after an error it is in error with
    the message and the texts of [p], after an answer it is completed with
    the trimmed texts of the answer. *)
Definition retranslated `{lib : GoLib} (translated : Translated) (p p' : PageResult.t) : Prop :=
  PageResult.ID p' = PageResult.ID p
  /\ PageResult.PageNumber p' = PageResult.PageNumber p
  /\ PageResult.ImagePath p' = PageResult.ImagePath p
  /\ PageResult.TextPath p' = PageResult.TextPath p
  /\ match translated with
     | inl msg =>
         PageResult.Status p' = PageStatusError
         /\ PageResult.Error p' = msg
         /\ PageResult.HasText p' = PageResult.HasText p
         /\ PageResult.SourceText p' = PageResult.SourceText p
         /\ PageResult.Translation p' = PageResult.Translation p
     | inr result =>
         PageResult.Status p' = PageStatusCompleted
         /\ PageResult.Error p' = ""
         /\ PageResult.HasText p' = translator.HasText result
         /\ PageResult.SourceText p' = strings_TrimSpace (translator.SourceText result)
         /\ PageResult.Translation p' = strings_TrimSpace (translator.TranslatedText result)
     end.

(** The number of goroutines of a run that are in a given state. *)
Fixpoint countWorkers (f : Worker -> bool) (workers : list Worker) : Z :=
  match workers with
  | [] => 0
  | wk :: workers => (if f wk then 1 else 0) + countWorkers f workers
  end.

(** A goroutine inside [formatter.Format], and one that has stored its
    result. *)
Definition calling (wk : Worker) : bool :=
  match wk with Calling _ => true | _ => false end.

Definition stored (wk : Worker) : bool :=
  match wk with Saving _ | Returned => true | _ => false end.

(** The run as [FormatTaskLayout] sets it up for the chunks [chunks]. *)
Definition freshRun (taskID : string) (chunks : list translator.FormatterChunk) : FormatRun :=
  let n := Z.of_nat (length chunks) in
  mkRun taskID chunks (replicate (length chunks) "") (if n <? 3 then n else 3) 0 None false 0
    (replicate (length chunks) (Waiting 0)) [].

(** The output [clean] passes the check against truncation for [chunk]. *)
Definition plausible (chunk : translator.FormatterChunk) (clean : string) : Prop :=
  let srcLen := RuneCount (translator.Data chunk) in
  ~ (0 < srcLen /\ RuneCount clean < Z.quot srcLen 2).

(** What the goroutines keep true of the slots: [activeSlots] counts the
    calls of the formatter that are in flight, and neither it nor the limit
    exceeds 3. *)
Definition slots_ok (run : FormatRun) : Prop :=
  run_activeSlots run = countWorkers calling (run_workers run)
  /\ run_activeSlots run <= 3
  /\ run_currentLimit run <= 3.

(** What they keep true of the results as long as no error is set and the
    run is not cancelled: every goroutine that is past the formatter has
    stored, for its chunk, the trimmed answer of the formatter, which
    passed the check against truncation; [completedChunks] counts them. *)
Definition results_ok `{lib : GoLib} (run : FormatRun) : Prop :=
  length (run_workers run) = length (run_chunks run)
  /\ length (run_results run) = length (run_chunks run)
  /\ (run_firstErr run = None ->
      run_cancelled run = false
      /\ run_completedChunks run = countWorkers stored (run_workers run)
      /\ forall idx wk, run_workers run !! idx = Some wk -> stored wk = true ->
           exists chunk answer,
             run_chunks run !! idx = Some chunk
             /\ run_results run !! idx = Some (strings_TrimSpace answer)
             /\ plausible chunk (strings_TrimSpace answer)).

(** A move other than the cancellation of the caller's context. *)
Definition notCancelled (op : FormatOp) : Prop :=
  match op with FMove Cancel => False | _ => True end.









(* ===== Theorems ===== *)

(** * Properties *)

(** ** Bytes, runes and strings *)

Lemma byteval_range a : 0 <= byteval a < 256.
Proof.
  unfold byteval. pose proof (N_ascii_bounded a). lia.
Qed.

Lemma bytechr_byteval a : bytechr (byteval a) = a.
Proof.
  unfold bytechr, byteval. rewrite N2Z.id. apply ascii_N_embedding.
Qed.

Lemma inrange_spec lo hi b : inrange lo hi b = true <-> lo <= b <= hi.
Proof. unfold inrange. rewrite andb_true_iff, !Z.leb_le. tauto. Qed.

Ltac byte_cases :=
  repeat match goal with
  | H : inrange _ _ _ = true |- _ => apply inrange_spec in H
  | H : cont _ = true |- _ => unfold cont in H
  | H : andb _ _ = true |- _ => apply andb_true_iff in H; destruct H
  | H : (_ <? _) = true |- _ => apply Z.ltb_lt in H
  | H : (_ <? _) = false |- _ => apply Z.ltb_ge in H
  | H : (_ =? _) = true |- _ => apply Z.eqb_eq in H
  | H : (_ =? _) = false |- _ => apply Z.eqb_neq in H
  end.

Lemma divmod_digit (q d : Z) (k : Z) : 0 < k -> 0 <= d < k -> (q * k + d) / k = q /\ (q * k + d) mod k = d.
Proof.
  intros Hk Hd. split.
  - rewrite Z.div_add_l by lia. rewrite Z.div_small by lia. lia.
  - rewrite Z.add_comm, Z.mod_add by lia. apply Z.mod_small; lia.
Qed.

Lemma EncodeRune_nonempty r : (1 <= String.length (EncodeRune r))%nat.
Proof.
  unfold EncodeRune, encode3.
  repeat match goal with |- context [if ?c then _ else _] => destruct c end; simpl; lia.
Qed.


Ltac ztest :=
  repeat match goal with
  | |- context [?a <? ?b] =>
      first [ replace (a <? b) with true by (symmetry; apply Z.ltb_lt; lia)
            | replace (a <? b) with false by (symmetry; apply Z.ltb_ge; lia) ]
  | |- context [?a <=? ?b] =>
      first [ replace (a <=? b) with true by (symmetry; apply Z.leb_le; lia)
            | replace (a <=? b) with false by (symmetry; apply Z.leb_gt; lia) ]
  end.

Ltac decode_fail := intros [= <- <-]; simpl; discriminate.

Lemma decode_encode a0 t0 r w :
  DecodeRuneInString (String a0 t0) = (r, w) ->
  (r =? RuneError) && Nat.eqb w 1 = false ->
  (EncodeRune r ++ skip w (String a0 t0))%string = String a0 t0.
Proof.
  unfold DecodeRuneInString.
  pose proof (byteval_range a0) as R0.
  destruct (byteval a0 <? 128) eqn:E0.
  { intros [= <- <-] _. byte_cases.
    unfold EncodeRune, surrogate, inrange, MaxRune. ztest.
    simpl. now rewrite bytechr_byteval. }
  destruct (inrange 194 223 (byteval a0)) eqn:E1.
  { destruct t0 as [|a1 t1]; [decode_fail|].
    pose proof (byteval_range a1) as R1.
    destruct (cont (byteval a1)) eqn:C1; [|decode_fail].
    intros [= <- <-] _. byte_cases.
    set (b0 := byteval a0) in *. set (b1 := byteval a1) in *.
    set (r := (b0 - 192) * 64 + (b1 - 128)).
    assert (r / 64 = b0 - 192 /\ r mod 64 = b1 - 128) as [Hq Hm]
      by (unfold r; Z.div_mod_to_equations; lia).
    assert (128 <= r <= 2047) by (unfold r; lia).
    unfold EncodeRune, surrogate, inrange, MaxRune. ztest.
    simpl. rewrite Hq, Hm.
    replace (192 + (b0 - 192)) with b0 by lia. replace (128 + (b1 - 128)) with b1 by lia.
    unfold b0, b1. now rewrite !bytechr_byteval. }
  destruct (inrange 224 239 (byteval a0)) eqn:E2.
  { destruct t0 as [|a1 [|a2 t2]]; [decode_fail|decode_fail|].
    pose proof (byteval_range a1) as R1. pose proof (byteval_range a2) as R2.
    match goal with |- context [if ?c then _ else _] => destruct c eqn:C end; [|decode_fail].
    intros [= <- <-] _. byte_cases.
    set (b0 := byteval a0) in *. set (b1 := byteval a1) in *. set (b2 := byteval a2) in *.
    set (r := (b0 - 224) * 4096 + (b1 - 128) * 64 + (b2 - 128)).
    assert (E224 : b0 = 224 -> 160 <= b1) by (intros ->; rewrite Z.eqb_refl in *; lia).
    assert (E237 : b0 = 237 -> b1 <= 159) by (intros ->; rewrite Z.eqb_refl in *; simpl in *; lia).
    assert (128 <= b1 <= 191)
      by (destruct (b0 =? 224), (b0 =? 237); lia).
    assert (r / 4096 = b0 - 224 /\ (r / 64) mod 64 = b1 - 128 /\ r mod 64 = b2 - 128)
      as (Hq & Hm1 & Hm2) by (unfold r; Z.div_mod_to_equations; lia).
    assert (2048 <= r <= 65535) by (unfold r; lia).
    assert (r < 55296 \/ 57343 < r) by (unfold r; lia).
    unfold EncodeRune, encode3, surrogate, inrange, MaxRune.
    replace ((55296 <=? r) && (r <=? 57343)) with false
      by (symmetry; apply andb_false_iff; rewrite Z.leb_gt, Z.leb_gt; lia).
    ztest. simpl. rewrite Hq, Hm1, Hm2.
    replace (224 + (b0 - 224)) with b0 by lia. replace (128 + (b1 - 128)) with b1 by lia.
    replace (128 + (b2 - 128)) with b2 by lia.
    unfold b0, b1, b2. now rewrite !bytechr_byteval. }
  destruct (inrange 240 244 (byteval a0)) eqn:E3.
  { destruct t0 as [|a1 [|a2 [|a3 t3]]]; [decode_fail|decode_fail|decode_fail|].
    pose proof (byteval_range a1) as R1. pose proof (byteval_range a2) as R2.
    pose proof (byteval_range a3) as R3.
    match goal with |- context [if ?c then _ else _] => destruct c eqn:C end; [|decode_fail].
    intros [= <- <-] _. byte_cases.
    set (b0 := byteval a0) in *. set (b1 := byteval a1) in *. set (b2 := byteval a2) in *.
    set (b3 := byteval a3) in *.
    set (r := (b0 - 240) * 262144 + (b1 - 128) * 4096 + (b2 - 128) * 64 + (b3 - 128)).
    assert (E240 : b0 = 240 -> 144 <= b1) by (intros ->; rewrite Z.eqb_refl in *; lia).
    assert (E244 : b0 = 244 -> b1 <= 143) by (intros ->; rewrite Z.eqb_refl in *; simpl in *; lia).
    assert (128 <= b1 <= 191)
      by (destruct (b0 =? 240), (b0 =? 244); lia).
    assert (r / 262144 = b0 - 240 /\ (r / 4096) mod 64 = b1 - 128
            /\ (r / 64) mod 64 = b2 - 128 /\ r mod 64 = b3 - 128)
      as (Hq & Hm1 & Hm2 & Hm3) by (unfold r; Z.div_mod_to_equations; lia).
    assert (65536 <= r <= 1114111) by (unfold r; lia).
    unfold EncodeRune, encode3, surrogate, inrange, MaxRune.
    ztest. simpl. rewrite Hq, Hm1, Hm2, Hm3.
    replace (240 + (b0 - 240)) with b0 by lia. replace (128 + (b1 - 128)) with b1 by lia.
    replace (128 + (b2 - 128)) with b2 by lia. replace (128 + (b3 - 128)) with b3 by lia.
    unfold b0, b1, b2, b3. now rewrite !bytechr_byteval. }
  decode_fail.
Qed.

Lemma str_app_cons a (s t : string) : (String a s ++ t)%string = String a (s ++ t).
Proof. reflexivity. Qed.

Lemma str_app_nil_l (t : string) : ("" ++ t)%string = t.
Proof. reflexivity. Qed.

Lemma str_app_assoc (a b c : string) : ((a ++ b) ++ c)%string = (a ++ (b ++ c))%string.
Proof. induction a; rewrite ?str_app_nil_l, ?str_app_cons; congruence. Qed.

Lemma str_app_nil_r (a : string) : (a ++ "")%string = a.
Proof. induction a; rewrite ?str_app_nil_l, ?str_app_cons; congruence. Qed.

Lemma str_length_app (a b : string) :
  String.length (a ++ b) = (String.length a + String.length b)%nat.
Proof. induction a; rewrite ?str_app_nil_l, ?str_app_cons; simpl; congruence. Qed.

Lemma len_app (a b : string) : len (a ++ b) = len a + len b.
Proof. unfold len. rewrite str_length_app. lia. Qed.

Lemma len_nonneg s : 0 <= len s.
Proof. unfold len. lia. Qed.

Lemma len_zero s : len s = 0 -> s = "".
Proof. unfold len. destruct s; simpl; [easy|lia]. Qed.

Lemma decode_width a t : (1 <= snd (DecodeRuneInString (String a t)) <= 4)%nat.
Proof.
  unfold DecodeRuneInString.
  repeat match goal with
  | |- context [if ?c then _ else _] => destruct c
  | |- context [match ?s with EmptyString => _ | String _ _ => _ end] => destruct s
  end; simpl; lia.
Qed.

Lemma skip_length w s : (String.length (skip w s) <= String.length s)%nat.
Proof.
  revert s. induction w as [|w IH]; intros [|a s]; simpl; auto.
Qed.

Lemma skip_lt w a t : (1 <= w)%nat -> (String.length (skip w (String a t)) < String.length (String a t))%nat.
Proof.
  destruct w as [|w]; [lia|]. intros _. simpl. pose proof (skip_length w t). lia.
Qed.

Lemma runes_upto_enough fuel s :
  (String.length s <= fuel)%nat -> runes_upto fuel s = runes s.
Proof.
  unfold runes. revert s.
  induction fuel as [fuel IH] using lt_wf_ind. intros s Hs.
  destruct s as [|a t]; [destruct fuel; reflexivity|].
  destruct fuel as [|fuel]; [simpl in Hs; lia|].
  cbn [runes_upto String.length].
  destruct (DecodeRuneInString (String a t)) as [r w] eqn:D.
  pose proof (decode_width a t) as W. rewrite D in W. simpl in W.
  pose proof (skip_lt w a t ltac:(lia)) as L. simpl in L, Hs.
  f_equal. rewrite (IH fuel) by lia.
  symmetry. apply (IH (String.length t)); lia.
Qed.

Lemma runes_unfold a t :
  runes (String a t) =
  fst (DecodeRuneInString (String a t))
    :: runes (skip (snd (DecodeRuneInString (String a t))) (String a t)).
Proof.
  unfold runes at 1. cbn [runes_upto String.length].
  destruct (DecodeRuneInString (String a t)) as [r w] eqn:D. simpl.
  f_equal. apply runes_upto_enough.
  pose proof (decode_width a t) as W. rewrite D in W. simpl in W.
  pose proof (skip_lt w a t ltac:(lia)) as L. simpl in L. lia.
Qed.

Lemma valid_upto_enough fuel s :
  (String.length s <= fuel)%nat -> valid_upto fuel s = ValidString s.
Proof.
  unfold ValidString. revert s.
  induction fuel as [fuel IH] using lt_wf_ind. intros s Hs.
  destruct s as [|a t]; [destruct fuel; reflexivity|].
  destruct fuel as [|fuel]; [simpl in Hs; lia|].
  cbn [valid_upto String.length].
  destruct (DecodeRuneInString (String a t)) as [r w] eqn:D.
  pose proof (decode_width a t) as W. rewrite D in W. simpl in W.
  pose proof (skip_lt w a t ltac:(lia)) as L. simpl in L, Hs.
  f_equal. rewrite (IH fuel) by lia.
  symmetry. apply (IH (String.length t)); lia.
Qed.

Lemma ValidString_unfold a t :
  ValidString (String a t) =
  negb ((fst (DecodeRuneInString (String a t)) =? RuneError)
        && Nat.eqb (snd (DecodeRuneInString (String a t))) 1)
  && ValidString (skip (snd (DecodeRuneInString (String a t))) (String a t)).
Proof.
  unfold ValidString at 1. cbn [valid_upto String.length].
  destruct (DecodeRuneInString (String a t)) as [r w] eqn:D. simpl.
  f_equal. apply valid_upto_enough.
  pose proof (decode_width a t) as W. rewrite D in W. simpl in W.
  pose proof (skip_lt w a t ltac:(lia)) as L. simpl in L. lia.
Qed.

Lemma recode_valid s : ValidString s = true -> recode s = s.
Proof.
  remember (String.length s) as n eqn:Hn. revert s Hn.
  induction n as [n IH] using lt_wf_ind. intros s Hn V.
  destruct s as [|a t]; [reflexivity|].
  rewrite ValidString_unfold in V. apply andb_true_iff in V as [V1 V2].
  unfold recode. rewrite runes_unfold. cbn [fold_right].
  destruct (DecodeRuneInString (String a t)) as [r w] eqn:D. cbn [fst snd] in *.
  pose proof (decode_width a t) as W. rewrite D in W. simpl in W.
  pose proof (skip_lt w a t ltac:(lia)) as L.
  fold (recode (skip w (String a t))).
  rewrite (IH (String.length (skip w (String a t)))); [|lia|reflexivity|exact V2].
  apply decode_encode; [exact D|]. now apply negb_true_iff in V1.
Qed.

Lemma cat_app l1 l2 : cat (l1 ++ l2) = (cat l1 ++ cat l2)%string.
Proof.
  induction l1 as [|c l1 IH]; [reflexivity|].
  cbn [cat List.app fold_right] in *. fold (cat (l1 ++ l2)). fold (cat l1).
  fold (cat (l1 ++ l2)) in IH. fold (cat l1) in IH. rewrite IH. now rewrite str_app_assoc.
Qed.

Lemma cat_snoc l c : cat (l ++ [c]) = (cat l ++ c)%string.
Proof. rewrite cat_app. cbn [cat fold_right]. now rewrite str_app_nil_r. Qed.

Lemma Join_nosep l : strings_Join l "" = cat l.
Proof.
  induction l as [|c [|d l] IH]; [reflexivity| |].
  - cbn. now rewrite str_app_nil_r.
  - change (strings_Join (c :: d :: l) "") with (c ++ "" ++ strings_Join (d :: l) "")%string.
    rewrite IH. reflexivity.
Qed.

Lemma splitStep_content maxBytes st r :
  content (splitStep maxBytes st r) = (content st ++ EncodeRune r)%string.
Proof.
  unfold splitStep, content.
  repeat match goal with |- context [if ?c then _ else _] => destruct c end;
    cbn [chunks builder current];
    rewrite ?cat_snoc, ?str_app_nil_r, ?str_app_nil_l, ?str_app_assoc; reflexivity.
Qed.

Lemma splitStep_inv maxBytes st r : splitInv st -> splitInv (splitStep maxBytes st r).
Proof.
  intros [Hc Hcur]. unfold splitStep, splitInv.
  pose proof (EncodeRune_nonempty r) as Hne.
  assert (Hb : forall b : string, (b ++ EncodeRune r)%string <> "").
  { intros b E. apply (f_equal String.length) in E. rewrite str_length_app in E.
    simpl in E. lia. }
  destruct ((maxBytes <? current st + len (EncodeRune r)) && (0 <? len (builder st))) eqn:E1;
    cbn [chunks builder current].
  - apply andb_true_iff in E1 as [_ E1]. apply Z.ltb_lt in E1.
    assert (builder st <> "") by (intros E; rewrite E in E1; unfold len in E1; simpl in E1; lia).
    destruct ((r =? 10) && _); cbn [chunks builder current]; split;
      rewrite ?Forall_app, ?Forall_cons, ?Forall_nil; rewrite ?len_app; auto.
  - destruct ((r =? 10) && _); cbn [chunks builder current]; split;
      rewrite ?Forall_app, ?Forall_cons, ?Forall_nil; rewrite ?len_app; auto.
    now rewrite Hcur.
Qed.

Lemma split_fold_content maxBytes rs st :
  content (fold_left (splitStep maxBytes) rs st)
  = (content st ++ fold_right (fun r acc => (EncodeRune r ++ acc)%string) "" rs)%string.
Proof.
  revert st. induction rs as [|r rs IH]; intros st; cbn [fold_left fold_right].
  - now rewrite str_app_nil_r.
  - rewrite IH, splitStep_content. now rewrite str_app_assoc.
Qed.

Lemma split_fold_inv maxBytes rs st :
  splitInv st -> splitInv (fold_left (splitStep maxBytes) rs st).
Proof.
  revert st. induction rs as [|r rs IH]; intros st H; cbn [fold_left]; auto.
  apply IH. now apply splitStep_inv.
Qed.

Lemma splitTextChunks_recode text maxBytes :
  cat (splitTextChunks text maxBytes) = recode text.
Proof.
  unfold splitTextChunks.
  set (mb := if maxBytes <=? 0 then formatterChunkSize else maxBytes).
  set (st0 := {| chunks := []; builder := ""; current := 0 |}).
  pose proof (split_fold_content mb (runes text) st0) as C.
  unfold content in C. cbn [chunks builder st0 cat fold_right] in C.
  rewrite !str_app_nil_l in C. fold (recode text) in C.
  destruct (0 <? len _) eqn:E.
  - now rewrite cat_snoc.
  - apply Z.ltb_ge in E. pose proof (len_nonneg (builder (fold_left (splitStep mb) (runes text) st0))).
    rewrite (len_zero (builder (fold_left (splitStep mb) (runes text) st0))) in C by lia.
    now rewrite str_app_nil_r in C.
Qed.

Lemma splitTextChunks_nonempty text maxBytes :
  Forall (fun c => c <> "") (splitTextChunks text maxBytes).
Proof.
  unfold splitTextChunks.
  set (mb := if maxBytes <=? 0 then formatterChunkSize else maxBytes).
  set (st0 := {| chunks := []; builder := ""; current := 0 |}).
  assert (I0 : splitInv st0) by (split; [constructor|reflexivity]).
  destruct (split_fold_inv mb (runes text) st0 I0) as [Hc _].
  destruct (0 <? len _) eqn:E; [|exact Hc].
  apply Forall_app. split; [exact Hc|]. constructor; [|constructor].
  apply Z.ltb_lt in E. intros E'. rewrite E' in E. unfold len in E. simpl in E. lia.
Qed.

Lemma recode_empty_iff text : recode text = "" <-> text = "".
Proof.
  split; [|intros ->; reflexivity].
  destruct text as [|a t]; [reflexivity|].
  unfold recode. rewrite runes_unfold. cbn [fold_right].
  intros E. apply (f_equal String.length) in E. rewrite str_length_app in E.
  pose proof (EncodeRune_nonempty (fst (DecodeRuneInString (String a t)))).
  change (String.length "") with 0%nat in E. lia.
Qed.

Lemma splitTextChunks_nil_iff text maxBytes :
  splitTextChunks text maxBytes = [] <-> text = "".
Proof.
  split.
  - intros E. apply recode_empty_iff. rewrite <- splitTextChunks_recode with (maxBytes := maxBytes).
    now rewrite E.
  - intros ->. unfold splitTextChunks. reflexivity.
Qed.


Lemma Join_empty_sep_nonempty (l : list string) :
  Forall (fun c => c <> "") l -> l <> [] -> strings_Join l "" <> "".
Proof.
  intros Hall Hne. rewrite Join_nosep.
  destruct l as [|c l]; [congruence|].
  apply Forall_cons in Hall as [Hc _]. cbn [cat fold_right].
  intros E. apply (f_equal String.length) in E. rewrite str_length_app in E.
  destruct c; [congruence|]. simpl in E. lia.
Qed.

Lemma decode_validRune s : validRune (fst (DecodeRuneInString s)).
Proof.
  assert (VE : validRune RuneError) by (unfold validRune, RuneError, MaxRune; lia).
  destruct s as [|a0 t0]; [exact VE|].
  unfold DecodeRuneInString.
  pose proof (byteval_range a0) as R0.
  destruct (byteval a0 <? 128) eqn:E0.
  { byte_cases. cbn [fst]. unfold validRune, MaxRune. lia. }
  destruct (inrange 194 223 (byteval a0)) eqn:E1.
  { destruct t0 as [|a1 t1]; [exact VE|].
    pose proof (byteval_range a1) as R1.
    destruct (cont (byteval a1)) eqn:C1; [|exact VE].
    byte_cases. cbn [fst]. unfold validRune, MaxRune. lia. }
  destruct (inrange 224 239 (byteval a0)) eqn:E2.
  { destruct t0 as [|a1 [|a2 t2]]; [exact VE|exact VE|].
    pose proof (byteval_range a1) as R1. pose proof (byteval_range a2) as R2.
    match goal with |- context [if ?c then _ else _] => destruct c eqn:C end; [|exact VE].
    byte_cases. cbn [fst].
    set (b0 := byteval a0) in *. set (b1 := byteval a1) in *. set (b2 := byteval a2) in *.
    assert (E237 : b0 = 237 -> b1 <= 159)
      by (intros ->; rewrite Z.eqb_refl in *; simpl in *; lia).
    assert (128 <= b1 <= 191) by (destruct (b0 =? 224), (b0 =? 237); lia).
    unfold validRune, MaxRune. lia. }
  destruct (inrange 240 244 (byteval a0)) eqn:E3.
  { destruct t0 as [|a1 [|a2 [|a3 t3]]]; [exact VE|exact VE|exact VE|].
    pose proof (byteval_range a1) as R1. pose proof (byteval_range a2) as R2.
    pose proof (byteval_range a3) as R3.
    match goal with |- context [if ?c then _ else _] => destruct c eqn:C end; [|exact VE].
    byte_cases. cbn [fst].
    set (b0 := byteval a0) in *. set (b1 := byteval a1) in *. set (b2 := byteval a2) in *.
    set (b3 := byteval a3) in *.
    assert (E240 : b0 = 240 -> 144 <= b1) by (intros ->; rewrite Z.eqb_refl in *; lia).
    assert (E244 : b0 = 244 -> b1 <= 143)
      by (intros ->; rewrite Z.eqb_refl in *; simpl in *; lia).
    assert (128 <= b1 <= 191) by (destruct (b0 =? 240), (b0 =? 244); lia).
    unfold validRune, MaxRune. lia. }
  exact VE.
Qed.

Lemma runes_validRune s : Forall validRune (runes s).
Proof.
  remember (String.length s) as n eqn:Hn. revert s Hn.
  induction n as [n IH] using lt_wf_ind. intros s Hn.
  destruct s as [|a t]; [constructor|].
  rewrite runes_unfold. constructor; [apply decode_validRune|].
  pose proof (decode_width a t) as W.
  pose proof (skip_lt (snd (DecodeRuneInString (String a t))) a t ltac:(lia)) as L.
  eapply IH; [|reflexivity]. lia.
Qed.

(** The size [splitTextChunks] gives to [buf] is the number of bytes
    [EncodeRune] writes into it. *)
Lemma RuneLen_EncodeRune r : validRune r -> RuneLen r = len (EncodeRune r).
Proof.
  intros [[Hlo Hhi] Hs]. unfold MaxRune in Hhi.
  unfold RuneLen, EncodeRune, encode3, surrogate, inrange, MaxRune, len.
  replace ((55296 <=? r) && (r <=? 57343)) with false
    by (symmetry; apply andb_false_iff; rewrite !Z.leb_gt; lia).
  replace (r <? 0) with false by (symmetry; apply Z.ltb_ge; lia).
  replace (1114111 <? r) with false by (symmetry; apply Z.ltb_ge; lia).
  replace (r <=? 1114111) with true by (symmetry; apply Z.leb_le; lia).
  cbn [orb].
  destruct (r <=? 127); [reflexivity|].
  destruct (r <=? 2047); [reflexivity|].
  destruct (r <=? 65535); reflexivity.
Qed.

(** ** The chunk splitter *)

(** C10, as stated, fails on a text that is not valid UTF-8: the loop
    ranges over runes, and the byte 0xFF comes back as the three bytes of
    U+FFFD. *)
Lemma C10_counterexample :
  let text := String "255"%char EmptyString in
  ~ (strings_Join (splitTextChunks text 100) "" = text
     /\ Forall (fun c => c <> "") (splitTextChunks text 100)
     /\ (splitTextChunks text 100 = [] <-> text = "")).
Proof. intros text [E _]. vm_compute in E. discriminate E. Qed.

(** C10 (amended): for every text that is valid UTF-8 and every positive
    byte budget, the chunks of [splitTextChunks], written one after the
    other without separator, are the text; for every text, valid or not,
    every chunk is non-empty and the list is empty exactly when the text
    is. *)
Theorem C10_split_lossless (text : string) (maxBytes : Z) :
  0 < maxBytes ->
  (ValidString text = true -> strings_Join (splitTextChunks text maxBytes) "" = text)
  /\ Forall (fun c => c <> "") (splitTextChunks text maxBytes)
  /\ (splitTextChunks text maxBytes = [] <-> text = "").
Proof.
  intros _. split; [|split].
  - intros V. now rewrite Join_nosep, splitTextChunks_recode, recode_valid.
  - apply splitTextChunks_nonempty.
  - apply splitTextChunks_nil_iff.
Qed.

Lemma C10_split_lossless_witness :
  (ValidString "héllo, 世界" = true ->
   strings_Join (splitTextChunks "héllo, 世界" 4) "" = "héllo, 世界")
  /\ Forall (fun c => c <> "") (splitTextChunks "héllo, 世界" 4)
  /\ (splitTextChunks "héllo, 世界" 4 = [] <-> "héllo, 世界" = "").
Proof. apply (C10_split_lossless "héllo, 世界" 4). lia. Defined.

(** ** The chunk size *)


(** ** The store *)

Lemma PageResult_roundtrip (p : PageResult.t) :
  PageResult.ofJSON (PageResult.toJSON p) = Some p.
Proof. destruct p. reflexivity. Qed.

Lemma ProviderInfo_roundtrip (p : ProviderInfo.t) :
  ProviderInfo.ofJSON (Some (ProviderInfo.toJSON p)) = Some p.
Proof. destruct p. reflexivity. Qed.

Lemma pages_roundtrip (pages : list PageResult.t) :
  mapM PageResult.ofJSON (map PageResult.toJSON pages) = Some pages.
Proof.
  induction pages as [|p pages IH]; [reflexivity|].
  cbn [map mapM]. rewrite PageResult_roundtrip. cbn. rewrite IH. reflexivity.
Qed.

Lemma Task_roundtrip (k : Task.t) : Task.ofJSON (Task.toJSON k) = Some k.
Proof.
  destruct k as [id fn op tp pages ctp ctu cpp cpu ca ua prov fo fb ftp ftu fpp fpu fip ftc fcc].
  unfold Task.toJSON, Task.ofJSON.
  cbn [Task.ID Task.FileName Task.OriginalPath Task.TotalPages Task.Pages
       Task.CombinedTxtPath Task.CombinedTxtURL Task.CombinedPDFPath Task.CombinedPDFURL
       Task.CreatedAt Task.UpdatedAt Task.Provider Task.FormattingOptimized
       Task.FormattedByAI Task.FormattedTxtPath Task.FormattedTxtURL
       Task.FormattedPDFPath Task.FormattedPDFURL Task.FormattingInProgress
       Task.FormattingTotalChunks Task.FormattingCompletedChunks].
  remember (map PageResult.toJSON pages) as pj eqn:Hpj.
  remember (ProviderInfo.toJSON prov) as pv eqn:Hpv.
  repeat match goal with
  | |- context [member ?k ?m] =>
      let v := eval vm_compute in (member k m) in change (member k m) with v
  end.
  subst pj pv. rewrite ProviderInfo_roundtrip.
  cbn [asString asInt asBool asTime Task.pagesOfJSON mbind option_bind].
  rewrite pages_roundtrip. reflexivity.
Qed.

Section Store.
Context `{lib : GoLib} (s : TaskService).

Lemma saveTaskLocked_ok (task : Task.t) (w : World) :
  writeError w = None ->
  saveTaskLocked s task w =
    ((Task.set_UpdatedAt (clock w) task, None),
     mkWorld (<[metaPath s (Task.ID task) := Task.toJSON (Task.set_UpdatedAt (clock w) task)]> (metas w))
       (files w) (clock w) (writeError w)).
Proof.
  intros Hw. unfold saveTaskLocked, bind, time_Now, writeMeta, ret. rewrite Hw.
  destruct task; reflexivity.
Qed.

Lemma saveTaskLocked_failed (task : Task.t) (w : World) (msg : string) :
  writeError w = Some msg ->
  saveTaskLocked s task w = ((Task.set_UpdatedAt (clock w) task, Some (ErrExternal msg)), w).
Proof.
  intros Hw. unfold saveTaskLocked, bind, time_Now, writeMeta, ret. rewrite Hw. reflexivity.
Qed.

Lemma loadTask_stored (taskID : string) (task : Task.t) (w : World) :
  metas w !! metaPath s taskID = Some (Task.toJSON task) ->
  loadTask s taskID w = (Ok task, w).
Proof.
  intros Hm. unfold loadTask, bind, readMeta, ret. rewrite Hm, Task_roundtrip. reflexivity.
Qed.

End Store.





(** ** The initial page selection *)

Lemma fold_mark_lookup (l : list Z) (m : gmap Z bool) (i : Z) :
  fold_left (fun m i => <[i := true]> m) l m !! i
  = if decide (i ∈ l) then Some true else m !! i.
Proof.
  revert m. induction l as [|x l IH]; intros m; cbn [fold_left].
  - destruct (decide (i ∈ [])) as [Hin|]; [inversion Hin|reflexivity].
  - rewrite IH. destruct (decide (i ∈ l)) as [Hin|Hnin].
    + rewrite decide_True by (right; exact Hin). reflexivity.
    + destruct (decide (i = x)) as [->|Hne].
      * rewrite decide_True by left. now rewrite lookup_insert_eq.
      * rewrite decide_False by (intros Hin; apply elem_of_cons in Hin as [|]; tauto).
        now rewrite lookup_insert_ne.
Qed.

Lemma markPages_lookup (lo hi : Z) (m : gmap Z bool) (i : Z) :
  markPages lo hi m !! i = if decide (lo <= i <= hi) then Some true else m !! i.
Proof.
  unfold markPages. rewrite fold_mark_lookup.
  destruct (decide (i ∈ seqZ lo (hi - lo + 1))) as [Hin|Hnin];
    rewrite elem_of_seqZ in *.
  - rewrite decide_True by lia. reflexivity.
  - rewrite decide_False by lia. reflexivity.
Qed.

Lemma selected_markPages (lo hi i : Z) :
  selected (markPages lo hi ∅) i = true <-> lo <= i <= hi.
Proof.
  unfold selected. rewrite markPages_lookup.
  destruct (decide (lo <= i <= hi)); cbn; [tauto|].
  rewrite lookup_empty. cbn. split; [discriminate|tauto].
Qed.

Lemma markPages_size_pos (lo hi : Z) : lo <= hi -> size (markPages lo hi ∅) <> 0%nat.
Proof.
  intros Hle Hsz. apply map_size_empty_iff in Hsz.
  pose proof (markPages_lookup lo hi ∅ lo) as L. rewrite Hsz, lookup_empty in L.
  rewrite decide_True in L by lia. discriminate.
Qed.

Lemma markPages_size_zero (lo hi : Z) : hi < lo -> size (markPages lo hi ∅) = 0%nat.
Proof.
  intros Hlt. apply map_size_empty_iff. apply map_eq. intros i.
  rewrite markPages_lookup, decide_False by lia. reflexivity.
Qed.

Ltac zbool :=
  repeat match goal with
  | H : (_ <? _) = true |- _ => apply Z.ltb_lt in H
  | H : (_ <? _) = false |- _ => apply Z.ltb_ge in H
  | H : (_ <=? _) = true |- _ => apply Z.leb_le in H
  | H : (_ <=? _) = false |- _ => apply Z.leb_gt in H
  | H : (_ =? _) = true |- _ => apply Z.eqb_eq in H
  | H : (_ =? _) = false |- _ => apply Z.eqb_neq in H
  end.

Lemma determineInitialPageSet_range `{lib : GoLib} (total : Z) (settings : TranslationSettings) (i : Z) :
  1 <= total ->
  selected (determineInitialPageSet total settings) i = true
  <-> (initialRange total settings).1 <= i <= (initialRange total settings).2.
Proof.
  intros HT. unfold determineInitialPageSet, initialRange.
  set (mode := strings_ToLower (strings_TrimSpace (RangeMode settings))).
  destruct (String.eqb mode "custom") eqn:Ec; cbn [andb].
  { destruct (RangeCustom settings <=? 0) eqn:El; zbool.
    - replace (0 <? RangeCustom settings) with false by (symmetry; apply Z.ltb_ge; lia).
      assert (mode <> "range") by (apply String.eqb_eq in Ec; rewrite Ec; discriminate).
      replace (String.eqb mode "range") with false by (symmetry; now apply String.eqb_neq).
      cbn [andb fst snd]. rewrite bool_decide_eq_true_2 by apply map_size_empty.
      apply selected_markPages.
    - replace (0 <? RangeCustom settings) with true by (symmetry; apply Z.ltb_lt; lia).
      cbn [fst snd].
      destruct (total <? RangeCustom settings) eqn:Et; zbool;
        rewrite bool_decide_eq_false_2 by (apply markPages_size_pos; lia);
        rewrite selected_markPages; lia. }
  destruct (String.eqb mode "range") eqn:Er; cbn [andb].
  { destruct (RangeStart settings <=? 0) eqn:Es, (RangeEnd settings <=? 0) eqn:Ee; zbool; cbn [andb].
    - replace (0 <? RangeStart settings) with false by (symmetry; apply Z.ltb_ge; lia).
      replace (0 <? RangeEnd settings) with false by (symmetry; apply Z.ltb_ge; lia).
      cbn [orb fst snd]. rewrite bool_decide_eq_true_2 by apply map_size_empty.
      apply selected_markPages.
    - replace (0 <? RangeEnd settings) with true by (symmetry; apply Z.ltb_lt; lia).
      rewrite orb_true_r. cbn [fst snd].
      repeat match goal with
      | |- context [?a <? ?b] =>
          lazymatch a with context [Z.ltb] => fail | _ => idtac end;
          lazymatch b with context [Z.ltb] => fail | _ => idtac end;
          destruct (Z.ltb_spec a b)
      end;
      rewrite bool_decide_eq_false_2 by (apply markPages_size_pos; lia);
      rewrite selected_markPages; lia.
    - replace (0 <? RangeStart settings) with true by (symmetry; apply Z.ltb_lt; lia).
      cbn [orb fst snd].
      repeat match goal with
      | |- context [?a <? ?b] =>
          lazymatch a with context [Z.ltb] => fail | _ => idtac end;
          lazymatch b with context [Z.ltb] => fail | _ => idtac end;
          destruct (Z.ltb_spec a b)
      end;
      rewrite bool_decide_eq_false_2 by (apply markPages_size_pos; lia);
      rewrite selected_markPages; lia.
    - replace (0 <? RangeStart settings) with true by (symmetry; apply Z.ltb_lt; lia).
      cbn [orb fst snd].
      repeat match goal with
      | |- context [?a <? ?b] =>
          lazymatch a with context [Z.ltb] => fail | _ => idtac end;
          lazymatch b with context [Z.ltb] => fail | _ => idtac end;
          destruct (Z.ltb_spec a b)
      end;
      rewrite bool_decide_eq_false_2 by (apply markPages_size_pos; lia);
      rewrite selected_markPages; lia. }
  cbn [fst snd]. rewrite bool_decide_eq_true_2 by apply map_size_empty.
  apply selected_markPages.
Qed.

Section Create.
Context `{lib : GoLib} (s : TaskService).

Lemma RenderPages_nonempty images paths : RenderPages images = Ok paths -> paths <> [].
Proof.
  unfold RenderPages. destruct images as [[|p l]|e]; intros [= <-]; discriminate.
Qed.

Lemma length_newPages taskID pagesDir pageID now imagePaths :
  length (newPages s taskID pagesDir pageID now imagePaths) = length imagePaths.
Proof. unfold newPages. apply length_imap. Qed.

Lemma length_applySelection sel now pages :
  length (applySelection sel now pages) = length pages.
Proof. unfold applySelection. apply length_map. Qed.

(** What a successful [CreateTask] leaves. *)
Lemma CreateTask_ok (up : Upload) (w w' : World) (task : Task.t) (pool : option Pool) :
  CreateTask s up w = (Ok (task, pool), w') ->
  exists imagePaths pagesDir,
    imagePaths <> []
    /\ writeError w = None
    /\ Task.ID task = upload_taskID up
    /\ Task.TotalPages task = Z.of_nat (length imagePaths)
    /\ Task.Pages task =
         applySelection
           (determineInitialPageSet (Z.of_nat (length imagePaths)) (upload_settings up))
           (clock w)
           (newPages s (upload_taskID up) pagesDir (upload_pageIDs up) (clock w) imagePaths)
    /\ Task.FormattedByAI task = false
    /\ Task.FormattingInProgress task = false
    /\ Task.FormattingTotalChunks task = 0
    /\ Task.FormattingCompletedChunks task = 0
    /\ pool = translateTaskPages s task
                (selectedPages
                   (determineInitialPageSet (Z.of_nat (length imagePaths)) (upload_settings up))
                   (Task.Pages task))
                (BatchLimit (upload_settings up))
    /\ metas w' = <[metaPath s (Task.ID task) := Task.toJSON task]> (metas w)
    /\ clock w' = clock w /\ writeError w' = writeError w.
Proof.
  unfold CreateTask.
  destruct (upload_reader up) as [content|]; [|intros [=]].
  destruct (mergeProviderConfig s (upload_provider up) None) as [cfg|]; [|intros [=]].
  destruct (writeError w) as [msg|] eqn:Hw;
    repeat (unfold bind, ret, mkdirAll, writeFile, time_Now, saveTask, saveTaskLocked, writeMeta;
            cbv beta iota zeta; cbn [metas files clock writeError fst snd]; rewrite ?Hw);
    [intros [=]|].
  destruct (RenderPages (upload_images up)) as [imagePaths|] eqn:Hr; [|intros [=]].
  repeat (unfold bind, ret, mkdirAll, writeFile, time_Now, saveTask, saveTaskLocked, writeMeta;
          cbv beta iota zeta; cbn [metas files clock writeError fst snd]; rewrite ?Hw).
  intros [= <- <- <-].
  exists imagePaths, (filepath_Join [taskDir s (upload_taskID up); "pages"]).
  cbn [Task.ID Task.TotalPages Task.Pages Task.set_Pages Task.set_UpdatedAt
       Task.FormattedByAI Task.FormattingInProgress Task.FormattingTotalChunks
       Task.FormattingCompletedChunks metas clock writeError].
  rewrite length_newPages.
  repeat split; try reflexivity. eapply RenderPages_nonempty; eauto.
Qed.

End Create.

Lemma selectedPages_elem (sel : gmap Z bool) (pages : list PageResult.t) (idx : nat) :
  idx ∈ selectedPages sel pages
  <-> exists p, pages !! idx = Some p /\ selected sel (PageResult.PageNumber p) = true.
Proof.
  unfold selectedPages. rewrite list_elem_of_omap. split.
  - intros [[i p] [Hin Hsel]]. apply elem_of_lookup_imap in Hin as (j & q & [= -> ->] & Hq).
    cbn in Hsel. destruct (selected sel (PageResult.PageNumber q)) eqn:E; [|discriminate].
    injection Hsel as <-. eauto.
  - intros (p & Hp & Hsel). exists (idx, p). split.
    + apply elem_of_lookup_imap. eauto.
    + cbn. now rewrite Hsel.
Qed.

(** C6: a task created with [T] pages has its initial selection as the
    specification words it ([initialRange]: a custom limit selects pages 1
    to min(limit, T); a start/end range is clamped to the page count and
    swapped if inverted; anything else selects all pages); in the task as
    persisted, a selected page is pending and every other page is completed
    with empty text and empty error; the worker pool is handed exactly the
    selected pages. *)
Theorem C6_initial_selection `{lib : GoLib} (s : TaskService) (up : Upload)
    (w w' : World) (task : Task.t) (pool : option Pool) :
  CreateTask s up w = (Ok (task, pool), w') ->
  let T := Task.TotalPages task in
  let range := initialRange T (upload_settings up) in
  1 <= T
  /\ Z.of_nat (length (Task.Pages task)) = T
  /\ metas w' !! metaPath s (Task.ID task) = Some (Task.toJSON task)
  /\ (forall idx p, Task.Pages task !! idx = Some p ->
        PageResult.PageNumber p = Z.of_nat idx + 1
        /\ if decide (range.1 <= PageResult.PageNumber p <= range.2)
           then PageResult.Status p = PageStatusPending
           else PageResult.Status p = PageStatusCompleted
                /\ PageResult.HasText p = false
                /\ PageResult.SourceText p = ""
                /\ PageResult.Translation p = ""
                /\ PageResult.Error p = "")
  /\ (forall pl idx, pool = Some pl ->
        idx ∈ pool_jobs pl
        <-> (idx < length (Task.Pages task))%nat
            /\ range.1 <= Z.of_nat idx + 1 <= range.2).
Proof.
  intros Hc T range.
  destruct (CreateTask_ok s up w w' task pool Hc)
    as (imagePaths & pagesDir & Hne & Hw & Hid & HT & Hpages & _ & _ & _ & _ & Hpool & Hm & _).
  assert (HT1 : 1 <= T).
  { unfold T. rewrite HT. destruct imagePaths; [congruence|]. cbn [length]. lia. }
  assert (Hlen : Z.of_nat (length (Task.Pages task)) = T).
  { unfold T. rewrite HT, Hpages, length_applySelection, length_newPages. reflexivity. }
  assert (Hpage : forall idx p, Task.Pages task !! idx = Some p ->
            PageResult.PageNumber p = Z.of_nat idx + 1
            /\ if selected (determineInitialPageSet T (upload_settings up))
                    (PageResult.PageNumber p)
               then PageResult.Status p = PageStatusPending
               else PageResult.Status p = PageStatusCompleted
                    /\ PageResult.HasText p = false
                    /\ PageResult.SourceText p = ""
                    /\ PageResult.Translation p = ""
                    /\ PageResult.Error p = "").
  { intros idx p. rewrite Hpages. unfold applySelection, newPages.
    rewrite list_lookup_fmap, list_lookup_imap.
    destruct (imagePaths !! idx) as [img|]; [|discriminate]. cbn [fmap option_fmap option_map].
    unfold T. rewrite HT.
    match goal with |- context [selected ?m ?n] => destruct (selected m n) eqn:E end;
      intros [= <-]; cbn [PageResult.PageNumber] in E; cbn; rewrite ?E; repeat split; auto. }
  split; [exact HT1|]. split; [exact Hlen|].
  split; [rewrite Hm; apply lookup_insert_eq|].
  split.
  - intros idx p Hp. destruct (Hpage idx p Hp) as [Hn Hs]. split; [exact Hn|].
    pose proof (determineInitialPageSet_range T (upload_settings up)
                  (PageResult.PageNumber p) HT1) as R. fold range in R.
    destruct (decide _) as [Hin|Hout].
    + apply R in Hin. now rewrite Hin in Hs.
    + destruct (selected _ _); [exfalso; apply Hout, R; reflexivity|exact Hs].
  - intros pl idx Hpl. subst pool. unfold translateTaskPages in Hpl. revert Hpl.
    repeat match goal with |- context [if ?c then _ else _] => destruct c end; try discriminate.
    intros [= <-]. cbn [pool_jobs]. rewrite selectedPages_elem.
    rewrite <- HT. fold T. split.
    + intros (p & Hp & Hs). split; [eapply lookup_lt_Some; eauto|].
      destruct (Hpage idx p Hp) as [Hn _].
      apply (determineInitialPageSet_range T (upload_settings up) _ HT1) in Hs.
      fold range in Hs. lia.
    + intros [Hlt Hr]. destruct (lookup_lt_is_Some_2 _ _ Hlt) as [p Hp].
      exists p. split; [exact Hp|]. destruct (Hpage idx p Hp) as [Hn _].
      apply (determineInitialPageSet_range T (upload_settings up) _ HT1). fold range. lia.
Qed.

Lemma C6_initial_selection_witness :
  exists task pool w',
    CreateTask demo_service demo_upload demo_world = (Ok (task, pool), w')
    /\ Task.TotalPages task = 5
    /\ initialRange 5 (upload_settings demo_upload) = (1, 3)
    /\ forall idx p, Task.Pages task !! idx = Some p ->
         PageResult.PageNumber p = Z.of_nat idx + 1
         /\ if decide (1 <= PageResult.PageNumber p <= 3)
            then PageResult.Status p = PageStatusPending
            else PageResult.Status p = PageStatusCompleted
                 /\ PageResult.HasText p = false
                 /\ PageResult.SourceText p = ""
                 /\ PageResult.Translation p = ""
                 /\ PageResult.Error p = "".
Proof.
  destruct (CreateTask demo_service demo_upload demo_world) as [[[task pool]|e] w'] eqn:E;
    [|vm_compute in E; discriminate E].
  exists task, pool, w'. split; [reflexivity|].
  assert (HT : Task.TotalPages task = 5)
    by (vm_compute in E; injection E as <- _ _; reflexivity).
  split; [exact HT|]. split; [vm_compute; reflexivity|].
  pose proof (C6_initial_selection demo_service demo_upload demo_world w' task pool E)
    as (_ & _ & _ & Hp & _).
  rewrite HT in Hp. exact Hp.
Defined.

(** ** Pages: status and error *)

Section Pages.
Context `{lib : GoLib} (s : TaskService).








Lemma loadTask_world taskID w : (loadTask s taskID w).2 = w.
Proof.
  unfold loadTask, bind, readMeta, ret.
  destruct (metas w !! metaPath s taskID) as [doc|]; [|reflexivity].
  destruct (Task.ofJSON doc); reflexivity.
Qed.





End Pages.

Section System.
Context `{lib : GoLib} (s : TaskService).











End System.



(** ** A failed translation *)

Section Failure.
Context `{lib : GoLib} (s : TaskService).

Lemma withPage_lookup task page p :
  is_Some (Task.Pages task !! page) -> Task.Pages (withPage task page p) !! page = Some p.
Proof.
  intros Hp. unfold withPage. destruct task; cbn in *.
  apply list_lookup_insert_eq. now apply lookup_lt_is_Some.
Qed.

Lemma withPage_lookup_ne task page p other :
  other <> page -> Task.Pages (withPage task page p) !! other = Task.Pages task !! other.
Proof.
  intros Hne. unfold withPage. destruct task; cbn. now apply list_lookup_insert_ne.
Qed.

Lemma withPage_ID task page p : Task.ID (withPage task page p) = Task.ID task.
Proof. destruct task; reflexivity. Qed.

Lemma stamp_Pages now task : Task.Pages (Task.set_UpdatedAt now task) = Task.Pages task.
Proof. destruct task; reflexivity. Qed.

Lemma stamp_ID now task : Task.ID (Task.set_UpdatedAt now task) = Task.ID task.
Proof. destruct task; reflexivity. Qed.

(** What [saveTask] returns and leaves, by whether the disk takes the write. *)
Lemma saveTask_result task w :
  (saveTask s task w).1.1 = Task.set_UpdatedAt (clock w) task
  /\ files (saveTask s task w).2 = files w
  /\ (writeError w = None ->
      (saveTask s task w).1.2 = None
      /\ metas (saveTask s task w).2
         = <[metaPath s (Task.ID task) := Task.toJSON (Task.set_UpdatedAt (clock w) task)]> (metas w)).
Proof.
  unfold saveTask. destruct (writeError w) as [msg|] eqn:Hw.
  - rewrite (saveTaskLocked_failed s task w msg Hw). cbn. repeat split; discriminate.
  - rewrite (saveTaskLocked_ok s task w Hw). cbn. repeat split.
Qed.

(** C7: when the provider's call fails, [translateSinglePage] sets the
    page's status to error and records the error text; [hasText], the
    source text and the translation stay as they were, no other page and no
    text artifact changes, and that is the task meta.json then holds. *)
Theorem C7_failure_keeps_text (task : Task.t) (page : nat) (p : PageResult.t)
    (msg : string) (mergeOnSave : bool) (w : World) :
  Task.Pages task !! page = Some p ->
  let done := translateSinglePage s task page (inl msg) mergeOnSave w in
  let task' := done.1.1 in
  (exists p', Task.Pages task' !! page = Some p'
     /\ PageResult.Status p' = PageStatusError
     /\ PageResult.Error p' = msg
     /\ PageResult.HasText p' = PageResult.HasText p
     /\ PageResult.SourceText p' = PageResult.SourceText p
     /\ PageResult.Translation p' = PageResult.Translation p
     /\ PageResult.TextURL p' = PageResult.TextURL p
     /\ PageResult.ID p' = PageResult.ID p
     /\ PageResult.PageNumber p' = PageResult.PageNumber p)
  /\ (forall other, other <> page -> Task.Pages task' !! other = Task.Pages task !! other)
  /\ files done.2 = files w
  /\ (writeError w = None ->
      done.1.2 = None
      /\ metas done.2 !! metaPath s (Task.ID task) = Some (Task.toJSON task')).
Proof.
  intros Hp done task'. subst task' done. unfold translateSinglePage. rewrite Hp.
  unfold bind, time_Now. cbv beta zeta.
  set (p' := PageResult.set_UpdatedAt (clock w)
               (PageResult.set_Error msg (PageResult.set_Status PageStatusError p))).
  destruct (saveTask_result (withPage task page p') w) as (Ht & Hf & Hsave).
  rewrite Ht. split; [|split; [|split; [exact Hf|]]].
  - exists p'. rewrite stamp_Pages, withPage_lookup by (rewrite Hp; eauto).
    destruct p; cbn. repeat split.
  - intros other Hne. now rewrite stamp_Pages, withPage_lookup_ne.
  - intros Hw. destruct (Hsave Hw) as [He Hm]. split; [exact He|].
    rewrite Hm, withPage_ID, lookup_insert_eq. reflexivity.
Qed.


(** ** How a page result is persisted *)

Lemma persistPageUpdate_whole task page w :
  persistPageUpdate s task page false w = saveTask s task w.
Proof. reflexivity. Qed.

(** Without merge, [translateSinglePage] ends in a save of the task it was
    given; when the disk takes the writes, meta.json then holds the task it
    returns. *)
Lemma translateSinglePage_whole task page p translated w :
  Task.Pages task !! page = Some p ->
  writeError w = None ->
  let done := translateSinglePage s task page translated false w in
  done.1.2 = None
  /\ metas done.2 !! metaPath s (Task.ID task) = Some (Task.toJSON done.1.1)
  /\ (forall path, path <> metaPath s (Task.ID task) -> metas done.2 !! path = metas w !! path)
  /\ Task.ID done.1.1 = Task.ID task
  /\ length (Task.Pages done.1.1) = length (Task.Pages task)
  /\ (forall other, other <> page ->
        Task.Pages done.1.1 !! other = Task.Pages task !! other).
Proof.
  intros Hp Hw done. subst done. unfold translateSinglePage. rewrite Hp.
  assert (Hgen : forall p' w1, writeError w1 = None -> metas w1 = metas w ->
            let r := saveTask s (withPage task page p') w1 in
            r.1.2 = None
            /\ metas r.2 !! metaPath s (Task.ID task) = Some (Task.toJSON r.1.1)
            /\ (forall path, path <> metaPath s (Task.ID task) -> metas r.2 !! path = metas w !! path)
            /\ Task.ID r.1.1 = Task.ID task
            /\ length (Task.Pages r.1.1) = length (Task.Pages task)
            /\ (forall other, other <> page -> Task.Pages r.1.1 !! other = Task.Pages task !! other)).
  { intros p' w1 Hw1 Hm1 r. unfold r.
    destruct (saveTask_result (withPage task page p') w1) as (Ht & _ & Hsave).
    destruct (Hsave Hw1) as [He Hm]. rewrite Ht, He, Hm, withPage_ID, Hm1.
    rewrite lookup_insert_eq, stamp_ID, withPage_ID, stamp_Pages.
    repeat split.
    - intros path Hne. now rewrite lookup_insert_ne.
    - unfold withPage. destruct task; cbn. apply length_insert.
    - intros other Hne. now apply withPage_lookup_ne. }
  destruct translated as [msg|result].
  - unfold bind, time_Now. cbv beta zeta. now apply Hgen.
  - cbv beta zeta. match goal with |- context [if ?c then _ else _] => destruct c end.
    + unfold bind, writeFile, time_Now. rewrite Hw. cbv beta iota zeta.
      rewrite persistPageUpdate_whole. now apply Hgen.
    + unfold bind, removeFile, time_Now. cbv beta iota zeta.
      rewrite persistPageUpdate_whole. now apply Hgen.
Qed.

(** C1 (amended): a worker of the pool persists its page by saving the
    pool's own in-memory task whole, without reload or merge: meta.json
    then holds exactly that task, in which only this page changed since the
    worker took it; no other document changes. The merge by id (reload,
    replace the page with that id or append, save) is what
    [persistPageUpdate] does when asked to merge, which only
    [RetranslatePage] asks. *)
Theorem C1_pool_saves_whole_task :
  (forall (pool pool' : Pool) (k page : nat) (translated : Translated) (w w' : World),
      poolPage s k translated pool w = (Some pool', w') ->
      pool_jobs pool !! k = Some page ->
      is_Some (Task.Pages (pool_task pool) !! page) ->
      writeError w = None ->
      metas w' !! metaPath s (Task.ID (pool_task pool)) = Some (Task.toJSON (pool_task pool'))
      /\ (forall path, path <> metaPath s (Task.ID (pool_task pool)) ->
            metas w' !! path = metas w !! path)
      /\ length (Task.Pages (pool_task pool')) = length (Task.Pages (pool_task pool))
      /\ (forall other, other <> page ->
            Task.Pages (pool_task pool') !! other = Task.Pages (pool_task pool) !! other))
  /\ (forall (task current : Task.t) (page : nat) (p : PageResult.t) (w : World),
        Task.Pages task !! page = Some p ->
        metas w !! metaPath s (Task.ID task) = Some (Task.toJSON current) ->
        writeError w = None ->
        metas (persistPageUpdate s task page true w).2 !! metaPath s (Task.ID current)
        = Some (Task.toJSON (Task.set_UpdatedAt (clock w) (mergeByID current p)))).
Proof.
  split.
  - intros pool pool' k page translated w w' Hstep Hjob [p Hp] Hw.
    unfold poolPage in Hstep. destruct (negb _); [discriminate|]. rewrite Hjob in Hstep.
    unfold bind, ret in Hstep.
    destruct (translateSinglePage_whole (pool_task pool) page p translated w Hp Hw)
      as (_ & Hm & Hother & _ & Hlen & Hpages).
    destruct (translateSinglePage s (pool_task pool) page translated false w) as [[t' e'] w1].
    cbn [fst snd] in *. injection Hstep as <- <-. cbn [pool_task]. auto.
  - intros task current page p w Hp Hm Hw.
    unfold persistPageUpdate. cbn [negb]. unfold bind.
    rewrite (loadTask_stored s _ _ _ Hm), Hp.
    assert (Hmerge : forall pages, Task.ID (Task.set_Pages pages current) = Task.ID current)
      by (intros; destruct current; reflexivity).
    unfold mergeByID.
    destruct (indexByID (PageResult.ID p) (Task.Pages current)) as [idx|];
      match goal with |- context [saveTask s ?t w] =>
        destruct (saveTask_result t w) as (_ & _ & Hsave);
        destruct (Hsave Hw) as [_ Hms];
        destruct (saveTask s t w) as [[t' e'] w']
      end; cbn [fst snd ret] in *; rewrite Hms, Hmerge, lookup_insert_eq; reflexivity.
Qed.


End Failure.

(** A failed second attempt on page 1 of [demo_task] keeps the text of the
    first. *)
Lemma C7_failure_keeps_text_witness :
  exists p,
    Task.Pages demo_task !! 0%nat = Some p
    /\ PageResult.Translation p = "Bonjour"
    /\ let done :=
         translateSinglePage demo_service demo_task 0 (inl "translator: request failed") true
           demo_machine in
       exists p',
         Task.Pages done.1.1 !! 0%nat = Some p'
         /\ PageResult.Status p' = PageStatusError
         /\ PageResult.Error p' = "translator: request failed"
         /\ PageResult.HasText p' = true
         /\ PageResult.SourceText p' = "Hello"
         /\ PageResult.Translation p' = "Bonjour".
Proof.
  destruct (Task.Pages demo_task !! 0%nat) as [p|] eqn:Ep; [|vm_compute in Ep; discriminate Ep].
  exists p. split; [reflexivity|].
  destruct (C7_failure_keeps_text demo_service demo_task 0 p "translator: request failed"
              true demo_machine Ep) as ((p' & Hp' & Hst & Her & Hh & Hs & Ht & _) & _).
  vm_compute in Ep. injection Ep as <-.
  split; [reflexivity|]. exists p'. repeat split; assumption.
Defined.

(** C1 as stated fails.  The demo task is created, page 1 is translated on
    request while the pool is at work, and the pool then finishes page 2: a
    merge by id would have kept the stored page 1, the pool's save does
    not. *)
Lemma C1_counterexample :
  exists sys pool,
    sysRun demo_service demo_ops (boot 1000) = Some sys
    /\ sys_pools sys !! 0%nat = Some pool
    /\ ~ persistedByMerge demo_service pool 1 (inr demo_translation) (sys_world sys).
Proof.
  destruct (sysRun demo_service demo_ops (boot 1000)) as [sys|] eqn:E;
    [|vm_compute in E; discriminate E].
  destruct (sys_pools sys !! 0%nat) as [pool|] eqn:Ep;
    [|vm_compute in E; injection E as <-; vm_compute in Ep; discriminate Ep].
  exists sys, pool. split; [reflexivity|]. split; [exact Ep|].
  vm_compute in E. injection E as <-. vm_compute in Ep. injection Ep as <-.
  intros H.
  edestruct H as (stored & Hl & Hp).
  - vm_compute. reflexivity.
  - vm_compute. reflexivity.
  - reflexivity.
  - vm_compute. reflexivity.
  - vm_compute in Hl. injection Hl as <-. vm_compute in Hp. discriminate Hp.
Qed.

(** The pool over [demo_task] finishes page 2: meta.json holds the pool's
    task, all five pages of it. *)
Lemma C1_pool_saves_whole_task_witness :
  exists pool' w',
    poolPage demo_service 0 (inr demo_translation) demo_pool demo_machine = (Some pool', w')
    /\ metas w' !! metaPath demo_service "t1" = Some (Task.toJSON (pool_task pool'))
    /\ length (Task.Pages (pool_task pool')) = 5%nat.
Proof.
  destruct (poolPage demo_service 0 (inr demo_translation) demo_pool demo_machine)
    as [[pool'|] w'] eqn:E; [|vm_compute in E; discriminate E].
  exists pool', w'. split; [reflexivity|].
  destruct (C1_pool_saves_whole_task demo_service) as [H _].
  destruct (H demo_pool pool' 0%nat 1%nat (inr demo_translation) demo_machine w' E)
    as (H1 & _ & H2 & _);
    [reflexivity|vm_compute; eauto|reflexivity|].
  split; [exact H1|exact H2].
Defined.

(** ** The formatting pipeline *)

Lemma toJSON_inj (a b : Task.t) : Task.toJSON a = Task.toJSON b -> a = b.
Proof.
  intros E. apply (f_equal Task.ofJSON) in E. rewrite !Task_roundtrip in E. congruence.
Qed.

Lemma busyCount_nonneg workers : 0 <= busyCount workers.
Proof. induction workers as [|wk l IH]; cbn [busyCount]; [lia|]. destruct (busy wk); lia. Qed.

Lemma busyCount_insert workers idx wk wk' :
  workers !! idx = Some wk ->
  busyCount (<[idx := wk']> workers)
  = busyCount workers - (if busy wk then 1 else 0) + (if busy wk' then 1 else 0).
Proof.
  revert idx. induction workers as [|x l IH]; intros [|idx]; simpl; try discriminate.
  - intros [= ->]. destruct (busy wk), (busy wk'); lia.
  - intros H. rewrite (IH idx H). destruct (busy x), (busy wk), (busy wk'); lia.
Qed.

Lemma busyCount_replicate n r : busyCount (replicate n (Waiting r)) = Z.of_nat n.
Proof. induction n as [|n IH]; cbn [replicate busyCount busy]; lia. Qed.

Section Format.
Context `{lib : GoLib} (s : TaskService).

Lemma loadTask_missing taskID w :
  metas w !! metaPath s taskID = None -> loadTask s taskID w = (Err ErrReadTask, w).
Proof. intros H. unfold loadTask, bind, readMeta, ret. now rewrite H. Qed.

Lemma updateFormattingState_result taskID mutate w :
  let r := updateFormattingState s taskID mutate w in
  files r.2 = files w /\ clock r.2 = clock w /\ writeError r.2 = writeError w
  /\ match metas w !! metaPath s taskID with
     | Some doc =>
         match Task.ofJSON doc with
         | Some task =>
             match writeError w with
             | None =>
                 r.1 = None
                 /\ metas r.2 = <[metaPath s (Task.ID (mutate task)) :=
                                   Task.toJSON (Task.set_UpdatedAt (clock w) (mutate task))]> (metas w)
             | Some msg => r.1 = Some (ErrExternal msg) /\ metas r.2 = metas w
             end
         | None => r.1 = Some ErrParseTask /\ metas r.2 = metas w
         end
     | None => r.1 = Some ErrReadTask /\ metas r.2 = metas w
     end.
Proof.
  intros r. subst r. unfold updateFormattingState, bind.
  assert (Hl : loadTask s taskID w =
               match metas w !! metaPath s taskID with
               | Some doc => match Task.ofJSON doc with
                             | Some task => (Ok task, w)
                             | None => (Err ErrParseTask, w)
                             end
               | None => (Err ErrReadTask, w)
               end).
  { unfold loadTask, bind, readMeta, ret.
    destruct (metas w !! metaPath s taskID) as [doc|]; [|reflexivity].
    destruct (Task.ofJSON doc); reflexivity. }
  rewrite Hl. clear Hl.
  destruct (metas w !! metaPath s taskID) as [doc|]; [|cbn; auto].
  destruct (Task.ofJSON doc) as [task|]; [|cbn; auto].
  destruct (writeError w) as [msg|] eqn:Hw.
  - rewrite (saveTaskLocked_failed s _ w msg Hw). cbn. auto.
  - rewrite (saveTaskLocked_ok s _ w Hw). cbn. auto.
Qed.

(** The three mutators change the formatting fields only. *)
Lemma markStarted_fields n t :
  Task.ID (markStarted n t) = Task.ID t
  /\ Task.FormattedByAI (markStarted n t) = Task.FormattedByAI t
  /\ Task.FormattingInProgress (markStarted n t) = true
  /\ Task.FormattingTotalChunks (markStarted n t) = n
  /\ Task.FormattingCompletedChunks (markStarted n t) = 0
  /\ Task.Pages (markStarted n t) = Task.Pages t.
Proof. destruct t; cbn. repeat split. Qed.

Lemma markProgress_fields n c t :
  Task.ID (markProgress n c t) = Task.ID t
  /\ Task.FormattedByAI (markProgress n c t) = Task.FormattedByAI t
  /\ Task.FormattingInProgress (markProgress n c t) = true
  /\ Task.FormattingTotalChunks (markProgress n c t)
     = (if Task.FormattingTotalChunks t =? 0 then n else Task.FormattingTotalChunks t)
  /\ Task.FormattingCompletedChunks (markProgress n c t) = c
  /\ Task.Pages (markProgress n c t) = Task.Pages t.
Proof.
  unfold markProgress. destruct t; cbn.
  destruct (FormattingTotalChunks =? 0); cbn; repeat split.
Qed.

Lemma markStopped_fields n c t :
  Task.ID (markStopped n c t) = Task.ID t
  /\ Task.FormattedByAI (markStopped n c t) = Task.FormattedByAI t
  /\ Task.FormattingInProgress (markStopped n c t) = false
  /\ Task.FormattingTotalChunks (markStopped n c t)
     = (if Task.FormattingTotalChunks t =? 0 then n else Task.FormattingTotalChunks t)
  /\ Task.FormattingCompletedChunks (markStopped n c t) = c
  /\ Task.Pages (markStopped n c t) = Task.Pages t.
Proof.
  unfold markStopped. destruct t; cbn.
  destruct (FormattingTotalChunks =? 0); cbn; repeat split.
Qed.

Lemma stamp_fields now t :
  Task.ID (Task.set_UpdatedAt now t) = Task.ID t
  /\ Task.FormattedByAI (Task.set_UpdatedAt now t) = Task.FormattedByAI t
  /\ Task.FormattingInProgress (Task.set_UpdatedAt now t) = Task.FormattingInProgress t
  /\ Task.FormattingTotalChunks (Task.set_UpdatedAt now t) = Task.FormattingTotalChunks t
  /\ Task.FormattingCompletedChunks (Task.set_UpdatedAt now t) = Task.FormattingCompletedChunks t.
Proof. destruct t; cbn. repeat split. Qed.

Lemma fstore_ok_world formatted w f c e :
  fstore_ok s formatted w -> fstore_ok s formatted (mkWorld (metas w) f c e).
Proof. intros H path doc. cbn [metas]. apply H. Qed.

Lemma fstore_ok_same formatted w w' :
  metas w' = metas w -> fstore_ok s formatted w -> fstore_ok s formatted w'.
Proof. intros E H path doc. rewrite E. apply H. Qed.

Lemma fstore_ok_more formatted id w :
  fstore_ok s formatted w -> fstore_ok s (formatted ++ [id]) w.
Proof.
  intros H path doc Hd. destruct (H path doc Hd) as (task & -> & Hp & Hb & Hf).
  exists task. split; [reflexivity|]. split; [exact Hp|]. split; [exact Hb|].
  intros Hn. apply Hf. intros Hin. apply Hn. apply elem_of_app. now left.
Qed.

Lemma during_same run w w' : metas w' = metas w -> during s run w -> during s run w'.
Proof. intros E (task & H). exists task. now rewrite E. Qed.

(** A mutator that keeps the id and [formattedByAI], applied to the task
    of the run under way, and that leaves the run's chunk count with a
    completed count inside it. *)
Lemma update_during run mutate formatted w :
  fstore_ok s formatted w -> during s run w ->
  (forall task, Task.FormattingTotalChunks task = totalChunks run ->
     Task.ID (mutate task) = Task.ID task
     /\ Task.FormattedByAI (mutate task) = Task.FormattedByAI task
     /\ Task.FormattingTotalChunks (mutate task) = totalChunks run
     /\ 0 <= Task.FormattingCompletedChunks (mutate task) <= totalChunks run) ->
  let w' := (updateFormattingState s (run_taskID run) mutate w).2 in
  fstore_ok s formatted w' /\ during s run w'
  /\ (writeError w = None ->
      exists task,
        metas w !! metaPath s (run_taskID run) = Some (Task.toJSON task)
        /\ metas w' !! metaPath s (run_taskID run)
           = Some (Task.toJSON (Task.set_UpdatedAt (clock w) (mutate task)))).
Proof.
  intros Hst (task & Hm & Hid & Htot & Hc) Hmut w'. subst w'.
  destruct (updateFormattingState_result (run_taskID run) mutate w) as (_ & _ & _ & Hr).
  rewrite Hm, Task_roundtrip in Hr.
  destruct (Hmut task Htot) as (Hi & Hf & Ht & Hcc).
  destruct (writeError w) as [msg|] eqn:Hw.
  - destruct Hr as [_ Hr]. split; [now apply (fstore_ok_same _ w)|].
    split; [apply (during_same run w); [exact Hr|now exists task]|discriminate].
  - destruct Hr as [_ Hr]. rewrite Hi, Hid in Hr.
    destruct (stamp_fields (clock w) (mutate task)) as (Si & Sf & _ & St & Sc).
    split; [|split].
    + intros path doc. rewrite Hr, lookup_insert. destruct (decide _) as [<-|]; cbn; [|apply Hst].
      intros [= <-]. eexists. split; [reflexivity|]. rewrite Si, Sf, Hi, Hf, Hid.
      split; [reflexivity|]. split.
      * unfold fmt_bounds. rewrite St, Sc, Ht. auto.
      * destruct (Hst _ _ Hm) as (t0 & E0 & _ & _ & Hf0). apply toJSON_inj in E0. subst t0.
        now rewrite Hid in Hf0.
    + eexists. rewrite Hr, lookup_insert_eq. split; [reflexivity|].
      rewrite Si, St, Sc, Hi, Ht, Hid. auto.
    + intros _. exists task. split; [exact Hm|]. now rewrite Hr, lookup_insert_eq.
Qed.

(** **** The moves of the goroutines *)

Lemma seqZ_snoc r : 0 <= r -> seqZ 1 (r + 1) = (seqZ 1 r ++ [r + 1])%list.
Proof.
  intros Hr. rewrite seqZ_app by lia. f_equal.
  rewrite seqZ_cons by lia. replace (1 + r) with (r + 1) by lia. reflexivity.
Qed.

Lemma sleepsOf_backOff idx idx' r run :
  sleepsOf idx' (backOff idx r run)
  = (sleepsOf idx' run ++ (if decide (idx = idx') then [r + 1] else []))%list.
Proof.
  unfold sleepsOf, backOff. cbn [run_sleeps].
  rewrite filter_app, map_app. f_equal.
  rewrite filter_cons, filter_nil. cbn [fst].
  destruct (decide (idx = idx')); reflexivity.
Qed.

Lemma run_workers_insert_Saving (workers : list Worker) idx wk i c :
  (forall c', wk <> Saving c') ->
  <[idx := wk]> workers !! i = Some (Saving c) -> workers !! i = Some (Saving c).
Proof.
  intros Hns. destruct (decide (i = idx)) as [->|Hne].
  - destruct (decide (idx < length workers)%nat).
    + rewrite list_lookup_insert_eq by assumption. intros [= E]. destruct (Hns c E).
    + rewrite list_insert_ge by lia. auto.
  - rewrite list_lookup_insert_ne by congruence. auto.
Qed.

Ltac side :=
  first [ reflexivity
        | intros; reflexivity
        | intros; discriminate
        | intros; unfold setError; cbn; destruct (run_firstErr _); reflexivity ].

Lemma formatStep_counts ev run w run' w' :
  run_counts run -> formatStep s ev run w = (Some run', w') -> run_counts run'.
Proof.
  intros (Hn & Hlen & Hc0 & Hsum & Hsav) Hstep.
  pose proof (busyCount_nonneg (run_workers run)) as Hb0.
  assert (Hset : forall idx wk wk' r0,
            run_workers run !! idx = Some wk ->
            (busy wk' = true -> busy wk = true) ->
            (forall c, wk' <> Saving c) ->
            run_chunks r0 = run_chunks run ->
            run_completedChunks r0 = run_completedChunks run ->
            run_workers r0 = <[idx := wk']> (run_workers run) ->
            run_counts r0).
  { intros idx wk wk' r0 Hw Hb Hns Hch Hco Hwk. unfold run_counts, totalChunks.
    rewrite Hch, Hco, Hwk, length_insert, (busyCount_insert _ _ _ _ Hw).
    unfold totalChunks in *.
    refine (conj _ (conj _ (conj _ (conj _ _)))); try lia.
    - destruct (busy wk), (busy wk'); try lia; discriminate (Hb eq_refl).
    - intros i c Hi. apply (Hsav i c). eapply run_workers_insert_Saving; eauto. }
  destruct ev as [idx|idx formatted|idx|]; cbn [formatStep] in Hstep.
  - destruct (run_workers run !! idx) as [[r|r|c|]|] eqn:Hw; try discriminate Hstep.
    destruct (run_cancelled run).
    + injection Hstep as <- <-. apply (Hset idx (Waiting r) Returned); [exact Hw|side..].
    + destruct (run_activeSlots run <? run_currentLimit run); [|discriminate Hstep].
      injection Hstep as <- <-. apply (Hset idx (Waiting r) (Calling r)); [exact Hw|side..].
  - destruct (run_workers run !! idx) as [[r|r|c|]|] eqn:Hw; try discriminate Hstep.
    destruct (run_chunks run !! idx) as [chunk|]; [|discriminate Hstep].
    injection Hstep as <- <-. unfold handleFormatted.
    destruct formatted as [msg|result].
    + destruct (formatterIsRateLimit msg && (r <? 3)).
      * apply (Hset idx (Calling r) (Waiting (r + 1))); [exact Hw|side..].
      * apply (Hset idx (Calling r) Returned); [exact Hw|side..].
    + destruct ((0 <? _) && _).
      * apply (Hset idx (Calling r) Returned); [exact Hw|side..].
      * unfold run_counts, totalChunks, storeResult. cbn.
        rewrite length_insert, (busyCount_insert _ _ _ _ Hw). cbn [busy].
        unfold totalChunks in *.
        refine (conj _ (conj _ (conj _ (conj _ _)))); try lia.
        intros i c. destruct (decide (i = idx)) as [->|Hne].
        -- rewrite list_lookup_insert_eq by (eapply lookup_lt_Some; eauto).
           intros [= <-]. lia.
        -- rewrite list_lookup_insert_ne by congruence. intros Hi.
           destruct (Hsav i c Hi). lia.
  - destruct (run_workers run !! idx) as [[r|r|c|]|] eqn:Hw; try discriminate Hstep.
    unfold bind, ret in Hstep.
    destruct (updateFormattingState s _ _ w) as [e w1]. injection Hstep as <- <-.
    apply (Hset idx (Saving c) Returned); [exact Hw|side..].
  - injection Hstep as <- <-. exact (conj Hn (conj Hlen (conj Hc0 (conj Hsum Hsav)))).
Qed.

Lemma formatStep_retries ev run w run' w' :
  run_retries run -> length (run_workers run) = length (run_chunks run) ->
  formatStep s ev run w = (Some run', w') -> run_retries run'.
Proof.
  intros (Hlim & Hsl & Hret) Hlen Hstep.
  assert (Hsame : forall idx wk' r0,
            run_currentLimit r0 = run_currentLimit run ->
            run_sleeps r0 = run_sleeps run ->
            run_workers r0 = <[idx := wk']> (run_workers run) ->
            (forall r, wk' = Waiting r \/ wk' = Calling r ->
               run_workers run !! idx = Some (Waiting r) \/ run_workers run !! idx = Some (Calling r)) ->
            run_retries r0).
  { intros idx wk' r0 Hl Hs Hw Hwk. unfold run_retries, sleepsOf. rewrite Hl, Hs, Hw.
    refine (conj Hlim (conj Hsl _)). intros i r Hi. apply Hret.
    destruct (decide (i = idx)) as [->|Hne].
    - destruct (decide (idx < length (run_workers run))%nat).
      + rewrite list_lookup_insert_eq in Hi by assumption. apply Hwk.
        destruct Hi as [[= ->]|[= ->]]; auto.
      + rewrite list_insert_ge in Hi by lia. exact Hi.
    - rewrite list_lookup_insert_ne in Hi by congruence. exact Hi. }
  destruct ev as [idx|idx formatted|idx|]; cbn [formatStep] in Hstep.
  - destruct (run_workers run !! idx) as [[r|r|c|]|] eqn:Hw; try discriminate Hstep.
    destruct (run_cancelled run).
    + injection Hstep as <- <-. apply (Hsame idx Returned); try reflexivity.
      intros r0 [E|E]; discriminate E.
    + destruct (run_activeSlots run <? run_currentLimit run); [|discriminate Hstep].
      injection Hstep as <- <-. apply (Hsame idx (Calling r)); try reflexivity.
      intros r0 [E|E]; [discriminate E|]. injection E as <-. now left.
  - destruct (run_workers run !! idx) as [[r|r|c|]|] eqn:Hw; try discriminate Hstep.
    destruct (run_chunks run !! idx) as [chunk|]; [|discriminate Hstep].
    injection Hstep as <- <-. unfold handleFormatted.
    destruct formatted as [msg|result].
    + destruct (formatterIsRateLimit msg && (r <? 3)) eqn:Hrl.
      * apply andb_true_iff in Hrl as [_ Hr3]. apply Z.ltb_lt in Hr3.
        destruct (Hret idx r (or_intror Hw)) as [Hr Hso].
        unfold run_retries. cbn [backOff addSlots run_currentLimit run_sleeps run_workers].
        refine (conj _ (conj _ _)).
        -- destruct (1 <? run_currentLimit run); lia.
        -- intros _. destruct (Z.ltb_spec 1 (run_currentLimit run)); lia.
        -- intros i q Hi.
           change (sleepsOf i (backOff idx r (addSlots (-1) run)) ) with
             (sleepsOf i (backOff idx r (addSlots (-1) run))).
           rewrite sleepsOf_backOff.
           destruct (decide (idx = i)) as [<-|Hne].
           ++ rewrite list_lookup_insert_eq in Hi by (eapply lookup_lt_Some; eauto).
              destruct Hi as [[= <-]|[=]]. split; [lia|].
              change (sleepsOf idx (addSlots (-1) run)) with (sleepsOf idx run).
              rewrite Hso. symmetry. apply seqZ_snoc. lia.
           ++ rewrite list_lookup_insert_ne in Hi by congruence.
              rewrite app_nil_r. apply (Hret i q Hi).
      * apply (Hsame idx Returned); try (unfold setError; cbn; destruct (run_firstErr run); reflexivity).
        intros r0 [E|E]; discriminate E.
    + destruct ((0 <? _) && _).
      * apply (Hsame idx Returned); try (unfold setError; cbn; destruct (run_firstErr run); reflexivity).
        intros r0 [E|E]; discriminate E.
      * apply (Hsame idx (Saving (run_completedChunks run + 1))); try reflexivity.
        intros r0 [E|E]; discriminate E.
  - destruct (run_workers run !! idx) as [[r|r|c|]|] eqn:Hw; try discriminate Hstep.
    unfold bind, ret in Hstep.
    destruct (updateFormattingState s _ _ w) as [e w1]. injection Hstep as <- <-.
    apply (Hsame idx Returned); try reflexivity.
    intros r0 [E|E]; discriminate E.
  - injection Hstep as <- <-. exact (conj Hlim (conj Hsl Hret)).
Qed.

Lemma formatStep_taskID ev run w run' w' :
  formatStep s ev run w = (Some run', w') ->
  run_taskID run' = run_taskID run /\ run_chunks run' = run_chunks run.
Proof.
  intros Hstep. destruct ev as [idx|idx formatted|idx|]; cbn [formatStep] in Hstep.
  - destruct (run_workers run !! idx) as [[r|r|c|]|]; try discriminate Hstep.
    destruct (run_cancelled run); [now injection Hstep as <- <-|].
    destruct (_ <? _); [now injection Hstep as <- <-|discriminate Hstep].
  - destruct (run_workers run !! idx) as [[r|r|c|]|]; try discriminate Hstep.
    destruct (run_chunks run !! idx) as [chunk|]; [|discriminate Hstep].
    injection Hstep as <- <-. unfold handleFormatted.
    destruct formatted as [msg|result].
    + destruct (_ && _); [split; reflexivity|].
      unfold setError. destruct (run_firstErr _); split; reflexivity.
    + destruct (_ && _); [|split; reflexivity].
      unfold setError. destruct (run_firstErr _); split; reflexivity.
  - destruct (run_workers run !! idx) as [[r|r|c|]|]; try discriminate Hstep.
    unfold bind, ret in Hstep.
    destruct (updateFormattingState s _ _ w) as [e w1]. now injection Hstep as <- <-.
  - now injection Hstep as <- <-.
Qed.

Lemma during_chunks run run' w :
  run_taskID run' = run_taskID run -> run_chunks run' = run_chunks run ->
  during s run w -> during s run' w.
Proof. unfold during, totalChunks. intros -> ->. auto. Qed.

Lemma markProgress_during n c task :
  1 <= c <= n -> Task.FormattingTotalChunks task = n ->
  Task.ID (markProgress n c task) = Task.ID task
  /\ Task.FormattedByAI (markProgress n c task) = Task.FormattedByAI task
  /\ Task.FormattingTotalChunks (markProgress n c task) = n
  /\ 0 <= Task.FormattingCompletedChunks (markProgress n c task) <= n.
Proof.
  intros Hc Ht. destruct (markProgress_fields n c task) as (-> & -> & _ & -> & -> & _).
  rewrite Ht. destruct (n =? 0); repeat split; lia.
Qed.

Lemma markStopped_during n c task :
  0 <= c <= n -> Task.FormattingTotalChunks task = n ->
  Task.ID (markStopped n c task) = Task.ID task
  /\ Task.FormattedByAI (markStopped n c task) = Task.FormattedByAI task
  /\ Task.FormattingTotalChunks (markStopped n c task) = n
  /\ 0 <= Task.FormattingCompletedChunks (markStopped n c task) <= n.
Proof.
  intros Hc Ht. destruct (markStopped_fields n c task) as (-> & -> & _ & -> & -> & _).
  rewrite Ht. destruct (n =? 0); repeat split; lia.
Qed.

Lemma formatStep_store ev run w run' w' formatted :
  run_counts run -> fstore_ok s formatted w -> during s run w ->
  formatStep s ev run w = (Some run', w') ->
  fstore_ok s formatted w' /\ during s run' w'.
Proof.
  intros Hc Hst Hd Hstep.
  destruct (formatStep_taskID _ _ _ _ _ Hstep) as [Hid Hch].
  destruct ev as [idx|idx fm|idx|]; cbn [formatStep] in Hstep.
  - destruct (run_workers run !! idx) as [[r|r|c|]|]; try discriminate Hstep.
    destruct (run_cancelled run); [injection Hstep as <- <-; split; [exact Hst|now apply (during_chunks run)]|].
    destruct (_ <? _); [|discriminate Hstep].
    injection Hstep as <- <-; split; [exact Hst|now apply (during_chunks run)].
  - destruct (run_workers run !! idx) as [[r|r|c|]|]; try discriminate Hstep.
    destruct (run_chunks run !! idx) as [chunk|]; [|discriminate Hstep].
    injection Hstep as Hr <-. split; [exact Hst|now apply (during_chunks run)].
  - destruct (run_workers run !! idx) as [[r|r|c|]|] eqn:Hw; try discriminate Hstep.
    unfold bind, ret in Hstep.
    destruct Hc as (Hn & Hlen & Hc0 & Hsum & Hsav).
    pose proof (busyCount_nonneg (run_workers run)) as Hb0.
    destruct (Hsav idx c Hw) as [Hc1 Hc2].
    destruct (update_during run (markProgress (totalChunks run) c) formatted w Hst Hd)
      as (Hst' & Hd' & _).
    { intros task Ht. apply markProgress_during; [lia|exact Ht]. }
    destruct (updateFormattingState s _ _ w) as [e w1]. cbn [snd] in *.
    injection Hstep as Hr <-. split; [exact Hst'|now apply (during_chunks run)].
  - injection Hstep as <- <-. split; [exact Hst|now apply (during_chunks run)].
Qed.

(** **** The start and the end of a run *)

Lemma writeChunks_result dir idx strs w :
  let r := writeChunks dir idx strs w in
  metas r.2 = metas w /\ clock r.2 = clock w /\ writeError r.2 = writeError w
  /\ forall chunks, r.1 = Ok chunks -> length chunks = length strs.
Proof.
  revert idx w. induction strs as [|c strs IH]; intros idx w; cbn [writeChunks].
  - cbn. repeat split. now intros ? [= <-].
  - unfold bind, writeFile. destruct (writeError w) as [msg|] eqn:Hw; cbn.
    + repeat split; first [assumption|intros; discriminate].
    + match goal with |- context [writeChunks dir ?i strs ?w1] =>
        destruct (IH i w1) as (Hm & Hc & He & Hl);
        destruct (writeChunks dir i strs w1) as [[chunks|e] w2]
      end; cbn in *.
      * repeat split; auto. intros ? [= <-]. cbn. f_equal. now apply Hl.
      * repeat split; auto; intros; discriminate.
Qed.

Lemma prepareFormatterChunks_result task text size w :
  let r := prepareFormatterChunks s task text size w in
  metas r.2 = metas w /\ clock r.2 = clock w /\ writeError r.2 = writeError w
  /\ forall chunks, r.1 = Ok chunks -> (0 < length chunks)%nat.
Proof.
  unfold prepareFormatterChunks.
  destruct (Nat.eqb (length (splitTextChunks text size)) 0) eqn:Hn.
  - cbn. repeat split; intros; discriminate.
  - apply Nat.eqb_neq in Hn. unfold bind, mkdirAll.
    destruct (writeError w) as [msg|] eqn:Hw; cbn; [repeat split; first [assumption|intros; discriminate]|].
    match goal with |- context [writeChunks ?d ?i ?l w] =>
      destruct (writeChunks_result d i l w) as (Hm & Hc & He & Hl)
    end. split; [exact Hm|]. split; [exact Hc|]. split; [congruence|].
    intros chunks Hch. rewrite (Hl _ Hch). lia.
Qed.

Lemma FormatTaskLayout_start_ok formatted taskID provider w :
  fstore_ok s formatted w ->
  let r := FormatTaskLayout_start s taskID provider w in
  fstore_ok s formatted r.2
  /\ forall run, r.1 = Ok run ->
       run_counts run /\ run_retries run /\ during s run r.2
       /\ run_firstErr run = None /\ run_completedChunks run = 0.
Proof.
  intros Hst r. subst r. unfold FormatTaskLayout_start, bind.
  destruct (metas w !! metaPath s taskID) as [doc|] eqn:Hm;
    [|rewrite (loadTask_missing _ _ Hm); cbn; split; [exact Hst|intros; discriminate]].
  destruct (Hst _ _ Hm) as (task & -> & Hpath & Hb & Hf).
  rewrite (loadTask_stored s _ _ _ Hm).
  destruct (mergeProviderConfig s provider (Some task)) as [cfg|]; [|cbn; split; [exact Hst|intros; discriminate]].
  destruct (buildCombinedText task) as [text|]; [|cbn; split; [exact Hst|intros; discriminate]].
  match goal with |- context [prepareFormatterChunks s task text ?sz w] =>
    destruct (prepareFormatterChunks_result task text sz w) as (Hm1 & Hc1 & He1 & Hl1);
    destruct (prepareFormatterChunks s task text sz w) as [[chunks|e] w1]
  end; cbn [fst snd] in *;
    [|cbn; split; [now apply (fstore_ok_same _ w)|intros; discriminate]].
  specialize (Hl1 chunks eq_refl).
  set (n := Z.of_nat (length chunks)).
  destruct (updateFormattingState_result (Task.ID task) (markStarted n) w1) as (_ & _ & _ & Hr).
  rewrite Hm1, <- Hpath, Hm, Task_roundtrip, He1 in Hr.
  destruct (markStarted_fields n task) as (Mi & Mf & _ & Mt & Mc & _).
  destruct (stamp_fields (clock w1) (markStarted n task)) as (Si & Sf & _ & St & Sc).
  destruct (updateFormattingState s (Task.ID task) (markStarted n) w1) as [e w2].
  cbn [fst snd] in *.
  destruct (writeError w) as [msg|] eqn:Hw; destruct Hr as [-> Hr].
  - cbn. split; [|intros; discriminate]. apply (fstore_ok_same _ w); [congruence|exact Hst].
  - rewrite Mi, <- Hpath in Hr.
    assert (Hst2 : fstore_ok s formatted w2).
    { intros path doc. rewrite Hr, lookup_insert. destruct (decide _) as [<-|]; cbn.
      - intros [= <-]. eexists. split; [reflexivity|]. rewrite Si, Sf, Mi, Mf.
        split; [exact Hpath|]. split; [|exact Hf].
        unfold fmt_bounds. rewrite St, Sc, Mt, Mc. lia.
      - apply Hst. }
    cbn. split; [exact Hst2|]. intros run [= <-].
    unfold run_counts, run_retries, during, totalChunks, sleepsOf. cbn.
    rewrite !length_replicate, busyCount_replicate. fold n.
    assert (Hn : 0 < n) by (unfold n; lia).
    refine (conj (conj Hn (conj eq_refl (conj (Z.le_refl 0) (conj _ _)))) (conj (conj _ (conj _ _)) (conj _ (conj eq_refl eq_refl)))).
    + lia.
    + intros idx c Hi. apply lookup_replicate in Hi as [Hi _]. discriminate Hi.
    + destruct (n <? 3) eqn:E; [apply Z.ltb_lt in E|]; lia.
    + intros Hne. congruence.
    + intros idx q [Hi|Hi]; apply lookup_replicate in Hi as [Hi _]; [|discriminate Hi].
      injection Hi as ->. split; [lia|reflexivity].
    + eexists. rewrite Hr, <- Hpath at 1. rewrite Hpath at 1. rewrite <- Hpath, lookup_insert_eq.
      split; [reflexivity|]. rewrite Si, St, Sc, Mi, Mt, Mc. repeat split; lia.
Qed.

Lemma finalize_ok formatted run w :
  run_counts run -> fstore_ok s formatted w -> during s run w ->
  let w' := (finalize s false run w).2 in
  fstore_ok s formatted w' /\ during s run w'
  /\ (writeError w = None ->
      exists task,
        metas w' !! metaPath s (run_taskID run) = Some (Task.toJSON task)
        /\ Task.FormattingInProgress task = false
        /\ Task.FormattingCompletedChunks task = run_completedChunks run
        /\ Task.FormattingTotalChunks task = totalChunks run).
Proof.
  intros (Hn & Hlen & Hc0 & Hsum & Hsav) Hst Hd w'. subst w'.
  pose proof (busyCount_nonneg (run_workers run)) as Hb0.
  unfold finalize. cbn [orb].
  replace (totalChunks run =? 0) with false by (symmetry; apply Z.eqb_neq; lia).
  unfold bind, ret.
  destruct (update_during run (markStopped (totalChunks run) (run_completedChunks run))
              formatted w Hst Hd) as (Hst' & Hd' & Hw').
  { intros task Ht. apply markStopped_during; [lia|exact Ht]. }
  destruct (updateFormattingState s _ _ w) as [e w1]. cbn [snd] in *.
  split; [exact Hst'|]. split; [exact Hd'|].
  intros Hw. destruct (Hw' Hw) as (task & Hm & Hm').
  destruct Hd as (t0 & Hm0 & _ & Ht0 & _). rewrite Hm0 in Hm.
  assert (E0 : t0 = task) by (apply toJSON_inj; congruence). subst t0.
  eexists. split; [exact Hm'|].
  destruct (stamp_fields (clock w) (markStopped (totalChunks run) (run_completedChunks run) task))
    as (_ & _ & -> & -> & ->).
  destruct (markStopped_fields (totalChunks run) (run_completedChunks run) task)
    as (_ & _ & -> & -> & -> & _).
  rewrite Ht0. replace (totalChunks run =? 0) with false by (symmetry; apply Z.eqb_neq; lia).
  auto.
Qed.

Lemma FormatTaskLayout_finish_ok formatted run w outcome w' :
  run_counts run -> fstore_ok s formatted w -> during s run w ->
  FormatTaskLayout_finish s run w = (Some outcome, w') ->
  fstore_ok s (match outcome with
               | Ok (task, _) => (formatted ++ [Task.ID task])%list
               | Err _ => formatted
               end) w'
  /\ (forall task url, outcome = Ok (task, url) ->
        run_firstErr run = None
        /\ metas w' !! metaPath s (Task.ID task) = Some (Task.toJSON task)
        /\ Task.FormattedByAI task = true
        /\ Task.FormattingInProgress task = false
        /\ Task.FormattingTotalChunks task = totalChunks run
        /\ Task.FormattingCompletedChunks task = totalChunks run)
  /\ (forall e, run_firstErr run = Some e ->
        outcome = Err e
        /\ (writeError w = None ->
            exists task,
              metas w' !! metaPath s (run_taskID run) = Some (Task.toJSON task)
              /\ Task.FormattingInProgress task = false
              /\ Task.FormattingCompletedChunks task = run_completedChunks run
              /\ Task.FormattingTotalChunks task = totalChunks run)).
Proof.
  intros Hc Hst Hd. unfold FormatTaskLayout_finish.
  destruct (negb (allReturned run)); [discriminate|].
  destruct (finalize_ok formatted run w Hc Hst Hd) as (Hst_f & _ & Hfin).
  destruct (run_firstErr run) as [e|] eqn:He.
  - unfold bind, ret. destruct (finalize s false run w) as [[] w1]. cbn [snd] in *.
    intros [= <- <-]. split; [exact Hst_f|]. split; [intros; discriminate|].
    intros e' [= <-]. auto.
  - destruct (String.eqb _ "").
    + unfold bind, ret. destruct (finalize s false run w) as [[] w1]. cbn [snd] in *.
      intros [= <- <-]. split; [exact Hst_f|]. split; intros; discriminate.
    + unfold bind at 1. unfold writeFile.
      destruct (writeError w) as [msg|] eqn:Hw.
      * unfold bind, ret. destruct (finalize s false run w) as [[] w1]. cbn [snd] in *.
        intros [= <- <-]. split; [exact Hst_f|]. split; intros; discriminate.
      * destruct Hd as (t0 & Hm0 & Hid0 & Ht0 & Hc0).
        unfold bind at 1.
        match goal with |- context [loadTask s _ ?w1] =>
          rewrite (loadTask_stored s (run_taskID run) t0 w1) by exact Hm0
        end.
        unfold bind, ret, saveTask.
        match goal with |- context [saveTaskLocked s ?t ?w1] =>
          rewrite (saveTaskLocked_ok s t w1) by reflexivity;
          set (task' := t)
        end.
        cbn [fst snd clock metas files writeError].
        intros [= <- <-].
        assert (Hf' : Task.ID (Task.set_UpdatedAt (clock w) task') = Task.ID t0
                      /\ Task.FormattedByAI (Task.set_UpdatedAt (clock w) task') = true
                      /\ Task.FormattingInProgress (Task.set_UpdatedAt (clock w) task') = false
                      /\ Task.FormattingTotalChunks (Task.set_UpdatedAt (clock w) task') = totalChunks run
                      /\ Task.FormattingCompletedChunks (Task.set_UpdatedAt (clock w) task') = totalChunks run)
          by (unfold task'; destruct t0; cbn; auto).
        destruct Hf' as (Fi & Ff & Fp & Ft & Fc).
        assert (Hi' : Task.ID task' = Task.ID t0) by (unfold task'; destruct t0; reflexivity).
        split; [|split; [|intros; discriminate]].
        -- intros path doc. cbn [metas]. rewrite lookup_insert.
           destruct (decide _) as [<-|]; cbn.
           ++ intros [= <-]. eexists. split; [reflexivity|]. rewrite ?Fi, ?Hi'.
              split; [reflexivity|]. split.
              ** unfold fmt_bounds. rewrite Ft, Fc. lia.
              ** intros Hnin. exfalso. apply Hnin. apply elem_of_app. right.
                 rewrite ?Fi. now left.
           ++ intros Hdoc. destruct (Hst _ _ Hdoc) as (t & -> & Hp & Hb & Hff).
              exists t. split; [reflexivity|]. split; [exact Hp|]. split; [exact Hb|].
              intros Hnin. apply Hff. intros Hin. apply Hnin. apply elem_of_app. now left.
        -- intros task url [= <- _]. cbn [metas]. rewrite ?Fi, ?Hi', lookup_insert_eq.
           repeat split; assumption.
Qed.

Lemma fmtStep_ok op st st' :
  fmt_ok s st -> fmtStep s op st = Some st' -> fmt_ok s st'.
Proof.
  intros [Hst Hrun]. destruct op as [taskID provider|ev| |now|failure]; cbn [fmtStep].
  - destruct (fs_run st); [discriminate|].
    destruct (FormatTaskLayout_start_ok (fs_formatted st) taskID provider (fs_world st) Hst)
      as [Hst' Hr].
    destruct (FormatTaskLayout_start s taskID provider (fs_world st)) as [started w'].
    cbn [fst snd] in *. intros [= <-]. split; [exact Hst'|]. cbn [fs_run].
    destruct started as [run|]; [|exact I].
    destruct (Hr run eq_refl) as (H1 & H2 & H3 & _). auto.
  - destruct (fs_run st) as [run|]; [|discriminate]. cbn.
    destruct Hrun as (Hc & Hr & Hd).
    destruct (formatStep s ev run (fs_world st)) as [[run'|] w'] eqn:Hstep; [|discriminate].
    cbn. intros [= <-].
    destruct (formatStep_store _ _ _ _ _ _ Hc Hst Hd Hstep) as [Hst' Hd'].
    split; [exact Hst'|]. cbn [fs_run].
    split; [eapply formatStep_counts; eauto|].
    split; [eapply formatStep_retries; eauto; apply Hc|exact Hd'].
  - destruct (fs_run st) as [run|]; [|discriminate]. cbn.
    destruct Hrun as (Hc & Hr & Hd).
    destruct (FormatTaskLayout_finish s run (fs_world st)) as [[outcome|] w'] eqn:Hfin;
      [|discriminate].
    cbn. intros [= <-].
    destruct (FormatTaskLayout_finish_ok _ _ _ _ _ Hc Hst Hd Hfin) as (Hst' & _).
    split; [|exact I]. cbn [fs_world fs_formatted].
    destruct outcome as [[task url]|e]; exact Hst'.
  - intros [= <-]. split; [now apply fstore_ok_world|]. cbn [fs_run fs_world].
    destruct (fs_run st) as [run|]; [|exact I].
    destruct Hrun as (Hc & Hr & Hd). split; [exact Hc|]. split; [exact Hr|].
    now apply (during_same run (fs_world st)).
  - intros [= <-]. split; [now apply fstore_ok_world|]. cbn [fs_run fs_world].
    destruct (fs_run st) as [run|]; [|exact I].
    destruct Hrun as (Hc & Hr & Hd). split; [exact Hc|]. split; [exact Hr|].
    now apply (during_same run (fs_world st)).
Qed.

Lemma fmtRun_ok ops st st' :
  fmt_ok s st -> fmtRun s ops st = Some st' -> fmt_ok s st'.
Proof.
  revert st. induction ops as [|op ops IH]; intros st Hok; cbn [fmtRun].
  - now intros [= <-].
  - destruct (fmtStep s op st) as [st1|] eqn:Hstep; [|discriminate]. cbn.
    apply IH. eapply fmtStep_ok; eauto.
Qed.

End Format.

(** ** The demo task *)

(** [demo_task] is what the store holds once the pool of the demo upload has
    translated page 1. *)
Lemma demo_task_reached : demo_translated = Some demo_task.
Proof.
  vm_compute. reflexivity.
Qed.

Lemma demo_machine_fresh : fresh_store demo_service demo_machine.
Proof.
  intros path doc. unfold demo_machine. cbn [metas]. rewrite lookup_insert.
  destruct (decide _) as [<-|]; cbn; [|rewrite lookup_empty; discriminate].
  intros [= <-]. exists demo_task. split; [reflexivity|]. split; [reflexivity|].
  split; [intros H; vm_compute in H; discriminate H|]. intros _. reflexivity.
Qed.




(** C3 as stated fails.  The only chunk of [demo_task] is in flight for the
    first time; a 429 answer is retried, a truncated answer is not. *)
Lemma C3_counterexample :
  exists st run chunk,
    fmtRun demo_service [FStart "t1" no_provider; FMove (Acquire 0)] (idle demo_machine)
      = Some st
    /\ fs_run st = Some run
    /\ run_chunks run !! 0%nat = Some chunk
    /\ run_workers run !! 0%nat = Some (Calling 0)
    /\ 0 < RuneCount (translator.Data chunk)
    /\ RuneCount (strings_TrimSpace "Bon") < Z.quot (RuneCount (translator.Data chunk)) 2
    /\ retried 0 0 run (handleFormatted 0 chunk 0 (inl "HTTP 429 Too Many Requests") run)
    /\ ~ retried 0 0 run (handleFormatted 0 chunk 0 (inr "Bon") run).
Proof.
  destruct (fmtRun demo_service [FStart "t1" no_provider; FMove (Acquire 0)]
              (idle demo_machine)) as [st|] eqn:E; [|vm_compute in E; discriminate E].
  destruct (fs_run st) as [run|] eqn:Er;
    [|vm_compute in E; injection E as <-; vm_compute in Er; discriminate Er].
  destruct (run_chunks run !! 0%nat) as [chunk|] eqn:Ec;
    [|vm_compute in E; injection E as <-; vm_compute in Er; injection Er as <-;
      vm_compute in Ec; discriminate Ec].
  exists st, run, chunk. split; [reflexivity|]. split; [exact Er|].
  split; [exact Ec|].
  vm_compute in E. injection E as <-. vm_compute in Er. injection Er as <-.
  vm_compute in Ec. injection Ec as <-.
  split; [vm_compute; reflexivity|]. split; [vm_compute; reflexivity|].
  split; [vm_compute; reflexivity|]. split.
  - vm_compute. repeat split; reflexivity.
  - intros (Hw & _). vm_compute in Hw. discriminate Hw.
Qed.

(** C3 (amended): when the formatter returns and the rune count of the
    trimmed output is below half the rune count of the chunk, rounded down
    ([srcLen / 2] on integers), [processChunk] sets the truncation error:
    the goroutine returns, the first error wins and cancels the run, and
    nothing is retried: the limit, the sleeps, the completed count and the
    results stay as they were. Any other output is stored as the chunk's
    result. *)
Theorem C3_truncated_output_fails `{lib : GoLib} (idx : nat)
    (chunk : translator.FormatterChunk) (retries : Z) (result : string) (run : FormatRun) :
  let srcLen := RuneCount (translator.Data chunk) in
  let clean := strings_TrimSpace result in
  let run' := handleFormatted idx chunk retries (inr result) run in
  (0 < srcLen /\ RuneCount clean < Z.quot srcLen 2 ->
     run_workers run' = <[idx := Returned]> (run_workers run)
     /\ run_firstErr run'
        = Some (default (ErrTruncated (Z.of_nat idx + 1)) (run_firstErr run))
     /\ (run_firstErr run = None -> run_cancelled run' = true)
     /\ run_currentLimit run' = run_currentLimit run
     /\ run_sleeps run' = run_sleeps run
     /\ run_completedChunks run' = run_completedChunks run
     /\ run_results run' = run_results run)
  /\ (~ (0 < srcLen /\ RuneCount clean < Z.quot srcLen 2) ->
      run' = storeResult idx clean (addSlots (-1) run)).
Proof.
  intros srcLen clean run'. subst run'. unfold handleFormatted. fold srcLen. fold clean.
  split.
  - intros [H1 H2].
    replace (0 <? srcLen) with true by (symmetry; apply Z.ltb_lt; lia).
    replace (RuneCount clean <? Z.quot srcLen 2) with true by (symmetry; apply Z.ltb_lt; lia).
    cbn [andb]. unfold setError. destruct (run_firstErr run) eqn:E; cbn; rewrite ?E; cbn;
      repeat split; intros; congruence.
  - intros Hn.
    destruct (Z.ltb_spec 0 srcLen); cbn [andb]; [|reflexivity].
    destruct (Z.ltb_spec (RuneCount clean) (Z.quot srcLen 2)); [|reflexivity].
    exfalso. apply Hn. lia.
Qed.

(** Two runes come back for a chunk of ten: the run fails at once. *)
Lemma C3_truncated_output_fails_witness :
  let run' := handleFormatted 0 demo_chunk 0 (inr "  ok  ") demo_run in
  run_workers run' = [Returned]
  /\ run_firstErr run' = Some (ErrTruncated 1)
  /\ run_cancelled run' = true
  /\ run_currentLimit run' = 1
  /\ run_sleeps run' = []
  /\ run_completedChunks run' = 0
  /\ run_results run' = [""].
Proof.
  destruct (C3_truncated_output_fails 0 demo_chunk 0 "  ok  " demo_run) as [H _].
  destruct H as (H1 & H2 & H3 & H4 & H5 & H6 & H7);
    [split; vm_compute; reflexivity|].
  refine (conj H1 (conj H2 (conj (H3 eq_refl) (conj H4 (conj H5 (conj H6 H7)))))).
Defined.

(** C4: in every state of a run, the concurrency limit is between 1 and 3
    and is 1 once any chunk has backed off; a chunk whose call fails with a
    rate-limit error after [retries] retries has slept 1, 2, ..., [retries]
    seconds; below 3 retries it backs off (limit lowered to 1, one more
    retry, that many seconds of sleep, no error set), at 3 it has slept 1,
    2 and 3 seconds and sets the error, which cancels the run. The run that
    ends with an error is persisted with [formattingInProgress] false and
    [formattingCompletedChunks] at the count of the chunks completed. *)
Theorem C4_rate_limit_backoff `{lib : GoLib} (s : TaskService) (w0 : World)
    (ops : list FormatOp) (st : Formatting) (run : FormatRun) :
  fresh_store s w0 ->
  fmtRun s ops (idle w0) = Some st ->
  fs_run st = Some run ->
  (1 <= run_currentLimit run <= 3 /\ (run_sleeps run <> [] -> run_currentLimit run = 1))
  /\ (forall idx retries chunk msg,
        run_workers run !! idx = Some (Calling retries) ->
        formatterIsRateLimit msg = true ->
        let run' := handleFormatted idx chunk retries (inl msg) run in
        0 <= retries <= 3
        /\ sleepsOf idx run = seqZ 1 retries
        /\ (retries < 3 -> retried idx retries run run')
        /\ (retries = 3 ->
            sleepsOf idx run = [1; 2; 3]
            /\ run_workers run' !! idx = Some Returned
            /\ run_firstErr run' = Some (default (ErrExternal msg) (run_firstErr run))
            /\ (run_firstErr run = None -> run_cancelled run' = true)))
  /\ (forall e outcome w',
        run_firstErr run = Some e ->
        writeError (fs_world st) = None ->
        FormatTaskLayout_finish s run (fs_world st) = (Some outcome, w') ->
        outcome = Err e
        /\ 0 <= run_completedChunks run <= totalChunks run
        /\ exists task,
             metas w' !! metaPath s (run_taskID run) = Some (Task.toJSON task)
             /\ Task.FormattingInProgress task = false
             /\ Task.FormattingCompletedChunks task = run_completedChunks run
             /\ Task.FormattingTotalChunks task = totalChunks run).
Proof.
  intros Hfresh Hrun Hr.
  assert (Hok : fmt_ok s (idle w0)) by (split; [exact Hfresh|exact I]).
  destruct (fmtRun_ok s ops _ _ Hok Hrun) as [Hst Hinv]. rewrite Hr in Hinv.
  destruct Hinv as (Hc & (Hlim & Hsl & Hret) & Hd).
  split; [split; assumption|]. split.
  - intros idx retries chunk msg Hw Hrl run'.
    destruct (Hret idx retries (or_intror Hw)) as [Hr03 Hso].
    split; [exact Hr03|]. split; [exact Hso|]. subst run'. unfold handleFormatted. rewrite Hrl.
    cbn [andb]. split.
    + intros Hlt. replace (retries <? 3) with true by (symmetry; apply Z.ltb_lt; lia).
      unfold retried. cbn.
      rewrite list_lookup_insert_eq by (eapply lookup_lt_Some; eauto).
      repeat split. destruct (Z.ltb_spec 1 (run_currentLimit run)); lia.
    + intros ->. cbn. rewrite Hso. split; [reflexivity|].
      unfold setError. destruct (run_firstErr run) eqn:E; cbn; rewrite ?E; cbn;
        rewrite list_lookup_insert_eq by (eapply lookup_lt_Some; eauto);
        repeat split; intros; congruence.
  - intros e outcome w' He Hw Hfin.
    destruct (FormatTaskLayout_finish_ok s _ _ _ _ _ Hc Hst Hd Hfin) as (_ & _ & Hfail).
    destruct (Hfail e He) as [-> Hstored]. split; [reflexivity|].
    destruct Hc as (Hn & Hlen & Hc0 & Hsum & Hsav).
    pose proof (busyCount_nonneg (run_workers run)). split; [lia|]. now apply Hstored.
Qed.

(** Three 429 answers to the only chunk of [demo_task]: the cap is 1, the
    waits were 1, 2 and 3 seconds, and a fourth 429 fails the run. *)
Lemma C4_rate_limit_backoff_witness :
  exists st run,
    fmtRun demo_service demo_rate_limited (idle demo_machine) = Some st
    /\ fs_run st = Some run
    /\ run_workers run !! 0%nat = Some (Calling 3)
    /\ run_currentLimit run = 1
    /\ sleepsOf 0 run = [1; 2; 3]
    /\ forall chunk,
         let run' := handleFormatted 0 chunk 3 (inl "HTTP 429 Too Many Requests") run in
         run_workers run' !! 0%nat = Some Returned
         /\ run_firstErr run' = Some (ErrExternal "HTTP 429 Too Many Requests")
         /\ run_cancelled run' = true.
Proof.
  destruct (fmtRun demo_service demo_rate_limited (idle demo_machine)) as [st|] eqn:E;
    [|vm_compute in E; discriminate E].
  destruct (fs_run st) as [run|] eqn:Er;
    [|vm_compute in E; injection E as <-; vm_compute in Er; discriminate Er].
  exists st, run. split; [reflexivity|]. split; [exact Er|].
  destruct (C4_rate_limit_backoff demo_service demo_machine demo_rate_limited st run
              demo_machine_fresh E Er) as ((_ & Hl) & Hr & _).
  vm_compute in E. injection E as <-. vm_compute in Er. injection Er as <-.
  assert (Hrl : formatterIsRateLimit "HTTP 429 Too Many Requests" = true)
    by (vm_compute; reflexivity).
  split; [reflexivity|]. split; [apply Hl; discriminate|]. split.
  - destruct (Hr 0%nat 3 demo_chunk _ eq_refl Hrl) as (_ & _ & _ & H3).
    destruct (H3 eq_refl) as (H & _). exact H.
  - intros chunk. destruct (Hr 0%nat 3 chunk _ eq_refl Hrl) as (_ & _ & _ & H3).
    destruct (H3 eq_refl) as (_ & H1 & H2 & H4).
    split; [exact H1|]. split; [exact H2|exact (H4 eq_refl)].
Defined.

(** * Further properties *)

(** ** The chunks of the splitter, rune by rune *)

Lemma byteval_bytechr z : 0 <= z < 256 -> byteval (bytechr z) = z.
Proof.
  intros Hz. unfold byteval, bytechr. rewrite N_ascii_embedding.
  - lia.
  - lia.
Qed.

Lemma len_EncodeRune r : 1 <= len (EncodeRune r) <= 4.
Proof.
  unfold EncodeRune, encode3.
  repeat match goal with |- context [if ?c then _ else _] => destruct c end;
    unfold len; cbn [String.length]; lia.
Qed.

Lemma decode_EncodeRune r s :
  validRune r ->
  DecodeRuneInString (EncodeRune r ++ s)
  = (r, Z.to_nat (len (EncodeRune r))).
Proof.
  intros [[H0 H1] Hs]. unfold MaxRune in H1. unfold EncodeRune, surrogate, MaxRune.
  replace ((r <? 0) || (1114111 <? r) || inrange 55296 57343 r) with false.
  2:{ symmetry. rewrite !orb_false_iff. repeat split.
      - apply Z.ltb_ge. lia.
      - apply Z.ltb_ge. lia.
      - destruct (inrange 55296 57343 r) eqn:E; [|reflexivity].
        apply inrange_spec in E. lia. }
  destruct (r <=? 127) eqn:E1; zbool.
  { rewrite str_app_cons, str_app_nil_l. unfold DecodeRuneInString.
    rewrite byteval_bytechr by lia. cbv zeta.
    replace (r <? 128) with true by (symmetry; apply Z.ltb_lt; lia). reflexivity. }
  destruct (r <=? 2047) eqn:E2; zbool.
  { rewrite !str_app_cons, str_app_nil_l. unfold DecodeRuneInString.
    rewrite !byteval_bytechr by (Z.div_mod_to_equations; lia). cbv zeta.
    replace (192 + r / 64 <? 128) with false
      by (symmetry; apply Z.ltb_ge; Z.div_mod_to_equations; lia).
    replace (inrange 194 223 (192 + r / 64)) with true
      by (symmetry; apply inrange_spec; Z.div_mod_to_equations; lia).
    replace (cont (128 + r mod 64)) with true
      by (symmetry; apply inrange_spec; Z.div_mod_to_equations; lia).
    f_equal. Z.div_mod_to_equations; lia. }
  destruct (r <=? 65535) eqn:E3; zbool.
  { unfold encode3. rewrite !str_app_cons, str_app_nil_l. unfold DecodeRuneInString.
    rewrite !byteval_bytechr by (Z.div_mod_to_equations; lia). cbv zeta.
    replace (224 + r / 4096 <? 128) with false
      by (symmetry; apply Z.ltb_ge; Z.div_mod_to_equations; lia).
    replace (inrange 194 223 (224 + r / 4096)) with false.
    2:{ symmetry. destruct (inrange 194 223 (224 + r / 4096)) eqn:E; [|reflexivity].
        apply inrange_spec in E. Z.div_mod_to_equations; lia. }
    replace (inrange 224 239 (224 + r / 4096)) with true
      by (symmetry; apply inrange_spec; Z.div_mod_to_equations; lia).
    replace (cont (128 + r mod 64)) with true
      by (symmetry; apply inrange_spec; Z.div_mod_to_equations; lia).
    match goal with |- context [inrange ?lo ?hi (128 + (r / 64) mod 64)] =>
      replace (inrange lo hi (128 + (r / 64) mod 64)) with true
    end.
    2:{ symmetry. apply inrange_spec.
        destruct (224 + r / 4096 =? 224) eqn:Ea; destruct (224 + r / 4096 =? 237) eqn:Eb;
          zbool; Z.div_mod_to_equations; lia. }
    cbn [andb]. f_equal. Z.div_mod_to_equations; lia. }
  { rewrite !str_app_cons, str_app_nil_l. unfold DecodeRuneInString.
    rewrite !byteval_bytechr by (Z.div_mod_to_equations; lia). cbv zeta.
    replace (240 + r / 262144 <? 128) with false
      by (symmetry; apply Z.ltb_ge; Z.div_mod_to_equations; lia).
    replace (inrange 194 223 (240 + r / 262144)) with false.
    2:{ symmetry. destruct (inrange 194 223 (240 + r / 262144)) eqn:E; [|reflexivity].
        apply inrange_spec in E. Z.div_mod_to_equations; lia. }
    replace (inrange 224 239 (240 + r / 262144)) with false.
    2:{ symmetry. destruct (inrange 224 239 (240 + r / 262144)) eqn:E; [|reflexivity].
        apply inrange_spec in E. Z.div_mod_to_equations; lia. }
    replace (inrange 240 244 (240 + r / 262144)) with true
      by (symmetry; apply inrange_spec; Z.div_mod_to_equations; lia).
    replace (cont (128 + r mod 64)) with true
      by (symmetry; apply inrange_spec; Z.div_mod_to_equations; lia).
    replace (cont (128 + (r / 64) mod 64)) with true
      by (symmetry; apply inrange_spec; Z.div_mod_to_equations; lia).
    match goal with |- context [inrange ?lo ?hi (128 + (r / 4096) mod 64)] =>
      replace (inrange lo hi (128 + (r / 4096) mod 64)) with true
    end.
    2:{ symmetry. apply inrange_spec.
        destruct (240 + r / 262144 =? 240) eqn:Ea; destruct (240 + r / 262144 =? 244) eqn:Eb;
          zbool; Z.div_mod_to_equations; lia. }
    cbn [andb]. f_equal. Z.div_mod_to_equations; lia. }
Qed.

Lemma skip_app (a s : string) : skip (String.length a) (a ++ s) = s.
Proof. induction a; [reflexivity|]. rewrite str_app_cons. exact IHa. Qed.

Lemma EncodeRune_cons r : exists a t, EncodeRune r = String a t.
Proof.
  pose proof (len_EncodeRune r) as H. destruct (EncodeRune r) as [|a t]; [unfold len in H; cbn in H; lia|].
  eauto.
Qed.

Lemma runes_EncodeRune r s : validRune r -> runes (EncodeRune r ++ s) = r :: runes s.
Proof.
  intros Hr. destruct (EncodeRune_cons r) as (a & t & E).
  pose proof (decode_EncodeRune r s Hr) as D. rewrite E in D |- *.
  rewrite str_app_cons in D |- *. rewrite runes_unfold, D. cbn [fst snd].
  f_equal. f_equal. unfold len. rewrite Nat2Z.id.
  rewrite <- str_app_cons. apply skip_app.
Qed.

Lemma valid_EncodeRune r s :
  validRune r -> ValidString (EncodeRune r ++ s) = ValidString s.
Proof.
  intros Hr. destruct (EncodeRune_cons r) as (a & t & E).
  pose proof (decode_EncodeRune r s Hr) as D. rewrite E in D |- *.
  rewrite str_app_cons in D |- *. rewrite ValidString_unfold, D. cbn [fst snd].
  unfold len. rewrite Nat2Z.id. rewrite <- str_app_cons, skip_app.
  replace ((r =? RuneError) && Nat.eqb (String.length (String a t)) 1) with false;
    [reflexivity|].
  symmetry. apply andb_false_iff.
  destruct (r =? RuneError) eqn:Er; [right|left; reflexivity].
  apply Z.eqb_eq in Er. subst r. rewrite <- E. reflexivity.
Qed.

Lemma runes_encodeAll l : Forall validRune l -> runes (encodeAll l) = l.
Proof.
  induction 1 as [|r l Hr _ IH]; [reflexivity|].
  cbn [encodeAll fold_right]. fold (encodeAll l). rewrite runes_EncodeRune by exact Hr.
  now rewrite IH.
Qed.

Lemma valid_encodeAll l : Forall validRune l -> ValidString (encodeAll l) = true.
Proof.
  induction 1 as [|r l Hr _ IH]; [reflexivity|].
  cbn [encodeAll fold_right]. fold (encodeAll l). now rewrite valid_EncodeRune.
Qed.

Lemma encodeAll_snoc l r : encodeAll (l ++ [r])%list = (encodeAll l ++ EncodeRune r)%string.
Proof.
  induction l as [|x l IH]; cbn [encodeAll fold_right app].
  - now rewrite str_app_nil_r, str_app_nil_l.
  - fold (encodeAll (l ++ [r])%list). fold (encodeAll l). now rewrite IH, str_app_assoc.
Qed.

Lemma splitRunes_flush st done :
  splitRunes st done ->
  splitRunes {| chunks := chunks st ++ [builder st]; builder := ""; current := 0 |} done.
Proof.
  intros (ls & l & Hc & Hb & Hd). exists (ls ++ [l])%list, []. cbn [chunks builder].
  rewrite map_app, Hc, Hb. split; [reflexivity|]. split; [reflexivity|].
  rewrite concat_app. cbn. now rewrite !app_nil_r.
Qed.

Lemma splitRunes_step maxBytes st done r :
  splitRunes st done -> splitRunes (splitStep maxBytes st r) (done ++ [r])%list.
Proof.
  intros H. unfold splitStep.
  set (st1 := if (maxBytes <? current st + len (EncodeRune r)) && (0 <? len (builder st))
              then _ else st).
  assert (H1 : splitRunes st1 done).
  { subst st1. destruct (_ && _); [now apply splitRunes_flush|exact H]. }
  clearbody st1.
  assert (H2 : splitRunes {| chunks := chunks st1; builder := builder st1 ++ EncodeRune r;
                             current := current st1 + len (EncodeRune r) |} (done ++ [r])%list).
  { destruct H1 as (ls & l & Hc & Hb & Hd). exists ls, (l ++ [r])%list. cbn [chunks builder].
    rewrite encodeAll_snoc, Hb, <- Hd, app_assoc. auto. }
  cbv zeta. destruct (_ && _); [now apply (splitRunes_flush _ _ H2)|exact H2].
Qed.

Lemma splitRunes_fold maxBytes rs st done :
  splitRunes st done -> splitRunes (fold_left (splitStep maxBytes) rs st) (done ++ rs)%list.
Proof.
  revert st done. induction rs as [|r rs IH]; intros st done H; cbn [fold_left].
  - now rewrite app_nil_r.
  - replace (done ++ r :: rs)%list with ((done ++ [r]) ++ rs)%list by now rewrite <- app_assoc.
    apply IH. now apply splitRunes_step.
Qed.

Lemma splitTextChunks_whole_runes text maxBytes :
  exists ls, splitTextChunks text maxBytes = map encodeAll ls /\ concat ls = runes text.
Proof.
  unfold splitTextChunks. set (m := if maxBytes <=? 0 then _ else _).
  destruct (splitRunes_fold m (runes text) {| chunks := []; builder := ""; current := 0 |} [])
    as (ls & l & Hc & Hb & Hd).
  { exists [], []. auto. }
  cbv zeta. rewrite app_nil_l in Hd. destruct (0 <? len (builder _)) eqn:E.
  - exists (ls ++ [l])%list. rewrite map_app, Hc, Hb. split; [reflexivity|].
    rewrite concat_app. cbn. now rewrite app_nil_r.
  - exists ls. split; [exact Hc|]. apply Z.ltb_ge in E.
    assert (Hl : builder (fold_left (splitStep m) (runes text)
                            {| chunks := []; builder := ""; current := 0 |}) = "").
    { apply len_zero. pose proof (len_nonneg (builder (fold_left (splitStep m) (runes text)
                            {| chunks := []; builder := ""; current := 0 |}))). lia. }
    rewrite Hl in Hb. destruct l as [|r l]; [now rewrite app_nil_r in Hd|].
    cbn [encodeAll fold_right] in Hb. destruct (EncodeRune_cons r) as (a & t & Er).
    rewrite Er, str_app_cons in Hb. discriminate Hb.
Qed.

Lemma splitTextChunks_runes (text : string) (maxBytes : Z) :
  concat (map runes (splitTextChunks text maxBytes)) = runes text
  /\ Forall (fun c => ValidString c = true) (splitTextChunks text maxBytes).
Proof.
  destruct (splitTextChunks_whole_runes text maxBytes) as (ls & -> & Hd).
  pose proof (runes_validRune text) as Hv. rewrite <- Hd in Hv.
  assert (Hall : Forall (Forall validRune) ls).
  { clear Hd. induction ls as [|l ls IH]; [constructor|].
    cbn [concat] in Hv. apply Forall_app in Hv as [Hl Hr]. constructor; auto. }
  clear Hv. split.
  - rewrite <- Hd. clear Hd. induction Hall as [|l ls Hl _ IH]; [reflexivity|].
    cbn [map concat]. now rewrite runes_encodeAll, IH.
  - clear Hd. induction Hall as [|l ls Hl _ IH]; constructor; auto.
    now apply valid_encodeAll.
Qed.

(** The chunks are cut between runes: decoded one after the other they
    give the runes of the text, and each chunk is valid UTF-8, whatever the
    text and the budget. So a text that is not valid UTF-8 is never given
    back byte for byte. *)
Theorem splitTextChunks_rune_boundaries (text : string) (maxBytes : Z) :
  concat (map runes (splitTextChunks text maxBytes)) = runes text
  /\ Forall (fun c => ValidString c = true) (splitTextChunks text maxBytes)
  /\ (ValidString text = false ->
      strings_Join (splitTextChunks text maxBytes) "" <> text).
Proof.
  destruct (splitTextChunks_runes text maxBytes) as [Hr Hv].
  split; [exact Hr|]. split; [exact Hv|].
  intros Hinv E. rewrite Join_nosep, splitTextChunks_recode in E.
  destruct (splitTextChunks_whole_runes text maxBytes) as (ls & Hc & Hd).
  assert (Hvalid : ValidString (recode text) = true).
  { unfold recode. apply (valid_encodeAll (runes text)), runes_validRune. }
  rewrite E in Hvalid. congruence.
Qed.

(** ** The size of the chunks *)

Lemma splitBound_step m st r :
  4 <= m -> splitBound m st -> splitBound m (splitStep m st r).
Proof.
  intros Hm (Hc & Hcur & Hb). pose proof (len_EncodeRune r) as Hr.
  pose proof (len_nonneg (builder st)) as Hn.
  unfold splitStep.
  set (st1 := if (m <? current st + len (EncodeRune r)) && (0 <? len (builder st))
              then _ else st).
  assert (H1 : Forall (fun c => m - 512 < len c <= m) (chunks st1)
               /\ current st1 = len (builder st1)
               /\ len (builder st1) + len (EncodeRune r) <= m).
  { subst st1. destruct (m <? current st + len (EncodeRune r)) eqn:E1;
      destruct (0 <? len (builder st)) eqn:E2; cbn [andb chunks builder current]; zbool.
    - split; [|split; [reflexivity|change (len "") with 0; lia]].
      apply Forall_app. split; [exact Hc|]. repeat constructor; lia.
    - split; [exact Hc|]. split; [exact Hcur|]. lia.
    - split; [exact Hc|]. split; [exact Hcur|]. lia.
    - split; [exact Hc|]. split; [exact Hcur|]. lia. }
  clearbody st1. destruct H1 as (Hc1 & Hcur1 & Hb1). cbv zeta.
  cbn [chunks builder current].
  destruct ((r =? 10) && (m - 512 <? current st1 + len (EncodeRune r))) eqn:E.
  - apply andb_true_iff in E as [_ E]. zbool. unfold splitBound. cbn [chunks builder current].
    split; [|split; [reflexivity|change (len "") with 0; lia]].
    cbn [chunks]. apply Forall_app. split; [exact Hc1|].
    constructor; [|constructor]. rewrite len_app. lia.
  - unfold splitBound. cbn [chunks builder current]. split; [exact Hc1|]. rewrite len_app. lia.
Qed.

Lemma splitBound_fold m rs st :
  4 <= m -> splitBound m st -> splitBound m (fold_left (splitStep m) rs st).
Proof.
  intros Hm. revert st. induction rs as [|r rs IH]; intros st H; cbn [fold_left]; auto.
  apply IH. now apply splitBound_step.
Qed.

Lemma splitTextChunks_upper (text : string) (maxBytes : Z) :
  let budget := if maxBytes <=? 0 then formatterChunkSize else maxBytes in
  4 <= budget ->
  Forall (fun c => len c <= budget) (splitTextChunks text maxBytes)
  /\ forall k c, splitTextChunks text maxBytes !! k = Some c ->
       (S k < length (splitTextChunks text maxBytes))%nat -> budget - 512 < len c.
Proof.
  intros budget Hm. unfold splitTextChunks. fold budget.
  pose proof (splitBound_fold budget (runes text)
                {| chunks := []; builder := ""; current := 0 |} Hm) as H.
  destruct H as (Hc & Hcur & Hb).
  { unfold splitBound. cbn [chunks builder current].
    split; [constructor|]. split; [reflexivity|]. change (len "") with 0. lia. }
  cbv zeta. set (st := fold_left _ _ _) in *.
  split.
  - destruct (0 <? len (builder st)).
    + apply Forall_app. split; [|repeat constructor; exact Hb].
      eapply Forall_impl; [exact Hc|]. cbn. intros; lia.
    + eapply Forall_impl; [exact Hc|]. cbn. intros; lia.
  - intros k c Hk Hlt. rewrite Forall_forall in Hc. apply Hc.
    destruct (0 <? len (builder st)).
    + rewrite length_app in Hlt. cbn in Hlt.
      rewrite lookup_app_l in Hk by lia. eapply list_elem_of_lookup_2, Hk.
    + eapply list_elem_of_lookup_2, Hk.
Qed.

Lemma len_pos_nonempty (c : string) : c <> "" -> 1 <= len c.
Proof.
  intros Hc. pose proof (len_nonneg c). destruct (Z.eq_dec (len c) 0) as [E|]; [|lia].
  apply len_zero in E. contradiction.
Qed.

(** With a budget of at least the four bytes of the longest rune, no chunk
    is empty or longer than the budget, and every chunk but the last is
    longer than the budget less 512 bytes. A budget that is not positive
    stands for [formatterChunkSize]. *)
Theorem splitTextChunks_budget (text : string) (maxBytes : Z) :
  let budget := if maxBytes <=? 0 then formatterChunkSize else maxBytes in
  4 <= budget ->
  Forall (fun c => 1 <= len c <= budget) (splitTextChunks text maxBytes)
  /\ forall k c, splitTextChunks text maxBytes !! k = Some c ->
       (S k < length (splitTextChunks text maxBytes))%nat -> budget - 512 < len c.
Proof.
  intros budget Hm.
  destruct (splitTextChunks_upper text maxBytes Hm) as [Hup Hlow]. fold budget in Hup, Hlow.
  split; [|exact Hlow].
  pose proof (splitTextChunks_nonempty text maxBytes) as Hne.
  rewrite Forall_forall in Hup, Hne |- *. intros c Hin.
  split; [apply len_pos_nonempty, Hne, Hin|apply Hup, Hin].
Qed.

Lemma splitTextChunks_budget_witness :
  Forall (fun c => 1 <= len c <= 4) (splitTextChunks "héllo, 世界" 4).
Proof.
  destruct (splitTextChunks_budget "héllo, 世界" 4) as [H _]; [cbn; lia|exact H].
Defined.

(** ** The chunk size *)

Lemma estimateFormatterChunkSize_cases provider maxTokens :
  let base :=
    if 0 <? maxTokens
    then Z.max minFormatterChunk (Z.min formatterChunkSize (scaledBytes maxTokens))
    else formatterChunkSize in
  estimateFormatterChunkSize provider maxTokens
  = if String.eqb provider translator.ProviderTypeOpenAI
    then Z.max minFormatterChunk (base / 2) else base.
Proof.
  unfold estimateFormatterChunkSize. cbv zeta.
  set (e := scaledBytes maxTokens). clearbody e.
  unfold minFormatterChunk, formatterChunkSize.
  destruct (0 <? maxTokens); destruct (String.eqb provider translator.ProviderTypeOpenAI);
    repeat match goal with
    | |- context [?a <? ?b] =>
        lazymatch a with context [Z.ltb] => fail | _ => idtac end;
        lazymatch b with context [Z.ltb] => fail | _ => idtac end;
        destruct (Z.ltb_spec a b)
    end;
    repeat match goal with
    | H : context [Z.quot ?a 2] |- _ => rewrite (Z.quot_div_nonneg a 2) in H by lia
    | |- context [Z.quot ?a 2] => rewrite (Z.quot_div_nonneg a 2) by lia
    end; Z.div_mod_to_equations; lia.
Qed.




(** ** The provider configuration *)

Lemma NormalizeProviderType_known `{lib : GoLib} (value : string) :
  translator.NormalizeProviderType value
  ∈ [translator.ProviderTypeOpenAI; translator.ProviderTypeGemini;
     translator.ProviderTypeAnthropic].
Proof.
  unfold translator.NormalizeProviderType. cbv zeta.
  repeat match goal with |- context [if ?c then _ else _] => destruct c end;
    set_solver.
Qed.

Lemma SanitizeMaxTokens_pos (val : Z) :
  0 < translator.SanitizeMaxTokens val
  /\ (0 < val -> translator.SanitizeMaxTokens val = val).
Proof.
  unfold translator.SanitizeMaxTokens. destruct (val <=? 0) eqn:E; zbool; lia.
Qed.

(** A configuration that [mergeProviderConfig] returns is usable: its type
    is one of the three known ones, its token budget is positive, its API
    key and its model are not blank, its timeout is not zero. The API key
    is the request's when that is not blank, and otherwise the service's
    default: the task never provides one. A positive token budget or
    timeout of the request is taken as it is. Its only errors are the
    missing key and the missing model. *)
Theorem mergeProviderConfig_usable `{lib : GoLib} (s : TaskService)
    (input : translator.ProviderConfig) (task : option Task.t) :
  (forall cfg, mergeProviderConfig s input task = Ok cfg ->
     translator.Type_ cfg
       ∈ [translator.ProviderTypeOpenAI; translator.ProviderTypeGemini;
          translator.ProviderTypeAnthropic]
     /\ 0 < translator.MaxTokens cfg
     /\ strings_TrimSpace (translator.APIKey cfg) <> ""
     /\ strings_TrimSpace (translator.Model cfg) <> ""
     /\ translator.OptimizeLayout cfg = true
     /\ translator.Timeout cfg <> 0
     /\ translator.APIKey cfg
        = (if String.eqb (strings_TrimSpace (translator.APIKey input)) ""
           then translator.APIKey (defaultProvider s)
           else strings_TrimSpace (translator.APIKey input))
     /\ (0 < translator.MaxTokens input ->
         translator.MaxTokens cfg = translator.MaxTokens input)
     /\ (0 < translator.Timeout input ->
         translator.Timeout cfg = translator.Timeout input))
  /\ (forall e, mergeProviderConfig s input task = Err e ->
        e = ErrMissingAPIKey \/ e = ErrMissingModel).
Proof.
  unfold mergeProviderConfig. cbv zeta.
  destruct (match task with Some _ => _ | None => _ end) as [[[type baseURL] model] maxTokens].
  set (apiKey := if String.eqb (strings_TrimSpace (translator.APIKey input)) "" then _ else _).
  set (model' := if String.eqb (strings_TrimSpace (translator.Model input)) "" then _ else _).
  set (type' := if String.eqb (strings_TrimSpace (translator.Type_ input)) "" then _ else _).
  set (baseURL' := if String.eqb (strings_TrimSpace (translator.BaseURL input)) "" then _ else _).
  clearbody model' type' baseURL'.
  destruct (String.eqb (strings_TrimSpace apiKey) "") eqn:Ek;
    [split; [discriminate|intros e [= <-]; now left]|].
  destruct (String.eqb (strings_TrimSpace model') "") eqn:Em;
    [split; [discriminate|intros e [= <-]; now right]|].
  split; [|discriminate]. intros cfg [= <-]. cbn.
  apply String.eqb_neq in Ek, Em.
  split; [apply NormalizeProviderType_known|].
  split; [apply SanitizeMaxTokens_pos|].
  split; [exact Ek|]. split; [exact Em|]. split; [reflexivity|].
  split.
  { destruct (0 <? translator.Timeout input) eqn:E1; zbool.
    - destruct (translator.Timeout input =? 0) eqn:E2; zbool; [lia|lia].
    - destruct (translator.Timeout (defaultProvider s) =? 0) eqn:E2; zbool;
        [unfold translator.Second; lia|lia]. }
  split; [reflexivity|]. split.
  - intros H. replace (0 <? translator.MaxTokens input) with true
      by (symmetry; apply Z.ltb_lt; lia).
    now apply SanitizeMaxTokens_pos.
  - intros H. replace (0 <? translator.Timeout input) with true
      by (symmetry; apply Z.ltb_lt; lia).
    replace (translator.Timeout input =? 0) with false
      by (symmetry; apply Z.eqb_neq; lia).
    reflexivity.
Qed.

Lemma mergeProviderConfig_usable_witness :
  exists cfg,
    mergeProviderConfig demo_service no_provider None = Ok cfg
    /\ translator.APIKey cfg = "sk-demo"
    /\ 0 < translator.MaxTokens cfg.
Proof.
  destruct (mergeProviderConfig demo_service no_provider None) as [cfg|e] eqn:E;
    [|vm_compute in E; discriminate E].
  exists cfg. split; [reflexivity|].
  destruct (mergeProviderConfig_usable demo_service no_provider None) as [H _].
  destruct (H cfg E) as (_ & Hm & _ & _ & _ & _ & Hk & _).
  split; [exact Hk|exact Hm].
Defined.

(** ** Saving and loading *)



(** ** Creating a task *)



(** ** The worker pool of a new task *)

Lemma initialRange_valid `{lib : GoLib} (total : Z) (settings : TranslationSettings) :
  1 <= total ->
  1 <= (initialRange total settings).1
  /\ (initialRange total settings).1 <= (initialRange total settings).2
  /\ (initialRange total settings).2 <= total.
Proof.
  intros HT. unfold initialRange. cbv zeta.
  destruct (String.eqb _ "custom" && (0 <? RangeCustom settings)) eqn:E1.
  { apply andb_true_iff in E1 as [_ E1]. zbool. cbn [fst snd]. lia. }
  destruct (String.eqb _ "range" && _) eqn:E2; [|cbn [fst snd]; lia].
  apply andb_true_iff in E2 as [_ E2]. apply orb_true_iff in E2.
  cbn [fst snd].
  destruct (RangeStart settings <=? 0) eqn:Es; destruct (RangeEnd settings <=? 0) eqn:Ee;
    zbool; destruct E2 as [E2|E2]; zbool; lia.
Qed.

Lemma omap_imap_indices {A : Type} (keep : A -> bool) (l : list A) (k : nat) :
  let picked := omap (fun ip : nat * A => if keep ip.2 then Some ip.1 else None)
                     (imap (fun idx p => ((k + idx)%nat, p)) l) in
  NoDup picked /\ Forall (fun idx => (k <= idx)%nat) picked.
Proof.
  revert k. induction l as [|x l IH]; intros k; cbn [imap omap].
  - split; constructor.
  - destruct (IH (S k)) as [Hn Hf].
    assert (E : imap ((fun idx p => ((k + idx)%nat, p)) ∘ S) l
                = imap (fun idx p => ((S k + idx)%nat, p)) l).
    { apply imap_ext. intros i y _. cbn. f_equal. lia. }
    rewrite E, Nat.add_0_r. cbn [omap list_omap snd fst]. destruct (keep x).
    + split.
      * constructor; [|exact Hn]. intros Hin. rewrite Forall_forall in Hf.
        specialize (Hf k Hin). lia.
      * constructor; [lia|]. eapply Forall_impl; [exact Hf|]. cbn. intros; lia.
    + split; [exact Hn|]. eapply Forall_impl; [exact Hf|]. cbn. intros; lia.
Qed.

Lemma selectedPages_NoDup (sel : gmap Z bool) (pages : list PageResult.t) :
  NoDup (selectedPages sel pages).
Proof.
  unfold selectedPages.
  pose proof (omap_imap_indices
                (fun p => selected sel (PageResult.PageNumber p)) pages 0) as [H _].
  exact H.
Qed.

Lemma lookup_newPages `{lib : GoLib} (s : TaskService) taskID pagesDir pageID now imagePaths idx p :
  newPages s taskID pagesDir pageID now imagePaths !! idx = Some p ->
  PageResult.PageNumber p = Z.of_nat idx + 1
  /\ PageResult.Status p = PageStatusPending
  /\ PageResult.ID p = pageID idx.
Proof.
  unfold newPages. rewrite list_lookup_imap.
  destruct (imagePaths !! idx) as [img|]; [|discriminate].
  cbn. intros [= <-]. cbn. auto.
Qed.

Lemma lookup_applySelection sel now pages idx p :
  applySelection sel now pages !! idx = Some p ->
  exists p0, pages !! idx = Some p0
    /\ PageResult.PageNumber p = PageResult.PageNumber p0
    /\ PageResult.ID p = PageResult.ID p0
    /\ (if selected sel (PageResult.PageNumber p0) then p = p0 else p = skipPage now p0).
Proof.
  unfold applySelection. rewrite list_lookup_fmap.
  destruct (pages !! idx) as [p0|]; [|discriminate].
  cbn. intros [= <-]. exists p0. split; [reflexivity|].
  destruct (selected sel (PageResult.PageNumber p0)); auto.
Qed.

(** In a service that [NewTaskService] built, every task that [CreateTask]
    creates gets a worker pool over that task, with at least one page to
    translate: the pending pages, each once. The pool has at least one
    worker, and no more workers than the service allows, than there are
    pages to translate, or than a positive batch limit. *)
Theorem CreateTask_starts_pool `{lib : GoLib}
    (storage prefix font : string) (provider : translator.ProviderConfig) (workers : Z)
    (w0 w1 : World) (s : TaskService)
    (up : Upload) (w w' : World) (task : Task.t) (pool : option Pool) :
  NewTaskService storage prefix font provider workers w0 = (Ok s, w1) ->
  CreateTask s up w = (Ok (task, pool), w') ->
  maxWorkers s = Z.max 1 workers
  /\ exists pl,
       pool = Some pl
       /\ pool_task pl = task
       /\ pool_jobs pl <> []
       /\ NoDup (pool_jobs pl)
       /\ (forall idx, idx ∈ pool_jobs pl <->
             exists p, Task.Pages task !! idx = Some p
                       /\ PageResult.Status p = PageStatusPending)
       /\ 1 <= pool_workers pl <= maxWorkers s
       /\ pool_workers pl <= Z.of_nat (length (pool_jobs pl))
       /\ (0 < BatchLimit (upload_settings up) ->
           pool_workers pl <= BatchLimit (upload_settings up)).
Proof.
  intros Hnew Hc.
  assert (Hmax : maxWorkers s = Z.max 1 workers).
  { revert Hnew. unfold NewTaskService, bind, mkdirAll, ret. cbv beta iota zeta.
    destruct (writeError w0); [discriminate|]. intros [= <- _]. cbn [maxWorkers].
    destruct (workers <=? 0) eqn:E; zbool; lia. }
  split; [exact Hmax|].
  destruct (CreateTask_ok s up w w' task pool Hc)
    as (imagePaths & pagesDir & Hne & _ & _ & _ & Hpages & _ & _ & _ & _ & Hpool & _).
  set (T := Z.of_nat (length imagePaths)) in *.
  set (sel := determineInitialPageSet T (upload_settings up)) in *.
  assert (HT : 1 <= T) by (subst T; destruct imagePaths; [congruence|cbn; lia]).
  assert (Hjob : forall idx, idx ∈ selectedPages sel (Task.Pages task) <->
            exists p, Task.Pages task !! idx = Some p
                      /\ PageResult.Status p = PageStatusPending).
  { intros idx. rewrite selectedPages_elem. split.
    - intros (p & Hp & Hs). exists p. split; [exact Hp|].
      rewrite Hpages in Hp. apply lookup_applySelection in Hp
        as (p0 & Hp0 & Hn & _ & Hsel). rewrite <- Hn in Hsel. rewrite Hs in Hsel. subst p0.
      now apply lookup_newPages in Hp0.
    - intros (p & Hp & Hs). exists p. split; [exact Hp|].
      rewrite Hpages in Hp. apply lookup_applySelection in Hp
        as (p0 & Hp0 & Hn & _ & Hsel). rewrite <- Hn in Hsel.
      destruct (selected sel (PageResult.PageNumber p)); [reflexivity|].
      subst p. cbn in Hs. discriminate Hs. }
  assert (Hsome : selectedPages sel (Task.Pages task) <> []).
  { destruct (initialRange_valid T (upload_settings up) HT) as (H1 & H2 & H3).
    set (lo := (initialRange T (upload_settings up)).1) in *.
    assert (Hlt : (Z.to_nat (lo - 1) < length (Task.Pages task))%nat).
    { rewrite Hpages, length_applySelection, length_newPages. subst T. lia. }
    destruct (lookup_lt_is_Some_2 _ _ Hlt) as [p Hp].
    assert (Hin : Z.to_nat (lo - 1) ∈ selectedPages sel (Task.Pages task)).
    { apply selectedPages_elem. exists p. split; [exact Hp|].
      rewrite Hpages in Hp. apply lookup_applySelection in Hp as (p0 & Hp0 & Hn & _).
      apply lookup_newPages in Hp0 as (Hn0 & _). rewrite Hn, Hn0.
      apply (determineInitialPageSet_range T (upload_settings up) _ HT). fold lo. lia. }
    intros E. rewrite E in Hin. now apply elem_of_nil in Hin. }
  revert Hpool. fold sel. unfold translateTaskPages, workerCount.
  set (jobs := selectedPages sel (Task.Pages task)) in *.
  assert (Hlen : (0 < length jobs)%nat) by (destruct jobs; [congruence|cbn; lia]).
  destruct (Nat.eqb (length jobs) 0) eqn:E0; [apply Nat.eqb_eq in E0; lia|].
  cbv zeta.
  set (limit := BatchLimit (upload_settings up)).
  set (n := if Z.of_nat (length jobs) <? _ then _ else _).
  assert (Hn : 1 <= n <= maxWorkers s /\ n <= Z.of_nat (length jobs)
               /\ (0 < limit -> n <= limit)).
  { subst n. destruct ((0 <? limit) && (limit <? maxWorkers s)) eqn:E1.
    - apply andb_true_iff in E1 as [E1 E2]. zbool.
      destruct (Z.of_nat (length jobs) <? limit) eqn:E3; zbool; lia.
    - destruct (Z.of_nat (length jobs) <? maxWorkers s) eqn:E3; zbool;
        apply andb_false_iff in E1; destruct E1; zbool; lia. }
  clearbody n. destruct (n =? 0) eqn:En; zbool; [lia|].
  intros ->. eexists. split; [reflexivity|]. cbn [pool_task pool_jobs pool_workers].
  split; [reflexivity|]. split; [exact Hsome|]. split; [apply selectedPages_NoDup|].
  split; [exact Hjob|]. tauto.
Qed.

Lemma CreateTask_starts_pool_witness :
  exists s task pl w',
    NewTaskService "storage" "/pdf-data" "" (defaultProvider demo_service) 0 demo_world
      = (Ok s, demo_world)
    /\ CreateTask s demo_upload demo_world = (Ok (task, Some pl), w')
    /\ maxWorkers s = 1
    /\ pool_workers pl = 1
    /\ pool_jobs pl <> [].
Proof.
  destruct (NewTaskService "storage" "/pdf-data" "" (defaultProvider demo_service) 0
              demo_world) as [[s|e] w1] eqn:En; [|vm_compute in En; discriminate En].
  assert (Hw : w1 = demo_world) by (vm_compute in En; injection En as _ <-; reflexivity).
  subst w1.
  destruct (CreateTask s demo_upload demo_world) as [[[task pool]|e] w'] eqn:Ec;
    [|vm_compute in En; injection En as <-; vm_compute in Ec; discriminate Ec].
  destruct (CreateTask_starts_pool _ _ _ _ _ _ _ s demo_upload demo_world w' task pool En Ec)
    as (Hm & pl & -> & _ & Hj & _ & _ & Hn & _).
  exists s, task, pl, w'. split; [reflexivity|]. split; [exact Ec|].
  change (Z.max 1 0) with 1 in Hm. split; [exact Hm|]. split; [lia|exact Hj].
Defined.

(** ** Summaries *)

Lemma countStatus_cons status p pages :
  countStatus status (p :: pages)
  = (if String.eqb (PageResult.Status p) status then 1 else 0) + countStatus status pages.
Proof.
  unfold countStatus. rewrite filter_cons.
  destruct (decide (PageResult.Status p = status)) as [E|E].
  - apply String.eqb_eq in E. rewrite E. cbn [length]. lia.
  - apply String.eqb_neq in E. rewrite E. lia.
Qed.

Lemma countStatus_nil status : countStatus status [] = 0.
Proof. reflexivity. Qed.

Lemma countStatus_range status pages :
  0 <= countStatus status pages <= Z.of_nat (length pages).
Proof.
  unfold countStatus. pose proof (length_filter (fun p => PageResult.Status p = status) pages).
  lia.
Qed.

Lemma fold_countPage pages c p f :
  fold_left countPage pages (c, p, f)
  = (c + countStatus PageStatusCompleted pages,
     p + (Z.of_nat (length pages) - countStatus PageStatusCompleted pages
          - countStatus PageStatusError pages),
     f + countStatus PageStatusError pages).
Proof.
  revert c p f. induction pages as [|x pages IH]; intros c p f.
  - cbn [fold_left length]. rewrite !countStatus_nil.
    (apply (f_equal2 pair); [apply (f_equal2 pair)|]); lia.
  - cbn [fold_left]. rewrite !countStatus_cons. unfold countPage at 2.
    destruct (String.eqb (PageResult.Status x) PageStatusCompleted) eqn:E1.
    + apply String.eqb_eq in E1. rewrite E1.
      change (String.eqb PageStatusCompleted PageStatusError) with false.
      cbv beta iota zeta. rewrite IH. cbn [length]. (apply (f_equal2 pair); [apply (f_equal2 pair)|]); lia.
    + destruct (String.eqb (PageResult.Status x) PageStatusError) eqn:E2;
        cbv beta iota zeta; rewrite IH; cbn [length]; (apply (f_equal2 pair); [apply (f_equal2 pair)|]); lia.
Qed.

(** The three counts of a summary divide the pages of the task among them:
    the completed pages, the pages in error, and every other page counted
    as pending; they are not negative and add up to the number of pages. *)
Theorem summarizeTask_counts (task : Task.t) :
  let summary := summarizeTask task in
  TaskSummary.CompletedPages summary = countStatus PageStatusCompleted (Task.Pages task)
  /\ TaskSummary.ErrorPages summary = countStatus PageStatusError (Task.Pages task)
  /\ countStatus PageStatusPending (Task.Pages task) <= TaskSummary.PendingPages summary
  /\ 0 <= TaskSummary.PendingPages summary
  /\ TaskSummary.CompletedPages summary + TaskSummary.PendingPages summary
     + TaskSummary.ErrorPages summary = Z.of_nat (length (Task.Pages task))
  /\ TaskSummary.ID summary = Task.ID task
  /\ TaskSummary.TotalPages summary = Task.TotalPages task.
Proof.
  unfold summarizeTask. rewrite fold_countPage. cbv beta iota zeta.
  cbn [TaskSummary.CompletedPages TaskSummary.ErrorPages TaskSummary.PendingPages
       TaskSummary.ID TaskSummary.TotalPages].
  pose proof (countStatus_range PageStatusCompleted (Task.Pages task)).
  pose proof (countStatus_range PageStatusError (Task.Pages task)).
  assert (countStatus PageStatusCompleted (Task.Pages task)
          + countStatus PageStatusError (Task.Pages task)
          + countStatus PageStatusPending (Task.Pages task)
          <= Z.of_nat (length (Task.Pages task))).
  { clear. induction (Task.Pages task) as [|x l IH]; [rewrite !countStatus_nil; cbn; lia|].
    rewrite !countStatus_cons. cbn [length].
    pose proof (countStatus_range PageStatusCompleted l).
    pose proof (countStatus_range PageStatusError l).
    destruct (String.eqb (PageResult.Status x) PageStatusCompleted) eqn:E1;
      [apply String.eqb_eq in E1; rewrite E1;
       change (String.eqb PageStatusCompleted PageStatusError) with false;
       change (String.eqb PageStatusCompleted PageStatusPending) with false; lia|].
    destruct (String.eqb (PageResult.Status x) PageStatusError) eqn:E2;
      [apply String.eqb_eq in E2; rewrite E2;
       change (String.eqb PageStatusError PageStatusPending) with false; lia|].
    destruct (String.eqb (PageResult.Status x) PageStatusPending); lia. }
  pose proof (countStatus_range PageStatusPending (Task.Pages task)).
  repeat split; lia.
Qed.

Lemma length_filter_index {A : Type} (P : A -> Prop) `{!forall x, Decision (P x)}
    (Q : nat -> Prop) `{!forall i, Decision (Q i)} (l : list A) (k : nat) :
  (forall i x, l !! i = Some x -> (P x <-> Q (k + i)%nat)) ->
  length (filter P l) = length (filter Q (seq k (length l))).
Proof.
  revert k. induction l as [|x l IH]; intros k Hall; [reflexivity|].
  cbn [length seq]. rewrite !filter_cons.
  assert (Hx : P x <-> Q k) by (rewrite (Hall 0%nat x eq_refl); now rewrite Nat.add_0_r).
  assert (Hl : length (filter P l) = length (filter Q (seq (S k) (length l)))).
  { apply IH. intros i y Hy. rewrite (Hall (S i) y Hy). now rewrite Nat.add_succ_r. }
  destruct (decide (P x)), (decide (Q k)); cbn [length]; tauto || congruence.
Qed.

Lemma count_page_range (lo hi : Z) (n : nat) :
  1 <= lo ->
  Z.of_nat (length (filter (fun i : nat => lo <= Z.of_nat i + 1 <= hi) (seq 0 n)))
  = Z.max 0 (Z.min hi (Z.of_nat n) - lo + 1).
Proof.
  intros Hlo. induction n as [|n IH]; [cbn; lia|].
  rewrite seq_S, filter_app, length_app, Nat2Z.inj_add, IH. cbn [Nat.add].
  rewrite filter_cons, filter_nil.
  destruct (decide (lo <= Z.of_nat n + 1 <= hi)); cbn [length]; lia.
Qed.

Lemma countStatus_none status pages :
  Forall (fun p => PageResult.Status p <> status) pages -> countStatus status pages = 0.
Proof.
  induction 1 as [|x l Hx _ IH]; [reflexivity|].
  rewrite countStatus_cons, IH. apply String.eqb_neq in Hx. rewrite Hx. lia.
Qed.

Lemma countStatus_two pages :
  Forall (fun p => PageResult.Status p = PageStatusPending
                   \/ PageResult.Status p = PageStatusCompleted) pages ->
  countStatus PageStatusPending pages + countStatus PageStatusCompleted pages
  = Z.of_nat (length pages).
Proof.
  induction 1 as [|x l Hx _ IH]; [reflexivity|].
  rewrite !countStatus_cons. cbn [length]. destruct Hx as [E|E]; rewrite E.
  - change (String.eqb PageStatusPending PageStatusPending) with true.
    change (String.eqb PageStatusPending PageStatusCompleted) with false. lia.
  - change (String.eqb PageStatusCompleted PageStatusPending) with false.
    change (String.eqb PageStatusCompleted PageStatusCompleted) with true. lia.
Qed.

(** The summary of a task that has just been created: as many pending
    pages as the initial range holds, every other page completed, none in
    error. *)
Theorem CreateTask_summary `{lib : GoLib} (s : TaskService) (up : Upload)
    (w w' : World) (task : Task.t) (pool : option Pool) :
  CreateTask s up w = (Ok (task, pool), w') ->
  let summary := summarizeTask task in
  let range := initialRange (Task.TotalPages task) (upload_settings up) in
  TaskSummary.PendingPages summary = range.2 - range.1 + 1
  /\ TaskSummary.CompletedPages summary
     = Task.TotalPages task - (range.2 - range.1 + 1)
  /\ TaskSummary.ErrorPages summary = 0
  /\ TaskSummary.TotalPages summary = Z.of_nat (length (Task.Pages task)).
Proof.
  intros Hc summary range.
  destruct (CreateTask_ok s up w w' task pool Hc)
    as (imagePaths & pagesDir & Hne & _ & _ & HT & Hpages & _).
  assert (HT1 : 1 <= Task.TotalPages task)
    by (rewrite HT; destruct imagePaths; [congruence|cbn; lia]).
  assert (Hlen : Z.of_nat (length (Task.Pages task)) = Task.TotalPages task)
    by (rewrite Hpages, length_applySelection, length_newPages; now rewrite HT).
  destruct (initialRange_valid (Task.TotalPages task) (upload_settings up) HT1)
    as (H1 & H2 & H3). fold range in H1, H2, H3.
  assert (Hpage : forall i p, Task.Pages task !! i = Some p ->
            (PageResult.Status p = PageStatusPending
             <-> range.1 <= Z.of_nat (0 + i) + 1 <= range.2)
            /\ (PageResult.Status p = PageStatusPending
                \/ PageResult.Status p = PageStatusCompleted)).
  { intros i p Hp. rewrite Hpages in Hp.
    apply lookup_applySelection in Hp as (p0 & Hp0 & Hn & _ & Hsel).
    apply lookup_newPages in Hp0 as (Hn0 & Hs0 & _).
    pose proof (determineInitialPageSet_range (Task.TotalPages task) (upload_settings up)
                  (PageResult.PageNumber p0) HT1) as Hr.
    fold range in Hr. rewrite <- HT in Hsel. cbn [Nat.add]. rewrite <- Hn0.
    destruct (selected _ (PageResult.PageNumber p0)).
    - rewrite Hsel. split; [|left; exact Hs0].
      split; [intros _; now apply Hr|intros _; exact Hs0].
    - rewrite Hsel. split; [|right; reflexivity]. split; [cbn; discriminate|].
      intros Hin. apply Hr in Hin. discriminate Hin. }
  assert (Hpend : countStatus PageStatusPending (Task.Pages task) = range.2 - range.1 + 1).
  { unfold countStatus.
    rewrite (length_filter_index _ (fun i : nat => range.1 <= Z.of_nat i + 1 <= range.2) _ 0)
      by (intros i p Hp; apply (Hpage i p Hp)).
    rewrite count_page_range by lia. lia. }
  assert (Htwo : countStatus PageStatusPending (Task.Pages task)
                 + countStatus PageStatusCompleted (Task.Pages task)
                 = Z.of_nat (length (Task.Pages task))).
  { apply countStatus_two. apply Forall_lookup. intros i p Hp. apply (Hpage i p Hp). }
  assert (Herr : countStatus PageStatusError (Task.Pages task) = 0).
  { apply countStatus_none. apply Forall_lookup. intros i p Hp.
    destruct (Hpage i p Hp) as [_ [E|E]]; rewrite E; discriminate. }
  subst summary. unfold summarizeTask. rewrite fold_countPage. cbv beta iota zeta.
  cbn [TaskSummary.CompletedPages TaskSummary.ErrorPages TaskSummary.PendingPages
       TaskSummary.TotalPages].
  repeat split; lia.
Qed.

Lemma CreateTask_summary_witness :
  exists task pool w',
    CreateTask demo_service demo_upload demo_world = (Ok (task, pool), w')
    /\ TaskSummary.PendingPages (summarizeTask task) = 3
    /\ TaskSummary.CompletedPages (summarizeTask task) = 2
    /\ TaskSummary.ErrorPages (summarizeTask task) = 0.
Proof.
  destruct (CreateTask demo_service demo_upload demo_world) as [[[task pool]|e] w'] eqn:E;
    [|vm_compute in E; discriminate E].
  exists task, pool, w'. split; [reflexivity|].
  destruct (CreateTask_summary demo_service demo_upload demo_world w' task pool E)
    as (Hp & Hc & He & _).
  assert (HT : Task.TotalPages task = 5)
    by (vm_compute in E; injection E as <- _ _; reflexivity).
  rewrite HT in Hp, Hc.
  change (initialRange 5 (upload_settings demo_upload)) with (1, 3) in Hp, Hc.
  cbn [fst snd] in Hp, Hc. split; [rewrite Hp; reflexivity|].
  split; [rewrite Hc; reflexivity|exact He].
Defined.

(** ** The text export *)

Lemma pageSection_cons `{lib : GoLib} p : exists a t, pageSection p = String a t.
Proof. unfold pageSection. rewrite !str_app_cons. eauto. Qed.

Lemma fold_sections `{lib : GoLib} (pages : list PageResult.t) (builder0 : string) :
  fold_left
    (fun builder page =>
       if negb (PageResult.HasText page) then builder
       else
         let text := strings_TrimSpace (PageResult.Translation page) in
         if String.eqb text "" then builder
         else builder ++ ("第" ++ pretty (PageResult.PageNumber page) ++ "页" ++ LF)
                      ++ text ++ (LF ++ LF))
    pages builder0
  = (builder0 ++ cat (map pageSection (filter (fun p => printable p = true) pages)))%string.
Proof.
  revert builder0. induction pages as [|p pages IH]; intros builder0; cbn [fold_left].
  - rewrite filter_nil. cbn. now rewrite str_app_nil_r.
  - rewrite IH, filter_cons. destruct (decide (printable p = true)) as [E|E];
      unfold printable in E.
    + apply andb_true_iff in E as [E1 E2]. apply negb_true_iff in E2.
      rewrite E1. cbn [negb]. cbv zeta. rewrite E2.
      cbn [map]. unfold cat at 2. cbn [fold_right].
      fold (cat (map pageSection (filter (fun p0 => printable p0 = true) pages))).
      unfold pageSection at 2. now rewrite !str_app_assoc.
    + apply not_true_is_false, andb_false_iff in E. destruct E as [E|E].
      * rewrite E. reflexivity.
      * apply negb_false_iff in E. cbv zeta. rewrite E.
        destruct (PageResult.HasText p); reflexivity.
Qed.

(** The combined text is made of the sections of the pages that have a
    text and a translation that is not blank, in the order of the pages;
    when no page is such, there is no text but the error. *)
Theorem buildCombinedText_sections `{lib : GoLib} (task : Task.t) :
  buildCombinedText task
  = match filter (fun p => printable p = true) (Task.Pages task) with
    | [] => Err ErrNoTranslatedText
    | printed => Ok (cat (map pageSection printed))
    end.
Proof.
  unfold buildCombinedText. cbv zeta. rewrite fold_sections, str_app_nil_l.
  destruct (filter _ (Task.Pages task)) as [|p printed]; [reflexivity|].
  cbn [map cat fold_right]. destruct (pageSection_cons p) as (a & t & ->).
  rewrite str_app_cons. reflexivity.
Qed.

Lemma setCombinedTxt_ID path url k : Task.ID (setCombinedTxt path url k) = Task.ID k.
Proof. reflexivity. Qed.

(** [MergeText] on a stored task. Without a page to print it fails and
    leaves the machine as it was. Otherwise, the disk willing, it writes
    the combined text to combined.txt, records the path and the URL of
    that file in the task and saves it: the pages and every other field
    but the time stamp stay as they were stored. *)
Theorem MergeText_effect `{lib : GoLib} (s : TaskService) (taskID : string)
    (task : Task.t) (w : World) :
  metas w !! metaPath s taskID = Some (Task.toJSON task) ->
  match buildCombinedText task with
  | Err e => MergeText s taskID w = (Err e, w)
  | Ok text =>
      writeError w = None ->
      let path := filepath_Join [taskDir s (Task.ID task); "combined.txt"] in
      let url := buildFileURL s (Task.ID task) ["combined.txt"] in
      let task' := Task.set_UpdatedAt (clock w) (setCombinedTxt path url task) in
      MergeText s taskID w
      = (Ok (task', url),
         mkWorld (<[metaPath s (Task.ID task) := Task.toJSON task']> (metas w))
           (<[path := text]> (files w)) (clock w) None)
      /\ Task.Pages task' = Task.Pages task
      /\ Task.FormattedByAI task' = Task.FormattedByAI task
      /\ Task.FormattingInProgress task' = Task.FormattingInProgress task
  end.
Proof.
  intros Hm. unfold MergeText, bind. rewrite (loadTask_stored s taskID task w Hm).
  destruct (buildCombinedText task) as [text|e]; [|reflexivity].
  intros Hw. cbv zeta. unfold writeFile. rewrite Hw. cbv beta iota.
  unfold saveTask.
  match goal with |- context [saveTaskLocked s ?t ?w1] =>
    rewrite (saveTaskLocked_ok s t w1 eq_refl)
  end.
  cbn [fst snd metas files clock writeError]. unfold ret.
  rewrite setCombinedTxt_ID. split; [reflexivity|]. destruct task; auto.
Qed.

Lemma MergeText_effect_witness :
  exists task w',
    MergeText demo_service "t1" demo_machine = (Ok (task, "/pdf-data/t1/combined.txt"), w')
    /\ files w' !! "storage/t1/combined.txt"
       = Some ("第1页" ++ LF ++ "Bonjour" ++ LF ++ LF)
    /\ Task.Pages task = Task.Pages demo_task.
Proof.
  pose proof (MergeText_effect demo_service "t1" demo_task demo_machine) as H.
  destruct (buildCombinedText demo_task) as [text|e] eqn:E; [|vm_compute in E; discriminate E].
  destruct H as (H1 & H2 & _); [apply lookup_insert_eq|reflexivity|].
  eexists _, _. split; [exact H1|]. split; [|exact H2].
  vm_compute in E. injection E as <-. vm_compute. reflexivity.
Defined.

(** ** A translated page and its text file *)



(** ** Retranslating a page *)

Lemma indexByNumber_Some n pages i :
  indexByNumber n pages = Some i <->
  exists p, pages !! i = Some p /\ PageResult.PageNumber p = n
            /\ forall j q, pages !! j = Some q -> (j < i)%nat -> PageResult.PageNumber q <> n.
Proof.
  unfold indexByNumber. split.
  - destruct (list_find _ pages) as [[i' p]|] eqn:E; [|discriminate].
    cbn. intros [= <-]. apply list_find_Some in E. exists p. exact E.
  - intros (p & H1 & H2 & H3).
    assert (E : list_find (fun page => PageResult.PageNumber page = n) pages = Some (i, p))
      by (apply list_find_Some; auto).
    now rewrite E.
Qed.

Lemma indexByNumber_insert n pages i p' :
  indexByNumber n pages = Some i -> PageResult.PageNumber p' = n ->
  list_find (fun page => PageResult.PageNumber page = n) (<[i := p']> pages) = Some (i, p').
Proof.
  intros Hi Hn. apply indexByNumber_Some in Hi as (p & H1 & H2 & H3).
  apply list_find_Some. split; [|split; [exact Hn|]].
  - apply list_lookup_insert_eq. eapply lookup_lt_Some, H1.
  - intros j q Hj Hlt. rewrite list_lookup_insert_ne in Hj by lia. eauto.
Qed.

Lemma stamp_withPage now now' task i p :
  Task.set_UpdatedAt now (withPage (Task.set_UpdatedAt now' task) i p)
  = Task.set_UpdatedAt now (withPage task i p).
Proof. destruct task; reflexivity. Qed.

(** [RetranslatePage] asked for a page number the task does not have
    fails with that, after it has recorded the provider of the request in
    meta.json. *)
Theorem RetranslatePage_missing_page `{lib : GoLib} (s : TaskService) (taskID : string)
    (pageNumber : Z) (provider cfg : translator.ProviderConfig) (translated : Translated)
    (current : Task.t) (w : World) :
  metas w !! metaPath s taskID = Some (Task.toJSON current) ->
  mergeProviderConfig s provider (Some current) = Ok cfg ->
  writeError w = None ->
  indexByNumber pageNumber (Task.Pages current) = None ->
  RetranslatePage s taskID pageNumber provider translated w
  = (Err (ErrPageNotFound pageNumber),
     mkWorld
       (<[metaPath s (Task.ID current) :=
            Task.toJSON (Task.set_UpdatedAt (clock w)
                           (Task.set_Provider (providerInfo cfg) current))]> (metas w))
       (files w) (clock w) None).
Proof.
  intros Hm Hcfg Hw Hidx. unfold RetranslatePage, RetranslatePage_prepare, bind.
  rewrite (loadTask_stored s taskID current w Hm), Hcfg. unfold saveTask.
  match goal with |- context [saveTaskLocked s ?t ?w1] =>
    rewrite (saveTaskLocked_ok s t w1 Hw)
  end.
  cbn [fst snd]. rewrite stamp_Pages.
  replace (Task.Pages (Task.set_Provider (providerInfo cfg) current))
    with (Task.Pages current) by (destruct current; reflexivity).
  rewrite Hidx. unfold ret. rewrite Hw.
  replace (Task.ID (Task.set_Provider (providerInfo cfg) current))
    with (Task.ID current) by (destruct current; reflexivity).
  reflexivity.
Qed.

Lemma RetranslatePage_missing_page_witness :
  exists w',
    RetranslatePage demo_service "t1" 9 no_provider (inl "translator: request failed")
      demo_machine = (Err (ErrPageNotFound 9), w')
    /\ files w' = files demo_machine.
Proof.
  destruct (mergeProviderConfig demo_service no_provider (Some demo_task)) as [cfg|e] eqn:Ec;
    [|vm_compute in Ec; discriminate Ec].
  eexists. split.
  - apply (RetranslatePage_missing_page demo_service "t1" 9 no_provider cfg
             (inl "translator: request failed") demo_task demo_machine).
    + apply lookup_insert_eq.
    + exact Ec.
    + reflexivity.
    + vm_compute. reflexivity.
  - reflexivity.
Defined.

Lemma translateSinglePage_merged `{lib : GoLib} (s : TaskService) (task : Task.t) (i : nat)
    (p : PageResult.t) (translated : Translated) (w : World) :
  Task.Pages task !! i = Some p ->
  writeError w = None ->
  metas w !! metaPath s (Task.ID task) = Some (Task.toJSON task) ->
  indexByID (PageResult.ID p) (Task.Pages task) = Some i ->
  exists p' t' f,
    retranslated translated p p'
    /\ translateSinglePage s task i translated true w
       = ((t', None),
          mkWorld (<[metaPath s (Task.ID task) :=
                       Task.toJSON (Task.set_UpdatedAt (clock w) (withPage task i p'))]>
                     (metas w)) f (clock w) None).
Proof.
  intros Hp Hw Hm Hid.
  assert (Hmerge : forall p' w1,
            PageResult.ID p' = PageResult.ID p ->
            metas w1 = metas w -> clock w1 = clock w -> writeError w1 = None ->
            persistPageUpdate s (withPage task i p') i true w1
            = ((withPage task i p', None),
               mkWorld (<[metaPath s (Task.ID task) :=
                            Task.toJSON (Task.set_UpdatedAt (clock w) (withPage task i p'))]>
                          (metas w)) (files w1) (clock w) None)).
  { intros p' w1 Hid' Hm1 Hc1 Hw1. unfold persistPageUpdate. cbn [negb]. unfold bind.
    rewrite withPage_ID.
    rewrite (loadTask_stored s (Task.ID task) task w1) by (rewrite Hm1; exact Hm).
    rewrite withPage_lookup by eauto. rewrite Hid', Hid. unfold saveTask.
    match goal with |- context [saveTaskLocked s ?t ?w'] =>
      rewrite (saveTaskLocked_ok s t w' Hw1)
    end.
    unfold ret. cbn [fst snd]. rewrite Hm1, Hc1, Hw1. reflexivity. }
  unfold translateSinglePage. rewrite Hp. destruct translated as [msg|result].
  - unfold bind, time_Now. unfold saveTask.
    match goal with |- context [saveTaskLocked s ?t ?w'] =>
      rewrite (saveTaskLocked_ok s t w' Hw)
    end.
    rewrite withPage_ID, Hw.
    eexists _, _, _. split; [|reflexivity].
    unfold retranslated. cbn. repeat split; reflexivity.
  - cbv zeta. cbn [PageResult.HasText PageResult.Translation PageResult.set_Error
                   PageResult.set_Translation PageResult.set_SourceText PageResult.set_HasText
                   PageResult.TextPath].
    destruct (translator.HasText result && _).
    + unfold bind at 1. unfold writeFile. rewrite Hw. cbv beta iota. unfold bind, time_Now.
      cbn [clock].
      match goal with |- context [persistPageUpdate s (withPage task i ?q) i true ?w1] =>
        rewrite (Hmerge q w1 eq_refl eq_refl eq_refl eq_refl); exists q
      end.
      eexists _, _. split; [|reflexivity].
      unfold retranslated. cbn. repeat split; reflexivity.
    + unfold bind at 1. unfold removeFile. cbv beta iota. unfold bind, time_Now.
      cbn [clock].
      match goal with |- context [persistPageUpdate s (withPage task i ?q) i true ?w1] =>
        rewrite (Hmerge q w1 eq_refl eq_refl eq_refl Hw); exists q
      end.
      eexists _, _. split; [|reflexivity].
      unfold retranslated. cbn. repeat split; reflexivity.
Qed.

(** [RetranslatePage] on a stored task that has the page, whose id is the
    first of its kind among the pages: whatever the provider answers, the
    call succeeds and returns the task as meta.json then holds it, with
    the page it made of the target. In that task the target page is
    replaced, the provider is the one resolved for the request and the
    time stamp is new; every other page and every other field is as it was
    stored. An error of the provider is reported in the page, not by the
    call. *)
Theorem RetranslatePage_frame `{lib : GoLib} (s : TaskService) (pageNumber : Z)
    (provider cfg : translator.ProviderConfig) (translated : Translated)
    (current : Task.t) (i : nat) (p : PageResult.t) (w : World) :
  metas w !! metaPath s (Task.ID current) = Some (Task.toJSON current) ->
  mergeProviderConfig s provider (Some current) = Ok cfg ->
  writeError w = None ->
  indexByNumber pageNumber (Task.Pages current) = Some i ->
  Task.Pages current !! i = Some p ->
  indexByID (PageResult.ID p) (Task.Pages current) = Some i ->
  exists p' w',
    let updated :=
      Task.set_UpdatedAt (clock w)
        (withPage (Task.set_Provider (providerInfo cfg) current) i p') in
    RetranslatePage s (Task.ID current) pageNumber provider translated w
    = (Ok (updated, Some p'), w')
    /\ metas w' = <[metaPath s (Task.ID current) := Task.toJSON updated]> (metas w)
    /\ retranslated translated p p'
    /\ Task.Pages updated = <[i := p']> (Task.Pages current).
Proof.
  intros Hm Hcfg Hw Hidx Hp Hid.
  set (prepared := Task.set_UpdatedAt (clock w)
                     (Task.set_Provider (providerInfo cfg) current)).
  set (w1 := mkWorld (<[metaPath s (Task.ID current) := Task.toJSON prepared]> (metas w))
               (files w) (clock w) None).
  assert (Hprep : RetranslatePage_prepare s (Task.ID current) pageNumber provider w
                  = (Ok (prepared, i), w1)).
  { unfold RetranslatePage_prepare, bind.
    rewrite (loadTask_stored s (Task.ID current) current w Hm), Hcfg. unfold saveTask.
    match goal with |- context [saveTaskLocked s ?t ?w'] =>
      rewrite (saveTaskLocked_ok s t w' Hw)
    end.
    cbn [fst snd]. fold prepared.
    replace (Task.Pages prepared) with (Task.Pages current)
      by (destruct current; reflexivity).
    rewrite Hidx. unfold ret. rewrite Hw.
    replace (Task.ID (Task.set_Provider (providerInfo cfg) current))
      with (Task.ID current) by (destruct current; reflexivity).
    reflexivity. }
  assert (Hpid : Task.ID prepared = Task.ID current) by (destruct current; reflexivity).
  assert (Hpp : Task.Pages prepared = Task.Pages current) by (destruct current; reflexivity).
  destruct (translateSinglePage_merged s prepared i p translated w1)
    as (p' & t2 & f2 & Hre & Et).
  { now rewrite Hpp. }
  { reflexivity. }
  { rewrite Hpid. cbn [metas]. apply lookup_insert_eq. }
  { now rewrite Hpp. }
  exists p', (translateSinglePage s prepared i translated true w1).2. cbv zeta.
  unfold RetranslatePage, bind. rewrite Hprep. unfold RetranslatePage_finish, bind.
  rewrite Et. cbn [fst snd].
  set (w2 := mkWorld _ f2 _ None).
  assert (Hmetas : metas w2
                   = <[metaPath s (Task.ID current) :=
                         Task.toJSON (Task.set_UpdatedAt (clock w) (withPage prepared i p'))]>
                       (metas w)).
  { subst w2 w1. cbn [metas clock]. rewrite Hpid. apply insert_insert_eq. }
  clearbody w2.
  assert (Hup : Task.set_UpdatedAt (clock w) (withPage prepared i p')
                = Task.set_UpdatedAt (clock w)
                    (withPage (Task.set_Provider (providerInfo cfg) current) i p'))
    by apply stamp_withPage.
  rewrite Hup in Hmetas.
  rewrite (loadTask_stored s (Task.ID current) _ w2)
    by (rewrite Hmetas; apply lookup_insert_eq).
  unfold ret. rewrite stamp_Pages.
  assert (Hpages : Task.Pages (withPage (Task.set_Provider (providerInfo cfg) current) i p')
                   = <[i := p']> (Task.Pages current)) by (destruct current; reflexivity).
  rewrite Hpages.
  rewrite (indexByNumber_insert pageNumber (Task.Pages current) i p' Hidx).
  2:{ destruct Hre as (_ & Hn & _). rewrite Hn.
      apply indexByNumber_Some in Hidx as (q & Hq & Hqn & _). congruence. }
  cbn [fmap option_fmap option_map snd]. split; [reflexivity|].
  split; [exact Hmetas|]. split; [exact Hre|reflexivity].
Qed.

Lemma RetranslatePage_frame_witness :
  exists p' updated w',
    RetranslatePage demo_service "t1" 1 no_provider (inl "translator: request failed")
      demo_machine = (Ok (updated, Some p'), w')
    /\ PageResult.Status p' = PageStatusError
    /\ PageResult.Translation p' = "Bonjour"
    /\ length (Task.Pages updated) = 5%nat.
Proof.
  destruct (mergeProviderConfig demo_service no_provider (Some demo_task)) as [cfg|e] eqn:Ec;
    [|vm_compute in Ec; discriminate Ec].
  destruct (Task.Pages demo_task !! 0%nat) as [p|] eqn:Ep; [|vm_compute in Ep; discriminate Ep].
  destruct (RetranslatePage_frame demo_service 1 no_provider cfg
              (inl "translator: request failed") demo_task 0 p demo_machine)
    as (p' & w' & Hr & _ & Hre & Hpages).
  - apply lookup_insert_eq.
  - exact Ec.
  - reflexivity.
  - vm_compute. reflexivity.
  - exact Ep.
  - vm_compute in Ep. injection Ep as <-. vm_compute. reflexivity.
  - eexists p', _, w'. split; [exact Hr|].
    destruct Hre as (_ & _ & _ & _ & Hs & _ & _ & _ & Ht).
    split; [exact Hs|]. split.
    + rewrite Ht. vm_compute in Ep. injection Ep as <-. reflexivity.
    + rewrite Hpages, length_insert. reflexivity.
Defined.

(** ** The chunks of a formatting run *)

Lemma writeChunks_chunks `{lib : GoLib} dir idx strs w chunks w' :
  writeChunks dir idx strs w = (Ok chunks, w') ->
  map translator.Data chunks = strs
  /\ forall k c, chunks !! k = Some c ->
       translator.FileName c = chunkFileName (idx + Z.of_nat k + 1)
       /\ translator.MimeType c = "text/plain".
Proof.
  revert idx w chunks w'. induction strs as [|content strs IH]; intros idx w chunks w';
    cbn [writeChunks].
  - intros [= <- _]. split; [reflexivity|]. intros k c Hk. now rewrite lookup_nil in Hk.
  - unfold bind, writeFile. destruct (writeError w) as [msg|]; [discriminate|].
    cbv beta iota.
    match goal with |- context [writeChunks dir ?i strs ?w1] =>
      specialize (IH i w1); destruct (writeChunks dir i strs w1) as [[more|e] w2]
    end; [|discriminate].
    destruct (IH more w2 eq_refl) as (Hd & Hn). unfold ret. intros [= <- _].
    split; [cbn; now rewrite Hd|].
    intros [|k] c Hk; cbn in Hk.
    + injection Hk as <-. cbn. split; [f_equal; lia|reflexivity].
    + destruct (Hn k c Hk) as (Hf & Hmime). split; [|exact Hmime].
      rewrite Hf. f_equal. lia.
Qed.

Lemma FormatTaskLayout_start_shape `{lib : GoLib} (s : TaskService) taskID provider w run w' :
  FormatTaskLayout_start s taskID provider w = (Ok run, w') ->
  exists task cfg text chunks,
    loadTask s taskID w = (Ok task, w)
    /\ mergeProviderConfig s provider (Some task) = Ok cfg
    /\ buildCombinedText task = Ok text
    /\ map translator.Data chunks
       = splitTextChunks text
           (estimateFormatterChunkSize (translator.Type_ cfg) (translator.MaxTokens cfg))
    /\ (forall k c, chunks !! k = Some c ->
          translator.FileName c = chunkFileName (Z.of_nat k + 1)
          /\ translator.MimeType c = "text/plain")
    /\ chunks <> []
    /\ run = freshRun (Task.ID task) chunks.
Proof.
  unfold FormatTaskLayout_start, bind.
  pose proof (loadTask_world s taskID w) as Hlw.
  destruct (loadTask s taskID w) as [[task|e] w0] eqn:Hl; [|discriminate].
  cbn [snd] in Hlw. subst w0.
  destruct (mergeProviderConfig s provider (Some task)) as [cfg|] eqn:Hcfg; [|discriminate].
  destruct (buildCombinedText task) as [text|] eqn:Htext; [|discriminate].
  unfold prepareFormatterChunks at 1.
  destruct (Nat.eqb (length (splitTextChunks text _)) 0) eqn:Hn; [discriminate|].
  apply Nat.eqb_neq in Hn. unfold bind, mkdirAll.
  destruct (writeError w) as [msg|]; [discriminate|]. cbv beta iota.
  match goal with |- context [writeChunks ?d 0 ?l w] =>
    pose proof (writeChunks_chunks d 0 l w) as Hch;
    destruct (writeChunks d 0 l w) as [[chunks|e] w1]
  end; [|discriminate].
  destruct (Hch chunks w1 eq_refl) as (Hd & Hnames).
  destruct (updateFormattingState s (Task.ID task) _ w1) as [[err|] w2]; [discriminate|].
  unfold ret. intros [= <- <-].
  exists task, cfg, text, chunks. split; [reflexivity|]. split; [exact Hcfg|].
  split; [exact Htext|]. split; [exact Hd|]. split.
  - intros k c Hk. destruct (Hnames k c Hk) as (Hf & Hmime). split; [|exact Hmime].
    rewrite Hf. f_equal.
  - split; [|reflexivity]. intros ->. cbn in Hd. rewrite <- Hd in Hn. cbn in Hn. lia.
Qed.

(** A formatting run that starts has at least one chunk; its chunks are
    the pieces that [splitTextChunks] cuts from the combined text of the
    task for the chunk size of the resolved provider, named chunk-001.txt,
    chunk-002.txt and so on: each is valid UTF-8, not empty and at most
    [formatterChunkSize] bytes long, and one after the other they are the
    combined text rune for rune. No goroutine has started yet, and the
    concurrency limit is the number of chunks, at most 3. *)
Theorem FormatTaskLayout_start_chunks `{lib : GoLib} (s : TaskService) (taskID : string)
    (provider : translator.ProviderConfig) (w w' : World) (run : FormatRun) :
  FormatTaskLayout_start s taskID provider w = (Ok run, w') ->
  exists task text,
    loadTask s taskID w = (Ok task, w)
    /\ buildCombinedText task = Ok text
    /\ run = freshRun (Task.ID task) (run_chunks run)
    /\ run_chunks run <> []
    /\ Forall (fun c => 1 <= len (translator.Data c) <= formatterChunkSize
                        /\ ValidString (translator.Data c) = true
                        /\ translator.MimeType c = "text/plain")
         (run_chunks run)
    /\ (forall k c, run_chunks run !! k = Some c ->
          translator.FileName c = chunkFileName (Z.of_nat k + 1))
    /\ concat (map (fun c => runes (translator.Data c)) (run_chunks run)) = runes text
    /\ run_currentLimit run = Z.min 3 (totalChunks run).
Proof.
  intros Hs.
  destruct (FormatTaskLayout_start_shape s taskID provider w run w' Hs)
    as (task & cfg & text & chunks & Hl & Hcfg & Ht & Hd & Hnames & Hne & ->).
  exists task, text. cbn [run_chunks freshRun run_currentLimit].
  split; [exact Hl|]. split; [exact Ht|]. split; [reflexivity|]. split; [exact Hne|].
  remember (estimateFormatterChunkSize (translator.Type_ cfg) (translator.MaxTokens cfg))
    as size eqn:Esize.
  assert (Hsize : minFormatterChunk <= size <= formatterChunkSize).
  { rewrite Esize, estimateFormatterChunkSize_cases. cbv zeta.
    unfold minFormatterChunk, formatterChunkSize.
    destruct (0 <? translator.MaxTokens cfg); destruct (String.eqb _ _);
      try (Z.div_mod_to_equations; lia). }
  unfold minFormatterChunk, formatterChunkSize in Hsize.
  assert (Hbudget : (if size <=? 0 then formatterChunkSize else size) = size).
  { destruct (size <=? 0) eqn:E; zbool; [lia|reflexivity]. }
  destruct (splitTextChunks_upper text size) as [Hup _]; [rewrite Hbudget; lia|].
  rewrite Hbudget in Hup.
  destruct (splitTextChunks_runes text size) as [Hr Hv].
  pose proof (splitTextChunks_nonempty text size) as Hnon.
  rewrite <- Hd in Hup, Hr, Hv, Hnon.
  split.
  { apply Forall_lookup. intros k c Hk.
    assert (Hin : translator.Data c ∈ map translator.Data chunks)
      by (apply list_elem_of_fmap; exists c; split;
          [reflexivity|eapply list_elem_of_lookup_2, Hk]).
    rewrite Forall_forall in Hup, Hv, Hnon.
    split; [split; [apply len_pos_nonempty, Hnon, Hin|]|].
    - specialize (Hup _ Hin). cbv beta in Hup. unfold formatterChunkSize. lia.
    - split; [apply Hv, Hin|apply (Hnames k c Hk)]. }
  split; [intros k c Hk; apply (Hnames k c Hk)|].
  split; [now rewrite <- Hr, map_map|].
  unfold totalChunks. cbn [run_chunks freshRun].
  destruct (Z.of_nat (length chunks) <? 3) eqn:E; zbool; lia.
Qed.

Lemma FormatTaskLayout_start_chunks_witness :
  exists run w',
    FormatTaskLayout_start demo_service "t1" no_provider demo_machine = (Ok run, w')
    /\ run_chunks run <> []
    /\ run_currentLimit run = Z.min 3 (totalChunks run).
Proof.
  destruct (FormatTaskLayout_start demo_service "t1" no_provider demo_machine)
    as [[run|e] w'] eqn:E; [|vm_compute in E; discriminate E].
  exists run, w'. split; [reflexivity|].
  destruct (FormatTaskLayout_start_chunks demo_service "t1" no_provider demo_machine w' run E)
    as (task & text & _ & _ & _ & Hne & _ & _ & _ & Hl).
  split; [exact Hne|exact Hl].
Defined.

Lemma mergeProviderConfig_errors `{lib : GoLib} (s : TaskService)
    (input : translator.ProviderConfig) (task : option Task.t) (e : error) :
  mergeProviderConfig s input task = Err e -> e = ErrMissingAPIKey \/ e = ErrMissingModel.
Proof.
  unfold mergeProviderConfig. cbv zeta.
  destruct (match task with Some _ => _ | None => _ end) as [[[type baseURL] model] maxTokens].
  destruct (String.eqb (strings_TrimSpace _) ""); [intros [= <-]; now left|].
  destruct (String.eqb (strings_TrimSpace _) ""); [intros [= <-]; now right|].
  discriminate.
Qed.

(** A formatting request that does not start leaves every meta.json, the
    clock and the disk's state as they were; it has written files only if
    it came as far as cutting the combined text. It never fails for want
    of chunks: a combined text is not empty. *)
Theorem FormatTaskLayout_start_failure `{lib : GoLib} (s : TaskService) (taskID : string)
    (provider : translator.ProviderConfig) (w w' : World) (e : error) :
  FormatTaskLayout_start s taskID provider w = (Err e, w') ->
  metas w' = metas w /\ clock w' = clock w /\ writeError w' = writeError w
  /\ e <> ErrNoChunks
  /\ (files w' = files w
      \/ exists task cfg text,
           loadTask s taskID w = (Ok task, w)
           /\ mergeProviderConfig s provider (Some task) = Ok cfg
           /\ buildCombinedText task = Ok text).
Proof.
  unfold FormatTaskLayout_start, bind.
  pose proof (loadTask_world s taskID w) as Hlw.
  destruct (loadTask s taskID w) as [[task|e0] w0] eqn:Hl; cbn [snd] in Hlw; subst w0.
  2:{ intros [= <- <-]. repeat split; auto.
      revert Hl. unfold loadTask, bind, readMeta, ret.
      destruct (metas w !! _) as [doc|]; [destruct (Task.ofJSON doc)|]; intros [=]; congruence. }
  destruct (mergeProviderConfig s provider (Some task)) as [cfg|e1] eqn:Hcfg.
  2:{ intros [= <- <-]. repeat split; auto.
      destruct (mergeProviderConfig_errors s provider (Some task) e1 Hcfg); congruence. }
  destruct (buildCombinedText task) as [text|e2] eqn:Htext.
  2:{ intros [= <- <-]. repeat split; auto.
      revert Htext. unfold buildCombinedText. cbv zeta.
      destruct (len _ =? 0); intros [=]; congruence. }
  assert (Hne : splitTextChunks text
                  (estimateFormatterChunkSize (translator.Type_ cfg) (translator.MaxTokens cfg))
                <> []).
  { rewrite splitTextChunks_nil_iff. intros ->. revert Htext.
    unfold buildCombinedText. cbv zeta. destruct (len _ =? 0) eqn:E; [discriminate|].
    intros [= Ht]. rewrite Ht in E. discriminate E. }
  match goal with |- context [prepareFormatterChunks s task text ?sz w] =>
    destruct (prepareFormatterChunks_result s task text sz w) as (Hm1 & Hc1 & He1 & _);
    pose proof (eq_refl (prepareFormatterChunks s task text sz w)) as Hprep;
    unfold prepareFormatterChunks at 2 in Hprep;
    destruct (prepareFormatterChunks s task text sz w) as [[chunks|e3] w1]
  end; cbn [fst snd] in *.
  - match goal with |- context [updateFormattingState s ?i ?m w1] =>
      destruct (updateFormattingState_result s i m w1) as (_ & Hc2 & He2 & Hr);
      destruct (updateFormattingState s i m w1) as [[err|] w2]
    end; [|discriminate]. cbn [fst snd] in *.
    unfold ret. intros [= <- <-].
    assert (Hm2 : metas w2 = metas w1 /\ err <> ErrNoChunks).
    { destruct (metas w1 !! _) as [doc|]; [destruct (Task.ofJSON doc)|].
      - destruct (writeError w1); destruct Hr as [Hr1 Hr2]; [|discriminate Hr1].
        injection Hr1 as ->. split; [exact Hr2|discriminate].
      - destruct Hr as [Hr1 Hr2]. injection Hr1 as ->. split; [exact Hr2|discriminate].
      - destruct Hr as [Hr1 Hr2]. injection Hr1 as ->. split; [exact Hr2|discriminate]. }
    destruct Hm2 as [Hm2 Hne2].
    split; [congruence|]. split; [congruence|]. split; [congruence|]. split; [exact Hne2|].
    right. exists task, cfg, text. auto.
  - intros [= <- <-]. split; [exact Hm1|]. split; [exact Hc1|]. split; [exact He1|].
    split; [|right; exists task, cfg, text; auto].
    revert Hprep.
    destruct (Nat.eqb (length (splitTextChunks text _)) 0) eqn:En.
    { apply Nat.eqb_eq in En. destruct (splitTextChunks text _); [congruence|discriminate En]. }
    unfold bind, mkdirAll. destruct (writeError w) as [msg|];
      [intros [= -> _]; discriminate|].
    cbv beta iota.
    match goal with |- context [writeChunks ?d 0 ?l w] =>
      assert (Hw : forall chs idx w0 err w0',
                writeChunks d idx chs w0 = (Err err, w0') -> err <> ErrNoChunks)
    end.
    { induction chs as [|c chs IH]; intros idx w0 err w0'; cbn [writeChunks].
      - discriminate.
      - unfold bind, writeFile. destruct (writeError w0); [intros [= <- _]; discriminate|].
        cbv beta iota.
        match goal with |- context [writeChunks ?d ?i chs ?wx] =>
          specialize (IH i wx); destruct (writeChunks d i chs wx) as [[more|e4] wy]
        end; [discriminate|].
        intros [= <- _]. eapply IH. reflexivity. }
    intros Hprep. eapply Hw. symmetry. exact Hprep.
Qed.

Lemma FormatTaskLayout_start_failure_witness :
  exists e w',
    FormatTaskLayout_start demo_service "t1" no_provider demo_world = (Err e, w')
    /\ metas w' = metas demo_world /\ e <> ErrNoChunks.
Proof.
  destruct (FormatTaskLayout_start demo_service "t1" no_provider demo_world)
    as [[run|e] w'] eqn:E; [vm_compute in E; discriminate E|].
  exists e, w'. split; [reflexivity|].
  destruct (FormatTaskLayout_start_failure demo_service "t1" no_provider demo_world w' e E)
    as (Hm & _ & _ & Hne & _).
  split; [exact Hm|exact Hne].
Defined.

(** ** The goroutines of a run *)

Lemma countWorkers_nonneg f workers : 0 <= countWorkers f workers.
Proof. induction workers as [|wk l IH]; cbn [countWorkers]; [lia|]. destruct (f wk); lia. Qed.

Lemma countWorkers_le f workers : countWorkers f workers <= Z.of_nat (length workers).
Proof.
  induction workers as [|wk l IH]; cbn [countWorkers length]; [lia|]. destruct (f wk); lia.
Qed.

Lemma countWorkers_insert f workers idx wk wk' :
  workers !! idx = Some wk ->
  countWorkers f (<[idx := wk']> workers)
  = countWorkers f workers - (if f wk then 1 else 0) + (if f wk' then 1 else 0).
Proof.
  revert idx. induction workers as [|x l IH]; intros [|idx] H; cbn in H; try discriminate.
  - injection H as ->. cbn [countWorkers]. cbn. lia.
  - cbn [countWorkers]. change (<[S idx := wk']> (x :: l)) with (x :: <[idx := wk']> l).
    cbn [countWorkers]. rewrite (IH idx H). lia.
Qed.

Lemma countWorkers_replicate f n wk :
  countWorkers f (replicate n wk) = if f wk then Z.of_nat n else 0.
Proof.
  induction n as [|n IH]; cbn [replicate countWorkers]; [now destruct (f wk)|].
  rewrite IH. destruct (f wk); lia.
Qed.

Lemma countWorkers_all f workers :
  Forall (fun wk => f wk = true) workers -> countWorkers f workers = Z.of_nat (length workers).
Proof.
  induction 1 as [|wk l Hwk _ IH]; cbn [countWorkers length]; [reflexivity|].
  rewrite Hwk, IH. lia.
Qed.

(** An invariant of the runs goes through the calls of [FormatTaskLayout]
    that follow one another, when it holds of a fresh run and every move
    of a goroutine keeps it. *)
Lemma fmtRun_invariant `{lib : GoLib} (s : TaskService)
    (Inv : FormatRun -> Prop) (allowed : FormatOp -> Prop) :
  (forall taskID chunks, chunks <> [] -> Inv (freshRun taskID chunks)) ->
  (forall ev run w run' w',
     allowed (FMove ev) -> Inv run -> formatStep s ev run w = (Some run', w') -> Inv run') ->
  forall ops st st',
    Forall allowed ops ->
    match fs_run st with Some run => Inv run | None => True end ->
    fmtRun s ops st = Some st' ->
    match fs_run st' with Some run => Inv run | None => True end.
Proof.
  intros Hfresh Hstep. induction ops as [|op ops IH]; intros st st' Hall Hst; cbn [fmtRun].
  - now intros [= <-].
  - apply Forall_cons in Hall as [Hop Hall].
    destruct (fmtStep s op st) as [st1|] eqn:E; [|discriminate]. cbn.
    apply (IH st1 st' Hall). clear IH Hall. revert E.
    destruct op as [taskID provider|ev| |now|failure]; cbn [fmtStep].
    + destruct (fs_run st); [discriminate|].
      destruct (FormatTaskLayout_start s taskID provider (fs_world st)) as [[run|e] w1] eqn:Es;
        intros [= <-]; cbn [fs_run]; [|exact I].
      destruct (FormatTaskLayout_start_shape s _ _ _ _ _ Es)
        as (task & cfg & text & chunks & _ & _ & _ & _ & _ & Hne & ->).
      now apply Hfresh.
    + destruct (fs_run st) as [run|]; [|discriminate]. cbn.
      destruct (formatStep s ev run (fs_world st)) as [[run'|] w1] eqn:Ef; [|discriminate].
      cbn. intros [= <-]. cbn [fs_run]. eapply Hstep; eauto.
    + destruct (fs_run st) as [run|]; [|discriminate]. cbn.
      destruct (FormatTaskLayout_finish s run (fs_world st)) as [[outcome|] w1];
        [|discriminate].
      cbn. intros [= <-]. exact I.
    + intros [= <-]. exact Hst.
    + intros [= <-]. exact Hst.
Qed.

Lemma formatStep_slots `{lib : GoLib} (s : TaskService) ev run w run' w' :
  slots_ok run -> formatStep s ev run w = (Some run', w') -> slots_ok run'.
Proof.
  intros (Ha & H3 & Hl) Hstep.
  destruct ev as [idx|idx formatted|idx|]; cbn [formatStep] in Hstep.
  - destruct (run_workers run !! idx) as [[r|r|c|]|] eqn:Hw; try discriminate Hstep.
    destruct (run_cancelled run).
    + injection Hstep as <- <-. unfold slots_ok. cbn.
      rewrite (countWorkers_insert _ _ _ _ _ Hw). cbn [calling]. lia.
    + destruct (run_activeSlots run <? run_currentLimit run) eqn:E; [|discriminate Hstep].
      zbool. injection Hstep as <- <-. unfold slots_ok. cbn.
      rewrite (countWorkers_insert _ _ _ _ _ Hw). cbn [calling]. lia.
  - destruct (run_workers run !! idx) as [[r|r|c|]|] eqn:Hw; try discriminate Hstep.
    destruct (run_chunks run !! idx) as [chunk|]; [|discriminate Hstep].
    injection Hstep as <- <-.
    pose proof (countWorkers_nonneg calling (run_workers run)) as H0.
    pose proof (countWorkers_insert calling (run_workers run) idx (Calling r)) as Hins.
    unfold handleFormatted. destruct formatted as [msg|result].
    + destruct (formatterIsRateLimit msg && (r <? 3)).
      * unfold slots_ok, backOff. cbn. rewrite (Hins _ Hw). cbn [calling].
        repeat match goal with |- context [if ?c then _ else _] => destruct c eqn:? end;
          zbool; lia.
      * unfold slots_ok, setError. cbn. destruct (run_firstErr run); cbn;
          rewrite (Hins _ Hw); cbn [calling]; lia.
    + destruct ((0 <? _) && _).
      * unfold slots_ok, setError. cbn. destruct (run_firstErr run); cbn;
          rewrite (Hins _ Hw); cbn [calling]; lia.
      * unfold slots_ok, storeResult. cbn. rewrite (Hins _ Hw). cbn [calling]. lia.
  - destruct (run_workers run !! idx) as [[r|r|c|]|] eqn:Hw; try discriminate Hstep.
    unfold bind, ret in Hstep.
    destruct (updateFormattingState s _ _ w) as [e w1]. injection Hstep as <- <-.
    unfold slots_ok. cbn. rewrite (countWorkers_insert _ _ _ _ _ Hw). cbn [calling]. lia.
  - injection Hstep as <- <-. exact (conj Ha (conj H3 Hl)).
Qed.

(** At no moment of a formatting run are more than three calls of the
    formatter in flight; [activeSlots] is the number of calls in flight.
    This holds for every order of the moves of the goroutines, with
    retries and cancellations. *)
Theorem format_concurrency_cap `{lib : GoLib} (s : TaskService) (w0 : World)
    (ops : list FormatOp) (st : Formatting) (run : FormatRun) :
  fmtRun s ops (idle w0) = Some st ->
  fs_run st = Some run ->
  countWorkers calling (run_workers run) = run_activeSlots run
  /\ 0 <= run_activeSlots run <= 3
  /\ run_currentLimit run <= 3.
Proof.
  intros Hrun Hst.
  pose proof (fmtRun_invariant s slots_ok (fun _ => True)) as Hinv.
  specialize (Hinv ltac:(
    intros taskID chunks _; unfold slots_ok, freshRun; cbn;
    rewrite countWorkers_replicate; cbn [calling];
    split; [reflexivity|split; [lia|destruct (_ <? 3) eqn:E; zbool; lia]])).
  specialize (Hinv ltac:(intros ev r w r' w' _; apply formatStep_slots)).
  specialize (Hinv ops (idle w0) st ltac:(now apply Forall_forall) I Hrun).
  rewrite Hst in Hinv. destruct Hinv as (Ha & H3 & Hl).
  pose proof (countWorkers_nonneg calling (run_workers run)). repeat split; lia.
Qed.

Lemma format_concurrency_cap_witness :
  exists st run,
    fmtRun demo_service demo_rate_limited (idle demo_machine) = Some st
    /\ fs_run st = Some run
    /\ countWorkers calling (run_workers run) = run_activeSlots run
    /\ 0 <= run_activeSlots run <= 3.
Proof.
  destruct (fmtRun demo_service demo_rate_limited (idle demo_machine)) as [st|] eqn:E;
    [|vm_compute in E; discriminate E].
  destruct (fs_run st) as [run|] eqn:Er;
    [|vm_compute in E; injection E as <-; vm_compute in Er; discriminate Er].
  exists st, run. split; [reflexivity|]. split; [exact Er|].
  destruct (format_concurrency_cap demo_service demo_machine demo_rate_limited st run E Er)
    as (Ha & Hb & _).
  split; [exact Ha|exact Hb].
Defined.

Lemma results_ok_set `{lib : GoLib} (run run' : FormatRun) idx wk wk' :
  results_ok run ->
  run_workers run !! idx = Some wk ->
  (stored wk' = stored wk) ->
  run_chunks run' = run_chunks run ->
  run_results run' = run_results run ->
  run_workers run' = <[idx := wk']> (run_workers run) ->
  run_completedChunks run' = run_completedChunks run ->
  (run_firstErr run' = None -> run_firstErr run = None /\ run_cancelled run' = run_cancelled run) ->
  results_ok run'.
Proof.
  intros (Hlw & Hlr & Hok) Hw Hst Hch Hres Hwk Hco Herr. unfold results_ok.
  rewrite Hch, Hres, Hwk, Hco, length_insert.
  split; [exact Hlw|]. split; [exact Hlr|].
  intros He. destruct (Herr He) as [He0 Hca]. destruct (Hok He0) as (Hc & Hn & Hall).
  split; [congruence|]. split.
  - rewrite (countWorkers_insert _ _ _ _ _ Hw), Hst. lia.
  - intros i wi. destruct (decide (i = idx)) as [->|Hne].
    + rewrite list_lookup_insert_eq by (eapply lookup_lt_Some; eauto).
      intros [= <-] Hs. apply (Hall idx wk Hw). congruence.
    + rewrite list_lookup_insert_ne by congruence. apply Hall.
Qed.

Lemma results_ok_failed `{lib : GoLib} (run run' : FormatRun) :
  results_ok run ->
  run_chunks run' = run_chunks run ->
  length (run_results run') = length (run_results run) ->
  length (run_workers run') = length (run_workers run) ->
  run_firstErr run' <> None ->
  results_ok run'.
Proof.
  intros (Hlw & Hlr & _) Hch Hres Hwk Herr. unfold results_ok.
  rewrite Hch, Hres, Hwk. split; [exact Hlw|]. split; [exact Hlr|]. congruence.
Qed.

Ltac set_worker Hok Hw new :=
  eapply results_ok_set with (wk' := new);
  [exact Hok|exact Hw|reflexivity|reflexivity|reflexivity|reflexivity|reflexivity
  |cbn; intros He'; split; [exact He'|reflexivity]].

Lemma formatStep_results `{lib : GoLib} (s : TaskService) ev run w run' w' :
  ev <> Cancel ->
  results_ok run -> formatStep s ev run w = (Some run', w') -> results_ok run'.
Proof.
  intros Hev Hok Hstep.
  destruct ev as [idx|idx formatted|idx|]; cbn [formatStep] in Hstep; [| | |congruence].
  - destruct (run_workers run !! idx) as [[r|r|c|]|] eqn:Hw; try discriminate Hstep.
    destruct (run_cancelled run) eqn:Hc.
    + injection Hstep as <- <-. destruct Hok as (Hlw & Hlr & Hok).
      unfold results_ok. cbn. rewrite length_insert.
      split; [exact Hlw|]. split; [exact Hlr|]. intros He.
      destruct (Hok He) as (Hc' & _). congruence.
    + destruct (run_activeSlots run <? run_currentLimit run); [|discriminate Hstep].
      injection Hstep as <- <-.
      set_worker Hok Hw (Calling r).
  - destruct (run_workers run !! idx) as [[r|r|c|]|] eqn:Hw; try discriminate Hstep.
    destruct (run_chunks run !! idx) as [chunk|] eqn:Hch; [|discriminate Hstep].
    injection Hstep as <- <-. unfold handleFormatted.
    destruct formatted as [msg|result].
    + destruct (formatterIsRateLimit msg && (r <? 3)).
      * set_worker Hok Hw (Waiting (r + 1)).
      * apply (results_ok_failed run); [exact Hok|..];
          unfold setError; cbn; destruct (run_firstErr run) eqn:E; cbn;
          rewrite ?length_insert; congruence.
    + destruct ((0 <? _) && _) eqn:Etr.
      * apply (results_ok_failed run); [exact Hok|..];
          unfold setError; cbn; destruct (run_firstErr run) eqn:E; cbn;
          rewrite ?length_insert; congruence.
      * destruct Hok as (Hlw & Hlr & Hok). unfold results_ok, storeResult. cbn.
        rewrite !length_insert. split; [exact Hlw|]. split; [exact Hlr|].
        intros He. destruct (Hok He) as (Hc & Hn & Hall).
        split; [exact Hc|]. split.
        -- rewrite (countWorkers_insert _ _ _ _ _ Hw). cbn [stored]. lia.
        -- intros i wi. destruct (decide (i = idx)) as [->|Hne].
           ++ intros _ _. exists chunk, result. split; [exact Hch|].
              split; [apply list_lookup_insert_eq; rewrite Hlr; eapply lookup_lt_Some, Hch|].
              unfold plausible. cbv zeta. intros [H1 H2].
              apply andb_false_iff in Etr. destruct Etr as [E|E]; zbool; lia.
           ++ rewrite !list_lookup_insert_ne by congruence. apply Hall.
  - destruct (run_workers run !! idx) as [[r|r|c|]|] eqn:Hw; try discriminate Hstep.
    unfold bind, ret in Hstep.
    destruct (updateFormattingState s _ _ w) as [e w1]. injection Hstep as <- <-.
    set_worker Hok Hw Returned.
Qed.

Lemma allReturned_stored (run : FormatRun) :
  allReturned run = true -> Forall (fun wk => stored wk = true) (run_workers run).
Proof.
  unfold allReturned. rewrite forallb_forall, Forall_forall.
  intros H wk Hin. apply list_elem_of_In in Hin. specialize (H wk Hin).
  destruct wk; [discriminate..|reflexivity].
Qed.

(** When the caller does not cancel, a run that ends with success has
    formatted every chunk: [completedChunks] is the number of chunks, and
    the result kept for each chunk is the trimmed answer of the formatter
    for it, which passed the check against truncation. The formatted text,
    those results joined by blank lines and trimmed, is not empty and is
    what formatted.txt then holds; the task returned is the one meta.json
    holds, marked formatted by AI, not in progress, all chunks completed. *)
Theorem format_success_complete `{lib : GoLib} (s : TaskService) (w0 w' : World)
    (ops : list FormatOp) (st : Formatting) (run : FormatRun)
    (task : Task.t) (url : string) :
  Forall notCancelled ops ->
  fmtRun s ops (idle w0) = Some st ->
  fs_run st = Some run ->
  FormatTaskLayout_finish s run (fs_world st) = (Some (Ok (task, url)), w') ->
  let formatted := strings_TrimSpace (strings_Join (run_results run) (LF ++ LF)) in
  run_completedChunks run = totalChunks run
  /\ Forall2 (fun chunk result =>
                exists answer, result = strings_TrimSpace answer /\ plausible chunk result)
       (run_chunks run) (run_results run)
  /\ formatted <> ""
  /\ files w' !! filepath_Join [taskDir s (run_taskID run); "formatted.txt"] = Some formatted
  /\ metas w' !! metaPath s (Task.ID task) = Some (Task.toJSON task)
  /\ Task.FormattedByAI task = true
  /\ Task.FormattingInProgress task = false
  /\ Task.FormattingCompletedChunks task = totalChunks run
  /\ Task.FormattingTotalChunks task = totalChunks run
  /\ url = Task.FormattedTxtURL task.
Proof.
  intros Hall Hrun Hst Hfin formatted.
  pose proof (fmtRun_invariant s results_ok notCancelled) as Hinv.
  specialize (Hinv ltac:(
    intros taskID chunks _; unfold results_ok, freshRun; cbn;
    rewrite !length_replicate, countWorkers_replicate; cbn [stored];
    repeat split; try reflexivity;
    intros idx wk Hi Hs; apply lookup_replicate in Hi as [-> _]; discriminate Hs)).
  specialize (Hinv ltac:(
    intros ev r w r' w1 Hev; apply formatStep_results; intros ->; exact Hev)).
  specialize (Hinv ops (idle w0) st Hall I Hrun). rewrite Hst in Hinv.
  destruct Hinv as (Hlw & Hlr & Hok).
  revert Hfin. unfold FormatTaskLayout_finish.
  destruct (allReturned run) eqn:Hret; cbn [negb]; [|discriminate].
  destruct (run_firstErr run) as [e|] eqn:He.
  { unfold bind. destruct (finalize s false run _). discriminate. }
  fold formatted. destruct (String.eqb formatted "") eqn:Hf.
  { unfold bind. destruct (finalize s false run _). discriminate. }
  apply String.eqb_neq in Hf.
  unfold bind at 1. unfold writeFile. destruct (writeError (fs_world st)) as [msg|] eqn:Hw.
  { unfold bind. destruct (finalize s false run _). discriminate. }
  cbv beta iota. unfold bind at 1.
  match goal with |- context [loadTask s ?i ?w1] =>
    pose proof (loadTask_world s i w1) as Hlw1;
    destruct (loadTask s i w1) as [[loaded|e] w2]
  end; [|discriminate]. cbn [snd] in Hlw1. subst w2.
  unfold bind, saveTask.
  match goal with |- context [saveTaskLocked s ?t ?w1] =>
    rewrite (saveTaskLocked_ok s t w1 eq_refl)
  end.
  cbn [fst snd]. unfold ret. intros [= <- <- <-].
  destruct (Hok eq_refl) as (_ & Hn & Hres).
  pose proof (allReturned_stored run Hret) as Hsto.
  split.
  { rewrite Hn, (countWorkers_all _ _ Hsto). unfold totalChunks. now rewrite Hlw. }
  split.
  { apply Forall2_same_length_lookup. split; [congruence|].
    intros i chunk result Hc Hr.
    destruct (lookup_lt_is_Some_2 (run_workers run) i) as [wk Hwk].
    { rewrite Hlw. eapply lookup_lt_Some, Hc. }
    rewrite Forall_forall in Hsto.
    destruct (Hres i wk Hwk (Hsto wk (list_elem_of_lookup_2 _ _ _ Hwk)))
      as (chunk' & answer & Hc' & Hr' & Hp).
    rewrite Hc in Hc'. injection Hc' as <-. rewrite Hr in Hr'. injection Hr' as ->.
    exists answer. split; [reflexivity|exact Hp]. }
  split; [exact Hf|]. cbn [files metas].
  split; [apply lookup_insert_eq|].
  split; [destruct loaded; apply lookup_insert_eq|].
  destruct loaded; cbn. repeat split; reflexivity.
Qed.

Lemma format_success_complete_witness :
  exists st run task url w',
    fmtRun demo_service
      [FStart "t1" no_provider; FMove (Acquire 0); FMove (Respond 0 (inr "Bonjour !"));
       FMove (Persist 0)] (idle demo_machine) = Some st
    /\ fs_run st = Some run
    /\ FormatTaskLayout_finish demo_service run (fs_world st) = (Some (Ok (task, url)), w')
    /\ run_completedChunks run = totalChunks run
    /\ Task.FormattedByAI task = true
    /\ url = Task.FormattedTxtURL task.
Proof.
  destruct (fmtRun demo_service
              [FStart "t1" no_provider; FMove (Acquire 0); FMove (Respond 0 (inr "Bonjour !"));
               FMove (Persist 0)] (idle demo_machine)) as [st|] eqn:E;
    [|vm_compute in E; discriminate E].
  destruct (fs_run st) as [run|] eqn:Er;
    [|vm_compute in E; injection E as <-; vm_compute in Er; discriminate Er].
  destruct (FormatTaskLayout_finish demo_service run (fs_world st)) as [[[[task url]|e]|] w']
    eqn:Ef;
    [|vm_compute in E; injection E as <-; vm_compute in Er; injection Er as <-;
      vm_compute in Ef; discriminate Ef..].
  exists st, run, task, url, w'. split; [reflexivity|]. split; [exact Er|].
  split; [exact Ef|].
  destruct (format_success_complete demo_service demo_machine w'
              [FStart "t1" no_provider; FMove (Acquire 0); FMove (Respond 0 (inr "Bonjour !"));
               FMove (Persist 0)] st run task url)
    as (Hc & _ & _ & _ & _ & Hby & _ & _ & _ & Hu).
  - repeat constructor.
  - exact E.
  - exact Er.
  - exact Ef.
  - split; [exact Hc|]. split; [exact Hby|exact Hu].
Defined.

(** ** Properties of the pages that every operation keeps *)


Section PageInvariant.

Context `{lib : GoLib} (s : TaskService).

Variable P : PageResult.t -> Prop.

(** What [CreateTask] and [translateSinglePage] do to a page keeps [P]. *)
Hypothesis P_new : forall id n img url path now,
  1 <= n -> P (PageResult.mk id n img url path "" false "" "" PageStatusPending "" now).

Hypothesis P_skipped : forall id n img url path now now',
  1 <= n ->
  P (skipPage now' (PageResult.mk id n img url path "" false "" "" PageStatusPending "" now)).

Hypothesis P_failed : forall p msg now,
  P p ->
  P (PageResult.set_UpdatedAt now
       (PageResult.set_Error msg (PageResult.set_Status PageStatusError p))).

Hypothesis P_unwritten : forall p hasText source translation msg now,
  P p ->
  P (PageResult.set_UpdatedAt now
       (PageResult.set_Error msg
          (PageResult.set_Status PageStatusError
             (PageResult.set_Error ""
                (PageResult.set_Translation translation
                   (PageResult.set_SourceText source
                      (PageResult.set_HasText hasText p))))))).

Hypothesis P_completed : forall p hasText source translation url now,
  P p ->
  (url <> "" -> hasText = true /\ translation <> "") ->
  P (PageResult.set_UpdatedAt now
       (PageResult.set_Status PageStatusCompleted
          (PageResult.set_TextURL url
             (PageResult.set_Error ""
                (PageResult.set_Translation translation
                   (PageResult.set_SourceText source
                      (PageResult.set_HasText hasText p))))))).















End PageInvariant.








(** ** What a formatting run leaves alone *)

Section FormatFrame.

Context `{lib : GoLib} (s : TaskService).

















End FormatFrame.



